(** * Gmail-GEN: aggregation and dispatch of payment notifications

    A shallow embedding of [GmailGenService] (backend-terracanada,
    [src/services/GmailGenService.ts] and its sibling revision that keeps the
    audit methods), followed by the properties of the aggregation and
    dispatch pipeline.

    Layout: texts and numbers of the JavaScript runtime, JSON values, the
    relational tables and the SELECT of [obtenerPagosDirectos], the effects
    of one request (store, webhook, audit write), the service methods, and
    then the theorems.  Two pieces of the Angular client come after the
    service: the document upload component and the history getters of the
    Gmail-GEN page. *)

From Stdlib Require Import ZArith NArith List Bool Lia String Ascii.
From Stdlib Require Import Sorted Permutation.
From Stdlib Require Import Floats DecimalNat DecimalN DecimalZ.
Import ListNotations.

Set Implicit Arguments.
Set Warnings "-register-all,-inexact-float".

(** ** Texts

    A JavaScript string is modelled as the list of its code points (a lone
    surrogate counts as its own code point).  Every text the service looks
    into ([trim], [startsWith], Map keys) is compared code point by code
    point, which for these operations agrees with UTF-16 code units. *)

Definition texto := list N.

(** An ASCII literal of the source. *)
Definition lit (s : string) : texto := map N_of_ascii (list_ascii_of_string s).

Definition texto_eq_dec : forall a b : texto, {a = b} + {a <> b} :=
  list_eq_dec N.eq_dec.

Definition texto_eqb (a b : texto) : bool :=
  if texto_eq_dec a b then true else false.

(** WhiteSpace and LineTerminator of ECMAScript, the code points that
    [String.prototype.trim] strips. *)
Definition esBlanco (c : N) : bool :=
  match c with
  | 9 | 10 | 11 | 12 | 13 | 32 | 160 | 5760
  | 8232 | 8233 | 8239 | 8287 | 12288 | 65279 => true
  | _ => (8192 <=? c) && (c <=? 8202)
  end%N.

Fixpoint trimStart (s : texto) : texto :=
  match s with
  | [] => []
  | c :: r => if esBlanco c then trimStart r else s
  end.

Definition trimEnd (s : texto) : texto := rev (trimStart (rev s)).

Definition trim (s : texto) : texto := trimEnd (trimStart s).

Fixpoint startsWith (s prefijo : texto) : bool :=
  match prefijo, s with
  | [], _ => true
  | _ :: _, [] => false
  | p :: ps, c :: cs => (c =? p)%N && startsWith cs ps
  end.

Definition mayusculaAscii (c : N) : N :=
  if ((97 <=? c) && (c <=? 122))%N then (c - 32)%N else c.

(** Decimal digits, most significant first. *)
Fixpoint digitos (u : Decimal.uint) : texto :=
  match u with
  | Decimal.Nil => []
  | Decimal.D0 r => 48%N :: digitos r
  | Decimal.D1 r => 49%N :: digitos r
  | Decimal.D2 r => 50%N :: digitos r
  | Decimal.D3 r => 51%N :: digitos r
  | Decimal.D4 r => 52%N :: digitos r
  | Decimal.D5 r => 53%N :: digitos r
  | Decimal.D6 r => 54%N :: digitos r
  | Decimal.D7 r => 55%N :: digitos r
  | Decimal.D8 r => 56%N :: digitos r
  | Decimal.D9 r => 57%N :: digitos r
  end.

(** [`${n}`] for an array length. *)
Definition texto_de_nat (n : nat) : texto := digitos (Nat.to_uint n).

(** [`${z}`] for an integer key, as [Array.prototype.join] prints it. *)
Definition texto_de_Z (z : Z) : texto :=
  match Z.to_int z with
  | Decimal.Pos u => digitos u
  | Decimal.Neg u => 45%N :: digitos u
  end.

(** [xs.join(sep)] on texts. *)
Fixpoint join (sep : texto) (xs : list texto) : texto :=
  match xs with
  | [] => []
  | [x] => x
  | x :: r => x ++ sep ++ join sep r
  end.

(** ** Numbers

    A JavaScript number is a binary64 float.  Counters of array elements
    stay natural numbers in the model (an array length is below 2^32, where
    the float arithmetic of [+= 1] is exact) and enter a number-typed field
    through [numero_de_nat]. *)

Definition numero_de_nat (n : nat) : float :=
  PrimFloat.of_uint63 (Uint63.of_Z (Z.of_nat n)).

(** A number is falsy when it is NaN, [0] or [-0]. *)
Definition numeroFalsy (x : float) : bool := is_nan x || is_zero x.

(** [x || 0] on a number. *)
Definition o_cero (x : float) : float := if numeroFalsy x then 0%float else x.

(** [x >= 400]: false on NaN. *)
Definition ge400 (x : float) : bool := PrimFloat.leb 400%float x.

(** The integer [n] for which [n / 100 - m * 2^e] is closest to zero, the
    larger one on a tie (step 11.a of [Number.prototype.toFixed]). *)
Definition centesimas (m : positive) (e : Z) : Z :=
  if (0 <=? e)%Z then 100 * Z.pos m * 2 ^ e
  else (200 * Z.pos m + 2 ^ (- e)) / 2 ^ (1 - e).

(** [m * 2^e >= 10^21]. *)
Definition desde1e21 (m : positive) (e : Z) : bool :=
  if (0 <=? e)%Z then (10 ^ 21 <=? Z.pos m * 2 ^ e)%Z
  else (10 ^ 21 * 2 ^ (- e) <=? Z.pos m)%Z.

(** Steps 11.b-11.c of [toFixed] with two fraction digits: the digits of
    [n], padded with zeros to three at least, a point before the last two. *)
Definition fijarDos (n : Z) : texto :=
  let m := digitos (N.to_uint (Z.to_N n)) in
  let m := repeat 48%N (3 - List.length m) ++ m in
  let k := List.length m in
  firstn (k - 2) m ++ 46%N :: skipn (k - 2) m.

(** ** JSON values

    What the driver and the webhook hand to the service as [any]. *)

Inductive jsval : Type :=
| VUndefined
| VNull
| VBool (b : bool)
| VNum (x : float)
| VStr (s : texto)
| VArr (elementos : list jsval)
| VObj (campos : list (texto * jsval)).

(** ToBoolean. *)
Definition truthy (v : jsval) : bool :=
  match v with
  | VUndefined | VNull => false
  | VBool b => b
  | VNum x => negb (numeroFalsy x)
  | VStr s => match s with [] => false | _ => true end
  | VArr _ | VObj _ => true
  end.

Fixpoint buscar (k : texto) (campos : list (texto * jsval)) : jsval :=
  match campos with
  | [] => VUndefined
  | (k', v) :: r => if texto_eqb k k' then v else buscar k r
  end.

(** [v.k] (or [v?.k]) for one of the keys the service reads: own property
    of an object, [undefined] on anything else.  The service guards every
    such access so that it never lands on [null] or [undefined] without
    [?.]. *)
Definition prop (v : jsval) (k : string) : jsval :=
  match v with
  | VObj campos => buscar (lit k) campos
  | _ => VUndefined
  end.

(** [a ?? b]. *)
Definition coalescer (a b : jsval) : jsval :=
  match a with
  | VUndefined | VNull => b
  | _ => a
  end.

(** [a || b]. *)
Definition o_bien (a b : jsval) : jsval := if truthy a then a else b.

(** [typeof v === 'number']. *)
Definition esNumero (v : jsval) : bool :=
  match v with
  | VNum _ => true
  | _ => false
  end.

(** A thrown value: an [Error] with its message, or anything else. *)
Inductive excepcion : Type :=
| Error (message : texto)
| Lanzado (valor : jsval).

(** ** The platform

    Behaviour of the runtime and of the database server that the repository
    relies on and does not define; the service is modelled for every
    platform. *)

Record Plataforma : Type := {
  (** the upper-case mapping of a code point outside ASCII (with the
      multi-character special cases) *)
  mayusculaUnicode : N -> texto;
  (** ToNumber on a string, an array or an object *)
  numeroDeObjeto : jsval -> float;
  (** [Number::toString] of a finite number from 10^21 upwards *)
  numeroATexto : float -> texto;
  (** [JSON.parse] *)
  JSON_parse : texto -> excepcion + jsval;
  (** the collation behind [ORDER BY pr.nombre ASC]: [colacion a b] when
      [a] sorts before or with [b] *)
  colacion : texto -> texto -> bool
}.

Section Runtime.

Variable pl : Plataforma.

(** [s.toUpperCase()]. *)
Definition toUpperCase (s : texto) : texto :=
  flat_map (fun c => if (c <? 128)%N then [mayusculaAscii c]
                     else mayusculaUnicode pl c) s.

(** [Number(v)]. *)
Definition Number (v : jsval) : float :=
  match v with
  | VUndefined => nan
  | VNull => 0%float
  | VBool b => if b then 1%float else 0%float
  | VNum x => x
  | VStr _ | VArr _ | VObj _ => numeroDeObjeto pl v
  end.

(** [x.toFixed(2)]. *)
Definition toFixed2 (x : float) : texto :=
  match Prim2SF x with
  | S754_nan => lit "NaN"
  | S754_infinity s => if s then lit "-Infinity" else lit "Infinity"
  | S754_zero _ => lit "0.00"
  | S754_finite s m e =>
      (if s then [45%N] else []) ++
      (if desde1e21 m e then numeroATexto pl (abs x)
       else fijarDos (centesimas m e))
  end.

(** [typeof raw === 'string' ? JSON.parse(raw) : raw]. *)
Definition parsear (raw : jsval) : excepcion + jsval :=
  match raw with
  | VStr s => JSON_parse pl s
  | _ => inr raw
  end.

End Runtime.

(** ** The relational store

    The tables the SELECT of [obtenerPagosDirectos] reads.  [fecha_pago]
    holds [DATE(p.fecha_pago)] as the text the [:fecha] parameter is
    compared with; [monto] is the column as the driver returns it. *)

Module Tabla.

Record Pago : Type := {
  id_pago : Z;
  usuario_id : Z;
  proveedor_id : Z;
  cliente : texto;
  monto : jsval;
  codigo : option texto;
  estado : texto;
  esta_activo : bool;
  fecha_pago : texto
}.

Record Proveedor : Type := {
  id : Z;
  nombre : texto;
  correo : texto
}.

Record DetalleEnvioCorreo : Type := {
  pago_id : Z;
  envio_id : Z
}.

(** Modelled from the spec: the Delivery row ("envio"), whose table and
    whose writer [registrar_envio_correo_con_detalles] are not in the
    sources.  Section 3 of the spec lists its attributes (the timestamp is
    left out: no clock reaches the write); [estado] is the status the store
    gives the row, since the write receives none. *)
Record Envio : Type := {
  id_envio : Z;
  e_proveedor_id : Z;
  e_usuario_envio_id : Z;
  e_fecha_resumen : texto;
  e_cantidad_pagos : nat;
  e_monto_total : float;
  e_asunto : texto;
  e_cuerpo : texto;
  e_estado : texto;
  e_pagos_tarjeta : list Z;
  e_pagos_bancario : list Z
}.

End Tabla.

Record BaseDatos : Type := {
  pagos : list Tabla.Pago;
  proveedores : list Tabla.Proveedor;
  detalle_envio_correo : list Tabla.DetalleEnvioCorreo;
  envios : list Tabla.Envio
}.

(** A row of the SELECT: the seven selected columns. *)
Module Fila.

Record t : Type := {
  id_pago : Z;
  cliente : texto;
  monto : jsval;
  codigo : option texto;
  id_proveedor : Z;
  nombre_proveedor : texto;
  correo : texto
}.

End Fila.

(** [ORDER BY]: a stable insertion sort by a boolean order on a key.  Rows
    whose keys tie come out in the order of the list sorted, which is one of
    the orders the statement may return them in and not the only one; what
    is proved of two executions is proved over tables that hold the same
    rows in any order ([mismasFilas] below). *)
Section Orden.

Variables (A K : Type) (clave : A -> K) (le : K -> K -> bool).

Fixpoint insertar (x : A) (l : list A) : list A :=
  match l with
  | [] => [x]
  | y :: r => if le (clave x) (clave y) then x :: l else y :: insertar x r
  end.

Fixpoint ordenar (l : list A) : list A :=
  match l with
  | [] => []
  | x :: r => insertar x (ordenar r)
  end.

End Orden.

Section Consulta.

Variable pl : Plataforma.

(** [EXISTS (SELECT 1 FROM detalle_envio_correo dec WHERE dec.pago_id = :id)]. *)
Definition reclamado (db : BaseDatos) (idp : Z) : bool :=
  existsb (fun d => (Tabla.pago_id d =? idp)%Z) (detalle_envio_correo db).

(** [FROM pagos p JOIN proveedores pr ON p.proveedor_id = pr.id]. *)
Definition pagos_con_proveedor (db : BaseDatos)
  : list (Tabla.Pago * Tabla.Proveedor) :=
  flat_map
    (fun p => map (pair p)
                (filter (fun pr => (Tabla.proveedor_id p =? Tabla.id pr)%Z)
                   (proveedores db)))
    (pagos db).

(** [if (proveedorId)]: the filter is added for a truthy id only. *)
Definition filtraProveedor (proveedorId : option Z) (pr : Tabla.Proveedor)
  : bool :=
  match proveedorId with
  | None => true
  | Some i => if (i =? 0)%Z then true else (Tabla.id pr =? i)%Z
  end.

(** The WHERE clause.  [DATE(p.fecha_pago) = :fecha] compares the day of
    the row, held as text, with the parameter as texts: a parameter that is
    not a day written as the table writes it selects no row here, whatever
    the database would make of it. *)
Definition elegible (db : BaseDatos) (usuarioId : Z) (fecha : texto)
    (proveedorId : option Z) (x : Tabla.Pago * Tabla.Proveedor) : bool :=
  let (p, pr) := x in
  (Tabla.usuario_id p =? usuarioId)%Z
  && texto_eqb (Tabla.estado p) (lit "PAGADO")
  && Tabla.esta_activo p
  && negb (reclamado db (Tabla.id_pago p))
  && texto_eqb (Tabla.fecha_pago p) fecha
  && filtraProveedor proveedorId pr.

(** The SELECT list. *)
Definition seleccionar (x : Tabla.Pago * Tabla.Proveedor) : Fila.t :=
  let (p, pr) := x in
  {| Fila.id_pago := Tabla.id_pago p;
     Fila.cliente := Tabla.cliente p;
     Fila.monto := Tabla.monto p;
     Fila.codigo := Tabla.codigo p;
     Fila.id_proveedor := Tabla.id pr;
     Fila.nombre_proveedor := Tabla.nombre pr;
     Fila.correo := Tabla.correo pr |}.

(** The rows the statement of [obtenerPagosDirectos] denotes. *)
Definition consultaPagosDirectos (db : BaseDatos) (usuarioId : Z)
    (fecha : texto) (proveedorId : option Z) : list Fila.t :=
  ordenar Fila.nombre_proveedor (colacion pl)
    (map seleccionar
       (filter (elegible db usuarioId fecha proveedorId)
          (pagos_con_proveedor db))).

End Consulta.

(** ** The service's data *)

(** [interface GmailPaymentRecord]. *)
Module GmailPaymentRecord.

Record t : Type := {
  id : Z;
  cliente : texto;
  monto : float;
  codigo : option texto
}.

End GmailPaymentRecord.

Inductive GmailGroupEstado : Type := pendiente | enviado.

Inductive Color : Type := teal | brown.

(** [interface GmailEmailGroup] (without the optional [ultimoEnvio], which
    no method fills). *)
Module GmailEmailGroup.

Record t : Type := {
  id : Z;
  proveedorNombre : texto;
  correoContacto : texto;
  color : Color;
  estado : GmailGroupEstado;
  pagos : list GmailPaymentRecord.t;
  totalPagos : float;
  totalMonto : float
}.

End GmailEmailGroup.

(** [interface ServiceResponse<T>]: [error] and [statusCode] are whatever the
    method put there, which for a refused audit write is taken from the
    store's answer. *)
Record ServiceResponse (T : Type) : Type := {
  success : bool;
  data : option T;
  error : option jsval;
  statusCode : jsval
}.

Arguments success {T}.
Arguments data {T}.
Arguments error {T}.
Arguments statusCode {T}.

(** [infoCorreoExtendido]. *)
Module InfoCorreo.

Record t : Type := {
  fecha : texto;
  correo : texto;
  proveedor : texto;
  monto_total : float;
  cantidad_pagos : nat;
  asunto : texto;
  mensaje : texto
}.

End InfoCorreo.

(** An element of [info_pagos]. *)
Module InfoPago.

Record t : Type := {
  monto : float;
  codigo : option texto;
  cliente : texto
}.

End InfoPago.

Record WebhookPayload : Type := {
  info_correo : InfoCorreo.t;
  info_pagos : list InfoPago.t
}.

(** The nine replacements of the call of
    [registrar_envio_correo_con_detalles]. *)
Module Registro.

Record t : Type := {
  proveedor_id : Z;
  usuario_envio_id : Z;
  fecha_resumen : texto;
  cantidad_pagos : nat;
  monto_total : float;
  asunto_correo : texto;
  cuerpo_correo : texto;
  ids_pagos_tarjeta : texto;
  ids_pagos_bancario : texto
}.

End Registro.

(** The [data] of a successful [enviarCorreoProveedor]. *)
Module Reporte.

Record t : Type := {
  envio : jsval;
  infoCorreo : InfoCorreo.t;
  infoPagos : list GmailPaymentRecord.t;
  webhook : jsval
}.

End Reporte.

(** The answer of the stored functions [resumen_envios_fecha_get] and
    [correos_pendientes_general_get] once parsed, in the shape the casts of
    the service give it: [data] (or [datos]) maps a provider name to its
    details.  What the service inspects at run time stays a JSON value;
    [None] is an absent or null member. *)
Module Origen.

Record Pago : Type := {
  id_pago : Z;
  cliente : texto;
  monto : jsval;
  codigo : option texto
}.

Record Resumen : Type := {
  cantidad_pagos : jsval;
  monto_total : jsval
}.

Record Detalles : Type := {
  id_proveedor : Z;
  correo : texto;
  pagos : option (list Pago);
  resumen : option Resumen
}.

Definition Datos : Type := list (texto * option Detalles).

Record Respuesta : Type := {
  status : jsval;
  estado : jsval;
  message : jsval;
  mensaje : jsval;
  data : option Datos;
  datos : option Datos
}.

End Origen.

(** [let estadoEnvio = 'ENVIADO' | 'ERROR_WEBHOOK']. *)
Inductive EstadoEnvio : Type := ENVIADO | ERROR_WEBHOOK.

(** ** Effects of one request

    The world a request runs in: the tables, the payloads posted to the
    webhook and the audit writes issued, both in order.  The environment
    answers the calls that leave the process. *)

Record Mundo : Type := {
  base : BaseDatos;
  enviados : list WebhookPayload;
  registros : list Registro.t
}.

(** How [axios.post] settles: resolved with the response body, or rejected
    (network error, timeout, status outside 2xx). *)
Inductive Respuesta : Type :=
| Resuelve (cuerpo : jsval)
| Rechaza (e : excepcion).

Record Entorno : Type := {
  (** [new Date().toLocaleDateString('en-CA')] *)
  fechaLocal : texto;
  (** [Some e] when the driver rejects the SELECT with [e] *)
  fallo_select : option excepcion;
  (** the webhook behind [axios.post] *)
  axios_post : WebhookPayload -> Respuesta;
  (** the stored function [registrar_envio_correo_con_detalles] behind
      [db.query]: the tables after the call, and the [result] column of its
      one row or the error the driver rejects with *)
  registrar_envio_correo_con_detalles :
    BaseDatos -> Registro.t -> BaseDatos * (excepcion + jsval);
  (** the stored functions of the two JSON summaries, with the parse of
      their [result]: [inl] when the query or [JSON.parse] throws, [None]
      for a falsy result *)
  resumen_envios_fecha_get :
    BaseDatos -> Z -> texto -> excepcion + option Origen.Respuesta;
  correos_pendientes_general_get :
    BaseDatos -> Z -> excepcion + option Origen.Respuesta
}.

(** The same environment with another webhook. *)
Definition conWebhook (ent : Entorno) (post : WebhookPayload -> Respuesta)
  : Entorno :=
  {| fechaLocal := fechaLocal ent;
     fallo_select := fallo_select ent;
     axios_post := post;
     registrar_envio_correo_con_detalles :=
       registrar_envio_correo_con_detalles ent;
     resumen_envios_fecha_get := resumen_envios_fecha_get ent;
     correos_pendientes_general_get := correos_pendientes_general_get ent |}.

(** An awaited computation: it changes the world and returns or throws. *)
Definition Efecto (A : Type) : Type := Mundo -> Mundo * (excepcion + A).

Definition ret {A : Type} (a : A) : Efecto A := fun w => (w, inr a).

Definition lanzar {A : Type} (e : excepcion) : Efecto A := fun w => (w, inl e).

Definition bind {A B : Type} (c : Efecto A) (k : A -> Efecto B) : Efecto B :=
  fun w =>
    match c w with
    | (w', inl e) => (w', inl e)
    | (w', inr a) => k a w'
    end.

Notation "x <- c ;; k" := (bind c (fun x => k))
  (at level 61, c at next level, right associativity).

(** A synchronous step that may throw. *)
Definition deResultado {A : Type} (r : excepcion + A) : Efecto A :=
  fun w => (w, r).

(** [try { c } catch (error) { return h(error) }] around a whole method. *)
Definition intentar {A : Type} (c : Efecto A) (h : excepcion -> A)
  : Mundo -> Mundo * A :=
  fun w =>
    match c w with
    | (w', inl e) => (w', h e)
    | (w', inr a) => (w', a)
    end.

(** ** GmailGenService (src/services/GmailGenService.ts) *)

Module GmailGenService.

(** An entry of [mapGroups]. *)
Record Detalles : Type := {
  id_proveedor : Z;
  correo : texto;
  pagos : list GmailPaymentRecord.t;
  monto_total : float;
  cantidad_pagos : nat
}.

(** [Map<string, any>]: the entries in insertion order, one per key. *)
Definition Mapa : Type := list (texto * Detalles).

Fixpoint mapHas (m : Mapa) (k : texto) : bool :=
  match m with
  | [] => false
  | (k', _) :: r => texto_eqb k k' || mapHas r k
  end.

Fixpoint mapGet (m : Mapa) (k : texto) : option Detalles :=
  match m with
  | [] => None
  | (k', v) :: r => if texto_eqb k k' then Some v else mapGet r k
  end.

(** [m.set(k, v)]: a present key keeps its place, a new one goes last.
    Updating the object [m.get(k)] returned is a [mapSet] at [k] too. *)
Fixpoint mapSet (m : Mapa) (k : texto) (v : Detalles) : Mapa :=
  match m with
  | [] => [(k, v)]
  | (k', v') :: r =>
      if texto_eqb k k' then (k', v) :: r else (k', v') :: mapSet r k v
  end.

Section Metodos.

Variables (pl : Plataforma) (ent : Entorno).

(** [fecha || fechaLocal]. *)
Definition fechaO (fecha : option texto) : texto :=
  match fecha with
  | Some (c :: r) => c :: r
  | Some [] | None => fechaLocal ent
  end.

(** [(override && override.trim()) || porDefecto]. *)
Definition textoO (override : option texto) (porDefecto : texto) : texto :=
  match override with
  | Some (c :: r) =>
      match trim (c :: r) with
      | [] => porDefecto
      | t => t
      end
  | Some [] | None => porDefecto
  end.

Definition obtenerPagosDirectos (usuarioId : Z) (fecha : texto)
    (proveedorId : option Z) : Efecto (list Fila.t) :=
  fun w =>
    match fallo_select ent with
    | Some e => (w, inl e)
    | None =>
        (w, inr (consultaPagosDirectos pl (base w) usuarioId fecha proveedorId))
    end.

(** The row as a [GmailPaymentRecord]. *)
Definition pagoDeFila (row : Fila.t) : GmailPaymentRecord.t :=
  {| GmailPaymentRecord.id := Fila.id_pago row;
     GmailPaymentRecord.cliente := Fila.cliente row;
     GmailPaymentRecord.monto := Number pl (Fila.monto row);
     GmailPaymentRecord.codigo := Fila.codigo row |}.

(** The body of [rows.forEach] in [getResumenPagosDia]. *)
Definition agruparFila (mapGroups : Mapa) (row : Fila.t) : Mapa :=
  let key := Fila.nombre_proveedor row in
  let mapGroups :=
    if mapHas mapGroups key then mapGroups
    else mapSet mapGroups key
           {| id_proveedor := Fila.id_proveedor row;
              correo := Fila.correo row;
              pagos := [];
              monto_total := 0%float;
              cantidad_pagos := 0 |} in
  match mapGet mapGroups key with
  | None => mapGroups
  | Some group =>
      let p := pagoDeFila row in
      mapSet mapGroups key
        {| id_proveedor := id_proveedor group;
           correo := correo group;
           pagos := pagos group ++ [p];
           monto_total := (monto_total group + GmailPaymentRecord.monto p)%float;
           cantidad_pagos := S (cantidad_pagos group) |}
  end.

Definition colorDe (index : nat) : Color :=
  if Nat.even index then teal else brown.

(** [mapGroups.forEach] with its running [index]. *)
Fixpoint gruposDe (index : nat) (mapGroups : Mapa) : list GmailEmailGroup.t :=
  match mapGroups with
  | [] => []
  | (nombreProveedor, detalles) :: r =>
      {| GmailEmailGroup.id := id_proveedor detalles;
         GmailEmailGroup.proveedorNombre := nombreProveedor;
         GmailEmailGroup.correoContacto := correo detalles;
         GmailEmailGroup.color := colorDe index;
         GmailEmailGroup.estado := pendiente;
         GmailEmailGroup.pagos := pagos detalles;
         GmailEmailGroup.totalPagos := numero_de_nat (cantidad_pagos detalles);
         GmailEmailGroup.totalMonto := monto_total detalles |}
      :: gruposDe (S index) r
  end.

Definition getResumenPagosDia (usuarioId : Z) (fecha : option texto)
  : Mundo -> Mundo * ServiceResponse (list GmailEmailGroup.t) :=
  intentar
    (rows <- obtenerPagosDirectos usuarioId (fechaO fecha) None ;;
     let mapGroups := fold_left agruparFila rows [] in
     ret {| success := true;
            data := Some (gruposDe 0 mapGroups);
            error := None;
            statusCode := VNum 200 |})
    (fun _ =>
       {| success := false;
          data := None;
          error := Some (VStr (lit "Error obteniendo resumen de pagos (Direct Query)"));
          statusCode := VNum 500 |}).

(** [pagos.reduce((acc, p) => acc + (p.monto || 0), 0)]. *)
Definition sumarMontos (pagos : list GmailPaymentRecord.t) : float :=
  fold_left (fun acc p => (acc + o_cero (GmailPaymentRecord.monto p))%float)
    pagos 0%float.

(** [`Confirmaci\u00f3n de pagos - ${proveedorNombre}`]. *)
Definition asuntoPorDefecto (proveedorNombre : texto) : texto :=
  lit "Confirmaci" ++ [243%N] ++ lit "n de pagos - " ++ proveedorNombre.

(** The template of the default message. *)
Definition mensajePorDefecto (cantidadPagos : nat) (montoTotal : float)
    (fechaResumen : texto) : texto :=
  lit "Estimado proveedor, le enviamos el resumen de "
  ++ texto_de_nat cantidadPagos
  ++ lit " pago(s) por un total de "
  ++ toFixed2 pl montoTotal
  ++ lit " correspondiente a la fecha "
  ++ fechaResumen
  ++ lit ".".

(** [v === false]. *)
Definition esFalse (v : jsval) : bool :=
  match v with
  | VBool false => true
  | _ => false
  end.

(** Step 4, the inner [try]/[catch]: what [webhookResponseData] and
    [estadoEnvio] hold after it, by how [axios.post] settled. *)
Definition clasificarRespuesta (r : Respuesta) : jsval * EstadoEnvio :=
  match r with
  | Resuelve webhookResponseData =>
      (webhookResponseData,
       if truthy (prop webhookResponseData "code")
          && esFalse (prop webhookResponseData "estado")
       then ERROR_WEBHOOK else ENVIADO)
  | Rechaza _ => (VNull, ERROR_WEBHOOK)
  end.

Definition enviarWebhook (webhookPayload : WebhookPayload)
  : Efecto (jsval * EstadoEnvio) :=
  fun w =>
    ({| base := base w;
        enviados := enviados w ++ [webhookPayload];
        registros := registros w |},
     inr (clasificarRespuesta (axios_post ent webhookPayload))).

(** [String(p.codigo || '').toUpperCase().startsWith('BANCO-')]. *)
Definition esBancario (p : GmailPaymentRecord.t) : bool :=
  let codigoStr :=
    toUpperCase pl
      match GmailPaymentRecord.codigo p with
      | Some s => s
      | None => []
      end in
  startsWith codigoStr (lit "BANCO-").

(** The [pagos.forEach] of step 5: [(idsPagosTarjeta, idsPagosBancario)]. *)
Definition repartirIds (pagos : list GmailPaymentRecord.t) : list Z * list Z :=
  fold_left
    (fun ids p =>
       if esBancario p
       then (fst ids, snd ids ++ [GmailPaymentRecord.id p])
       else (fst ids ++ [GmailPaymentRecord.id p], snd ids))
    pagos ([], []).

(** [`{${ids.join(',')}}`]. *)
Definition literalIds (ids : list Z) : texto :=
  123%N :: join [44%N] (map texto_de_Z ids) ++ [125%N].

(** The [db.query] of the audit write. *)
Definition registrarEnvio (args : Registro.t) : Efecto jsval :=
  fun w =>
    let (b, r) := registrar_envio_correo_con_detalles ent (base w) args in
    ({| base := b; enviados := enviados w; registros := registros w ++ [args] |},
     r).

Definition infoPagoDe (p : GmailPaymentRecord.t) : InfoPago.t :=
  {| InfoPago.monto := GmailPaymentRecord.monto p;
     InfoPago.codigo := GmailPaymentRecord.codigo p;
     InfoPago.cliente := GmailPaymentRecord.cliente p |}.

Definition enviarCorreoProveedor (usuarioId proveedorId : Z)
    (fecha asunto mensaje : option texto)
  : Mundo -> Mundo * ServiceResponse Reporte.t :=
  intentar
    (let fechaResumen := fechaO fecha in
     rows <- obtenerPagosDirectos usuarioId fechaResumen (Some proveedorId) ;;
     match rows with
     | [] =>
         ret {| success := false;
                data := None;
                error := Some (VStr (lit
                  "No se encontraron pagos pendientes para este proveedor (Pagado + Activo)."));
                statusCode := VNum 404 |}
     | firstRow :: _ =>
         let proveedorNombre := Fila.nombre_proveedor firstRow in
         let correoProveedor := Fila.correo firstRow in
         let pagos := map pagoDeFila rows in
         let cantidadPagos := List.length pagos in
         let montoTotal := sumarMontos pagos in
         let asuntoFinal := textoO asunto (asuntoPorDefecto proveedorNombre) in
         let mensajeFinal :=
           textoO mensaje
             (mensajePorDefecto cantidadPagos montoTotal fechaResumen) in
         let infoCorreoExtendido :=
           {| InfoCorreo.fecha := fechaResumen;
              InfoCorreo.correo := correoProveedor;
              InfoCorreo.proveedor := proveedorNombre;
              InfoCorreo.monto_total := montoTotal;
              InfoCorreo.cantidad_pagos := cantidadPagos;
              InfoCorreo.asunto := asuntoFinal;
              InfoCorreo.mensaje := mensajeFinal |} in
         let webhookPayload :=
           {| info_correo := infoCorreoExtendido;
              info_pagos := map infoPagoDe pagos |} in
         r <- enviarWebhook webhookPayload ;;
         let webhookResponseData := fst r in
         let estadoEnvio := snd r in
         let ids := repartirIds pagos in
         rawRegistrar <-
           registrarEnvio
             {| Registro.proveedor_id := proveedorId;
                Registro.usuario_envio_id := usuarioId;
                Registro.fecha_resumen := fechaResumen;
                Registro.cantidad_pagos := cantidadPagos;
                Registro.monto_total := montoTotal;
                Registro.asunto_correo := asuntoFinal;
                Registro.cuerpo_correo := mensajeFinal;
                Registro.ids_pagos_tarjeta := literalIds (fst ids);
                Registro.ids_pagos_bancario := literalIds (snd ids) |} ;;
         parsedRegistrar <- deResultado (parsear pl rawRegistrar) ;;
         if negb (truthy parsedRegistrar)
            || ge400 (Number pl (prop parsedRegistrar "status"))
         then
           ret {| success := false;
                  data := None;
                  error := Some (o_bien (prop parsedRegistrar "message")
                             (VStr (lit "Error registrando el env" ++ [237%N]
                                    ++ lit "o de correo")));
                  statusCode := o_bien (prop parsedRegistrar "status") (VNum 500) |}
         else
           ret {| success := true;
                  data := Some {| Reporte.envio := prop parsedRegistrar "data";
                                  Reporte.infoCorreo := infoCorreoExtendido;
                                  Reporte.infoPagos := pagos;
                                  Reporte.webhook := webhookResponseData |};
                  error := None;
                  statusCode := VNum 200 |}
     end)
    (fun error =>
       {| success := false;
          data := None;
          error := Some (VStr match error with
                              | Error message => message
                              | Lanzado _ => lit "Error enviando correo de Gmail-GEN"
                              end);
          statusCode := VNum 500 |}).

(** The element of [pagosOrigen.map]. *)
Definition pagoDeOrigen (pago : Origen.Pago) : GmailPaymentRecord.t :=
  {| GmailPaymentRecord.id := Origen.id_pago pago;
     GmailPaymentRecord.cliente := Origen.cliente pago;
     GmailPaymentRecord.monto := Number pl (Origen.monto pago);
     GmailPaymentRecord.codigo := Origen.codigo pago |}.

(** [(detalles.pagos || []).map(...)]. *)
Definition pagosDeDetalles (detalles : Origen.Detalles)
  : list GmailPaymentRecord.t :=
  map pagoDeOrigen
    match Origen.pagos detalles with
    | Some pagosOrigen => pagosOrigen
    | None => []
    end.

(** The group pushed for one entry of [Object.entries(data)]. *)
Definition grupoDeDetalles (estado : GmailGroupEstado) (index : nat)
    (nombreProveedor : texto) (detalles : Origen.Detalles)
  : GmailEmailGroup.t :=
  let pagos := pagosDeDetalles detalles in
  {| GmailEmailGroup.id := Origen.id_proveedor detalles;
     GmailEmailGroup.proveedorNombre := nombreProveedor;
     GmailEmailGroup.correoContacto := Origen.correo detalles;
     GmailEmailGroup.color := colorDe index;
     GmailEmailGroup.estado := estado;
     GmailEmailGroup.pagos := pagos;
     GmailEmailGroup.totalPagos := numero_de_nat (List.length pagos);
     GmailEmailGroup.totalMonto := sumarMontos pagos |}.

(** [proveedores.forEach(([nombreProveedor, detalles], index) => ...)]: a
    falsy [detalles] is skipped and still counts for [index]. *)
Fixpoint gruposDeDatos (estado : GmailGroupEstado) (index : nat)
    (proveedores : Origen.Datos) : list GmailEmailGroup.t :=
  match proveedores with
  | [] => []
  | (_, None) :: r => gruposDeDatos estado (S index) r
  | (nombreProveedor, Some detalles) :: r =>
      grupoDeDetalles estado index nombreProveedor detalles
      :: gruposDeDatos estado (S index) r
  end.

(** [parsedResumen?.k]. *)
Definition campoO (parsedResumen : option Origen.Respuesta)
    (k : Origen.Respuesta -> jsval) : jsval :=
  match parsedResumen with
  | Some r => k r
  | None => VUndefined
  end.

(** [parsedResumen?.data ?? parsedResumen?.datos ?? {}], then [|| {}]. *)
Definition datosDe (parsedResumen : option Origen.Respuesta) : Origen.Datos :=
  match parsedResumen with
  | Some r =>
      match Origen.data r with
      | Some d => d
      | None =>
          match Origen.datos r with
          | Some d => d
          | None => []
          end
      end
  | None => []
  end.

(** What both JSON summaries do with the parsed answer. *)
Definition resumirRespuesta (estado : GmailGroupEstado)
    (parsedResumen : option Origen.Respuesta)
  : ServiceResponse (list GmailEmailGroup.t) :=
  let status :=
    coalescer (coalescer (campoO parsedResumen Origen.status)
                 (campoO parsedResumen Origen.estado)) (VNum 500) in
  let message :=
    coalescer (coalescer (campoO parsedResumen Origen.message)
                 (campoO parsedResumen Origen.mensaje)) (VStr []) in
  if match parsedResumen with None => true | Some _ => false end
     || ge400 (Number pl status)
  then {| success := false; data := None; error := Some message;
          statusCode := status |}
  else {| success := true;
          data := Some (gruposDeDatos estado 0 (datosDe parsedResumen));
          error := None;
          statusCode := VNum 200 |}.

Definition getCorreosPendientesGeneral (usuarioId : Z)
  : Mundo -> Mundo * ServiceResponse (list GmailEmailGroup.t) :=
  intentar
    (parsedResumen <-
       (fun w => (w, correos_pendientes_general_get ent (base w) usuarioId)) ;;
     ret (resumirRespuesta pendiente parsedResumen))
    (fun _ =>
       {| success := false; data := None;
          error := Some (VStr (lit "Error general"));
          statusCode := VNum 500 |}).

Definition getResumenEnviosFecha (usuarioId : Z) (fecha : option texto)
  : Mundo -> Mundo * ServiceResponse (list GmailEmailGroup.t) :=
  intentar
    (parsedResumen <-
       (fun w =>
          (w, resumen_envios_fecha_get ent (base w) usuarioId (fechaO fecha))) ;;
     ret (resumirRespuesta enviado parsedResumen))
    (fun _ =>
       {| success := false; data := None;
          error := Some (VStr (lit "Error obteniendo resumen de env" ++ [237%N]
                               ++ lit "os"));
          statusCode := VNum 500 |}).

End Metodos.

End GmailGenService.

(** ** The sibling revision of the service (src/unnamed/part_001)

    Its [getResumenPagosDia] is the one above, line for line.  Its two JSON
    summaries differ: they take the totals of a group from the [resumen]
    the stored function returns whenever these are numbers. *)

Module GmailGenService001.

Section Metodos.

Variables (pl : Plataforma) (ent : Entorno).

Definition getResumenPagosDia := GmailGenService.getResumenPagosDia pl ent.

(** [detalles.resumen || {}], then the member [k] of it. *)
Definition campoResumen (detalles : Origen.Detalles)
    (k : Origen.Resumen -> jsval) : jsval :=
  match Origen.resumen detalles with
  | Some resumen => k resumen
  | None => VUndefined
  end.

Definition grupoDeDetalles (estado : GmailGroupEstado) (index : nat)
    (nombreProveedor : texto) (detalles : Origen.Detalles)
  : GmailEmailGroup.t :=
  let pagos := GmailGenService.pagosDeDetalles pl detalles in
  let totalPagos :=
    match campoResumen detalles Origen.cantidad_pagos with
    | VNum cantidad_pagos => cantidad_pagos
    | _ => numero_de_nat (List.length pagos)
    end in
  let totalMonto :=
    match campoResumen detalles Origen.monto_total with
    | VNum monto_total => monto_total
    | _ => GmailGenService.sumarMontos pagos
    end in
  {| GmailEmailGroup.id := Origen.id_proveedor detalles;
     GmailEmailGroup.proveedorNombre := nombreProveedor;
     GmailEmailGroup.correoContacto := Origen.correo detalles;
     GmailEmailGroup.color := GmailGenService.colorDe index;
     GmailEmailGroup.estado := estado;
     GmailEmailGroup.pagos := pagos;
     GmailEmailGroup.totalPagos := totalPagos;
     GmailEmailGroup.totalMonto := totalMonto |}.

Fixpoint gruposDeDatos (estado : GmailGroupEstado) (index : nat)
    (proveedores : Origen.Datos) : list GmailEmailGroup.t :=
  match proveedores with
  | [] => []
  | (_, None) :: r => gruposDeDatos estado (S index) r
  | (nombreProveedor, Some detalles) :: r =>
      grupoDeDetalles estado index nombreProveedor detalles
      :: gruposDeDatos estado (S index) r
  end.

(** [error.message] of the outer [catch], or the method's fixed text. *)
Definition mensajeDe (e : excepcion) (porDefecto : texto) : jsval :=
  VStr match e with
       | Error message => message
       | Lanzado _ => porDefecto
       end.

Definition resumirRespuesta (estado : GmailGroupEstado) (porDefecto : texto)
    (parsedResumen : option Origen.Respuesta)
  : ServiceResponse (list GmailEmailGroup.t) :=
  let status :=
    coalescer (coalescer (GmailGenService.campoO parsedResumen Origen.status)
                 (GmailGenService.campoO parsedResumen Origen.estado))
      (VNum 500) in
  let message :=
    coalescer (coalescer (GmailGenService.campoO parsedResumen Origen.message)
                 (GmailGenService.campoO parsedResumen Origen.mensaje))
      (VStr []) in
  if match parsedResumen with None => true | Some _ => false end
     || match status with VNum x => ge400 x | _ => false end
  then {| success := false; data := None;
          error := Some (o_bien message (VStr porDefecto));
          statusCode := match status with VNum _ => status | _ => VNum 500 end |}
  else {| success := true;
          data := Some (gruposDeDatos estado 0
                          (GmailGenService.datosDe parsedResumen));
          error := None;
          statusCode := VNum 200 |}.

Definition textoPendientes : texto :=
  lit "Error obteniendo correos pendientes generales para Gmail-GEN".

Definition textoEnvios : texto :=
  lit "Error obteniendo resumen de env" ++ [237%N]
  ++ lit "os para Gmail-GEN".

Definition getCorreosPendientesGeneral (usuarioId : Z)
  : Mundo -> Mundo * ServiceResponse (list GmailEmailGroup.t) :=
  intentar
    (parsedResumen <-
       (fun w => (w, correos_pendientes_general_get ent (base w) usuarioId)) ;;
     ret (resumirRespuesta pendiente textoPendientes parsedResumen))
    (fun e =>
       {| success := false; data := None;
          error := Some (mensajeDe e textoPendientes);
          statusCode := VNum 500 |}).

Definition getResumenEnviosFecha (usuarioId : Z) (fecha : option texto)
  : Mundo -> Mundo * ServiceResponse (list GmailEmailGroup.t) :=
  intentar
    (parsedResumen <-
       (fun w =>
          (w, resumen_envios_fecha_get ent (base w) usuarioId
                (GmailGenService.fechaO ent fecha))) ;;
     ret (resumirRespuesta enviado textoEnvios parsedResumen))
    (fun e =>
       {| success := false; data := None;
          error := Some (mensajeDe e textoEnvios);
          statusCode := VNum 500 |}).

(** [parsed?.status ?? parsed?.estado ?? 500]. *)
Definition statusDe (parsed : jsval) : jsval :=
  coalescer (coalescer (prop parsed "status") (prop parsed "estado"))
    (VNum 500).

(** [parsed?.message ?? parsed?.mensaje ?? '']. *)
Definition messageDe (parsed : jsval) : jsval :=
  coalescer (coalescer (prop parsed "message") (prop parsed "mensaje"))
    (VStr []).

(** [parsed?.data ?? parsed?.datos ?? porDefecto]. *)
Definition dataDe (parsed porDefecto : jsval) : jsval :=
  coalescer (coalescer (prop parsed "data") (prop parsed "datos")) porDefecto.

(** [!parsed || (typeof status === 'number' && status >= 400)]. *)
Definition rehusado (parsed : jsval) : bool :=
  negb (truthy parsed)
  || match statusDe parsed with VNum x => ge400 x | _ => false end.

(** [typeof status === 'number' ? status : 500]. *)
Definition codigoDe (parsed : jsval) : jsval :=
  match statusDe parsed with
  | VNum x => VNum x
  | _ => VNum 500
  end.

Definition textoHistorial : texto :=
  lit "Error obteniendo historial de env" ++ [237%N]
  ++ lit "os para Gmail-GEN".

(** [getHistorialEnvios]: [historial_envios_get] is the stored function the
    method calls, answering from the tables; [limit] and [offset] default
    to 50 and 0. *)
Definition getHistorialEnvios
    (historial_envios_get :
       BaseDatos -> Z -> float -> float -> excepcion + jsval)
    (usuarioId : Z) (limit offset : option float)
  : Mundo -> Mundo * ServiceResponse jsval :=
  intentar
    (let limit := match limit with Some l => l | None => 50%float end in
     let offset := match offset with Some o => o | None => 0%float end in
     raw <-
       (fun w => (w, historial_envios_get (base w) usuarioId limit offset)) ;;
     parsed <- deResultado (parsear pl raw) ;;
     if rehusado parsed
     then ret {| success := false;
                 data := None;
                 error := Some (o_bien (messageDe parsed)
                                  (VStr textoHistorial));
                 statusCode := codigoDe parsed |}
     else ret {| success := true;
                 data := Some (o_bien (dataDe parsed (VArr [])) (VArr []));
                 error := None;
                 statusCode := VNum 200 |})
    (fun e =>
       {| success := false; data := None;
          error := Some (mensajeDe e textoHistorial);
          statusCode := VNum 500 |}).

Definition textoAuditoria : texto :=
  lit "Error registrando el env" ++ [237%N]
  ++ lit "o de correo en la auditor" ++ [237%N] ++ lit "a".

(** [enviarCorreoProveedor] of the sibling revision: the steps of the one
    above up to the audit write, whose answer it normalises as the other
    methods of the revision do. *)
Definition enviarCorreoProveedor (usuarioId proveedorId : Z)
    (fecha asunto mensaje : option texto)
  : Mundo -> Mundo * ServiceResponse Reporte.t :=
  intentar
    (let fechaResumen := GmailGenService.fechaO ent fecha in
     rows <- GmailGenService.obtenerPagosDirectos pl ent usuarioId
               fechaResumen (Some proveedorId) ;;
     match rows with
     | [] =>
         ret {| success := false;
                data := None;
                error := Some (VStr (lit
                  "No se encontraron pagos pendientes para este proveedor (Pagado + Activo)."));
                statusCode := VNum 404 |}
     | firstRow :: _ =>
         let proveedorNombre := Fila.nombre_proveedor firstRow in
         let correoProveedor := Fila.correo firstRow in
         let pagos := map (GmailGenService.pagoDeFila pl) rows in
         let cantidadPagos := List.length pagos in
         let montoTotal := GmailGenService.sumarMontos pagos in
         let asuntoFinal :=
           GmailGenService.textoO asunto
             (GmailGenService.asuntoPorDefecto proveedorNombre) in
         let mensajeFinal :=
           GmailGenService.textoO mensaje
             (GmailGenService.mensajePorDefecto pl cantidadPagos montoTotal
                fechaResumen) in
         let infoCorreoExtendido :=
           {| InfoCorreo.fecha := fechaResumen;
              InfoCorreo.correo := correoProveedor;
              InfoCorreo.proveedor := proveedorNombre;
              InfoCorreo.monto_total := montoTotal;
              InfoCorreo.cantidad_pagos := cantidadPagos;
              InfoCorreo.asunto := asuntoFinal;
              InfoCorreo.mensaje := mensajeFinal |} in
         let webhookPayload :=
           {| info_correo := infoCorreoExtendido;
              info_pagos := map GmailGenService.infoPagoDe pagos |} in
         r <- GmailGenService.enviarWebhook ent webhookPayload ;;
         let webhookResponseData := fst r in
         let estadoEnvio := snd r in
         let ids := GmailGenService.repartirIds pl pagos in
         rawRegistrar <-
           GmailGenService.registrarEnvio ent
             {| Registro.proveedor_id := proveedorId;
                Registro.usuario_envio_id := usuarioId;
                Registro.fecha_resumen := fechaResumen;
                Registro.cantidad_pagos := cantidadPagos;
                Registro.monto_total := montoTotal;
                Registro.asunto_correo := asuntoFinal;
                Registro.cuerpo_correo := mensajeFinal;
                Registro.ids_pagos_tarjeta :=
                  GmailGenService.literalIds (fst ids);
                Registro.ids_pagos_bancario :=
                  GmailGenService.literalIds (snd ids) |} ;;
         parsedRegistrar <- deResultado (parsear pl rawRegistrar) ;;
         if rehusado parsedRegistrar
         then
           ret {| success := false;
                  data := None;
                  error := Some (o_bien (messageDe parsedRegistrar)
                                   (VStr textoAuditoria));
                  statusCode := codigoDe parsedRegistrar |}
         else
           ret {| success := true;
                  data := Some {| Reporte.envio := dataDe parsedRegistrar VNull;
                                  Reporte.infoCorreo := infoCorreoExtendido;
                                  Reporte.infoPagos := pagos;
                                  Reporte.webhook := webhookResponseData |};
                  error := None;
                  statusCode := VNum 200 |}
     end)
    (fun error =>
       {| success := false;
          data := None;
          error := Some (VStr match error with
                              | Error message => message
                              | Lanzado _ => lit "Error enviando correo de Gmail-GEN"
                              end);
          statusCode := VNum 500 |}).

End Metodos.

End GmailGenService001.

(** ** The audit write

    Modelled from the spec: the stored function
    [registrar_envio_correo_con_detalles], which the sources call and do not
    contain.  Section 4.4 step 5: it persists one Delivery row and, in the
    same write, marks every consumed payment as claimed by that row, all or
    nothing.  Its nine parameters are those of the call; the two identifier
    sets arrive as array literals [{1,2,3}].  The answer has the members the
    service reads: [status], [message], [data]. *)

Module Almacen.

Definition digitoDe (c : N) (r : Decimal.uint) : option Decimal.uint :=
  match c with
  | 48 => Some (Decimal.D0 r)
  | 49 => Some (Decimal.D1 r)
  | 50 => Some (Decimal.D2 r)
  | 51 => Some (Decimal.D3 r)
  | 52 => Some (Decimal.D4 r)
  | 53 => Some (Decimal.D5 r)
  | 54 => Some (Decimal.D6 r)
  | 55 => Some (Decimal.D7 r)
  | 56 => Some (Decimal.D8 r)
  | 57 => Some (Decimal.D9 r)
  | _ => None
  end%N.

Fixpoint leerDigitos (s : texto) : option Decimal.uint :=
  match s with
  | [] => Some Decimal.Nil
  | c :: r =>
      match leerDigitos r with
      | Some u => digitoDe c u
      | None => None
      end
  end.

(** An element of an integer array literal. *)
Definition leerEntero (s : texto) : option Z :=
  match s with
  | [] => None
  | 45%N :: r =>
      match r with
      | [] => None
      | _ => option_map (fun u => Z.of_int (Decimal.Neg u)) (leerDigitos r)
      end
  | _ => option_map (fun u => Z.of_int (Decimal.Pos u)) (leerDigitos s)
  end.

(** The pieces of [s] between the separators. *)
Fixpoint partir (sep : N) (s : texto) : list texto :=
  match s with
  | [] => [[]]
  | c :: r =>
      if (c =? sep)%N then [] :: partir sep r
      else match partir sep r with
           | x :: xs => (c :: x) :: xs
           | [] => [[c]]
           end
  end.

Fixpoint todos {A B : Type} (f : A -> option B) (l : list A)
  : option (list B) :=
  match l with
  | [] => Some []
  | x :: r =>
      match f x, todos f r with
      | Some y, Some ys => Some (y :: ys)
      | _, _ => None
      end
  end.

(** The integer array a literal denotes, [None] when it is malformed. *)
Definition leerLiteral (s : texto) : option (list Z) :=
  match s with
  | 123%N :: r =>
      match rev r with
      | 125%N :: cuerpoInv =>
          match rev cuerpoInv with
          | [] => Some []
          | cuerpo => todos leerEntero (partir 44 cuerpo)
          end
      | _ => None
      end
  | _ => None
  end.

Definition vinculos (idEnvio : Z) (ids : list Z)
  : list Tabla.DetalleEnvioCorreo :=
  map (fun i => {| Tabla.pago_id := i; Tabla.envio_id := idEnvio |}) ids.

(** Modelled from the spec: [registrar_envio_correo_con_detalles], absent
    from the sources.  One Delivery row and the claim links of all the
    identifiers of the two literals, in one write; a malformed literal fails
    the call and writes nothing.  [estadoInicial] is the status the store
    gives a new row: none of the nine parameters carries one. *)
Definition registrar (estadoInicial : texto) (db : BaseDatos) (a : Registro.t)
  : BaseDatos * (excepcion + jsval) :=
  match leerLiteral (Registro.ids_pagos_tarjeta a),
        leerLiteral (Registro.ids_pagos_bancario a) with
  | Some tarjeta, Some bancario =>
      let idEnvio := Z.of_nat (S (List.length (envios db))) in
      ({| pagos := pagos db;
          proveedores := proveedores db;
          detalle_envio_correo :=
            detalle_envio_correo db ++ vinculos idEnvio (tarjeta ++ bancario);
          envios :=
            envios db ++
            [{| Tabla.id_envio := idEnvio;
                Tabla.e_proveedor_id := Registro.proveedor_id a;
                Tabla.e_usuario_envio_id := Registro.usuario_envio_id a;
                Tabla.e_fecha_resumen := Registro.fecha_resumen a;
                Tabla.e_cantidad_pagos := Registro.cantidad_pagos a;
                Tabla.e_monto_total := Registro.monto_total a;
                Tabla.e_asunto := Registro.asunto_correo a;
                Tabla.e_cuerpo := Registro.cuerpo_correo a;
                Tabla.e_estado := estadoInicial;
                Tabla.e_pagos_tarjeta := tarjeta;
                Tabla.e_pagos_bancario := bancario |}] |},
       inr (VObj [(lit "status", VNum 200);
                  (lit "message", VStr (lit "Envio registrado"));
                  (lit "data",
                   VObj [(lit "id_envio",
                          VNum (PrimFloat.of_uint63 (Uint63.of_Z idEnvio)))])]))
  | _, _ => (db, inl (Error (lit "malformed array literal")))
  end.

End Almacen.

(** ** Bytewise order of texts *)

(** Modelled from the spec: the collation of the database, absent from the
    sources.  Section 4.1 takes the [ORDER BY] of the SELECT as
    case-sensitive byte order; on code points that is the lexicographic
    order (UTF-8 keeps the order of code points). *)
Fixpoint texto_leb (a b : texto) : bool :=
  match a, b with
  | [], _ => true
  | _ :: _, [] => false
  | x :: a', y :: b' =>
      if (x <? y)%N then true
      else if (x =? y)%N then texto_leb a' b'
      else false
  end.

Definition texto_le (a b : texto) : Prop := texto_leb a b = true.

(** ** Worked data

    A platform with the bytewise collation, for the worked examples.  Its
    runtime members are stand-ins that the worked data never reaches: every
    code is ASCII, every amount is a number below 10^21, no answer is a
    string to parse.  Two providers, three payments of the operator 1 on
    2024-05-01: two to "Acme" (10.00 by card, 15.50 by bank), one to
    "Zeta". *)

Module Ejemplo.

Definition plataforma : Plataforma :=
  {| mayusculaUnicode := fun c => [c];
     numeroDeObjeto := fun _ => nan;
     numeroATexto := fun _ => lit "1e+21";
     JSON_parse := fun _ => inl (Error (lit "Unexpected token"));
     colacion := texto_leb |}.

Definition dia : texto := lit "2024-05-01".

Definition pago (i prov : Z) (m : float) (cod : string) : Tabla.Pago :=
  {| Tabla.id_pago := i;
     Tabla.usuario_id := 1;
     Tabla.proveedor_id := prov;
     Tabla.cliente := lit "Cliente";
     Tabla.monto := VNum m;
     Tabla.codigo := Some (lit cod);
     Tabla.estado := lit "PAGADO";
     Tabla.esta_activo := true;
     Tabla.fecha_pago := dia |}.

Definition acme : Tabla.Proveedor :=
  {| Tabla.id := 7; Tabla.nombre := lit "Acme";
     Tabla.correo := lit "acme@example.com" |}.

Definition zeta : Tabla.Proveedor :=
  {| Tabla.id := 8; Tabla.nombre := lit "Zeta";
     Tabla.correo := lit "zeta@example.com" |}.

Definition tablas : BaseDatos :=
  {| pagos := [pago 11 7 10 "TARJ-001"; pago 12 7 15.5 "BANCO-001";
               pago 13 8 3 "banco-002"];
     proveedores := [zeta; acme];
     detalle_envio_correo := [];
     envios := [] |}.

Definition mundo : Mundo :=
  {| base := tablas; enviados := []; registros := [] |}.

(** The webhook accepts ([{ code: 200, estado: true }]), reports a business
    failure, or cannot be reached. *)
Definition acepta (_ : WebhookPayload) : Respuesta :=
  Resuelve (VObj [(lit "code", VNum 200); (lit "estado", VBool true)]).

Definition rehusa (_ : WebhookPayload) : Respuesta :=
  Resuelve (VObj [(lit "code", VNum 500); (lit "estado", VBool false)]).

Definition inalcanzable (_ : WebhookPayload) : Respuesta :=
  Rechaza (Error (lit "timeout of 15000ms exceeded")).

Definition sinResumen : excepcion + option Origen.Respuesta := inr None.

(** An environment over the store [reg] and the webhook [post]. *)
Definition entornoCon
    (reg : BaseDatos -> Registro.t -> BaseDatos * (excepcion + jsval))
    (post : WebhookPayload -> Respuesta) : Entorno :=
  {| fechaLocal := dia;
     fallo_select := None;
     axios_post := post;
     registrar_envio_correo_con_detalles := reg;
     resumen_envios_fecha_get := fun _ _ _ => sinResumen;
     correos_pendientes_general_get := fun _ _ => sinResumen |}.

(** An environment over the modelled store, which marks a new row
    ["ENVIADO"]. *)
Definition entorno (post : WebhookPayload -> Respuesta) : Entorno :=
  entornoCon (Almacen.registrar (lit "ENVIADO")) post.

(** A store whose audit write is refused: the stored function answers
    [{ status: 500, message: "No se pudo registrar" }] and writes nothing. *)
Definition rechazo : jsval :=
  VObj [(lit "status", VNum 500);
        (lit "message", VStr (lit "No se pudo registrar"))].

Definition entornoRechazo (post : WebhookPayload -> Respuesta) : Entorno :=
  entornoCon (fun db _ => (db, inr rechazo)) post.

(** The stored function of the sent summary answers with one provider, one
    payment of 10.00, and a [resumen] that counts five payments for 99.00. *)
Definition enviosAcme : Origen.Respuesta :=
  {| Origen.status := VNum 200;
     Origen.estado := VUndefined;
     Origen.message := VStr (lit "OK");
     Origen.mensaje := VUndefined;
     Origen.data :=
       Some [(lit "Acme",
              Some {| Origen.id_proveedor := 7;
                      Origen.correo := lit "acme@example.com";
                      Origen.pagos :=
                        Some [{| Origen.id_pago := 11;
                                 Origen.cliente := lit "Cliente";
                                 Origen.monto := VNum 10;
                                 Origen.codigo := Some (lit "TARJ-001") |}];
                      Origen.resumen :=
                        Some {| Origen.cantidad_pagos := VNum 5;
                                Origen.monto_total := VNum 99 |} |})];
     Origen.datos := None |}.

Definition entornoEnvios : Entorno :=
  {| fechaLocal := dia;
     fallo_select := None;
     axios_post := acepta;
     registrar_envio_correo_con_detalles := Almacen.registrar (lit "ENVIADO");
     resumen_envios_fecha_get := fun _ _ _ => inr (Some enviosAcme);
     correos_pendientes_general_get := fun _ _ => inr (Some enviosAcme) |}.

(** The body [{ estado: false }]. *)
Definition cuerpoEstadoFalso : jsval := VObj [(lit "estado", VBool false)].

End Ejemplo.

(** ** Views of a dispatch

    The values [enviarCorreoProveedor] computes from the selected rows, named
    so that statements can speak of them; [enviar_con_filas] below shows
    that they are the ones the method uses. *)

Section Vistas.

Variables (pl : Plataforma) (ent : Entorno).
Variables (usuarioId proveedorId : Z) (fecha asunto mensaje : option texto).

(** The rows step 1 selects in the world [w]. *)
Definition filasDe (w : Mundo) : list Fila.t :=
  consultaPagosDirectos pl (base w) usuarioId
    (GmailGenService.fechaO ent fecha) (Some proveedorId).

Definition pagosDe (rows : list Fila.t) : list GmailPaymentRecord.t :=
  map (GmailGenService.pagoDeFila pl) rows.

Definition infoCorreoDe (firstRow : Fila.t) (rows : list Fila.t)
  : InfoCorreo.t :=
  let fechaResumen := GmailGenService.fechaO ent fecha in
  let cantidadPagos := List.length (pagosDe rows) in
  let montoTotal := GmailGenService.sumarMontos (pagosDe rows) in
  {| InfoCorreo.fecha := fechaResumen;
     InfoCorreo.correo := Fila.correo firstRow;
     InfoCorreo.proveedor := Fila.nombre_proveedor firstRow;
     InfoCorreo.monto_total := montoTotal;
     InfoCorreo.cantidad_pagos := cantidadPagos;
     InfoCorreo.asunto :=
       GmailGenService.textoO asunto
         (GmailGenService.asuntoPorDefecto (Fila.nombre_proveedor firstRow));
     InfoCorreo.mensaje :=
       GmailGenService.textoO mensaje
         (GmailGenService.mensajePorDefecto pl cantidadPagos montoTotal
            fechaResumen) |}.

Definition cargaDe (firstRow : Fila.t) (rows : list Fila.t) : WebhookPayload :=
  {| info_correo := infoCorreoDe firstRow rows;
     info_pagos := map GmailGenService.infoPagoDe (pagosDe rows) |}.

Definition registroDe (firstRow : Fila.t) (rows : list Fila.t) : Registro.t :=
  let info := infoCorreoDe firstRow rows in
  let ids := GmailGenService.repartirIds pl (pagosDe rows) in
  {| Registro.proveedor_id := proveedorId;
     Registro.usuario_envio_id := usuarioId;
     Registro.fecha_resumen := InfoCorreo.fecha info;
     Registro.cantidad_pagos := InfoCorreo.cantidad_pagos info;
     Registro.monto_total := InfoCorreo.monto_total info;
     Registro.asunto_correo := InfoCorreo.asunto info;
     Registro.cuerpo_correo := InfoCorreo.mensaje info;
     Registro.ids_pagos_tarjeta := GmailGenService.literalIds (fst ids);
     Registro.ids_pagos_bancario := GmailGenService.literalIds (snd ids) |}.

(** The response of the outer [catch]. *)
Definition respuestaCatch (e : excepcion) : ServiceResponse Reporte.t :=
  {| success := false;
     data := None;
     error := Some (VStr match e with
                         | Error message => message
                         | Lanzado _ => lit "Error enviando correo de Gmail-GEN"
                         end);
     statusCode := VNum 500 |}.

(** The response when no row is selected. *)
Definition respuestaSinPagos : ServiceResponse Reporte.t :=
  {| success := false;
     data := None;
     error := Some (VStr (lit
       "No se encontraron pagos pendientes para este proveedor (Pagado + Activo)."));
     statusCode := VNum 404 |}.

(** [parsedRegistrar] is refused: falsy, or with a status from 400 on. *)
Definition rechazado (parsedRegistrar : jsval) : bool :=
  negb (truthy parsedRegistrar)
  || ge400 (Number pl (prop parsedRegistrar "status")).

(** The response to a refused audit write. *)
Definition respuestaRechazo (parsedRegistrar : jsval)
  : ServiceResponse Reporte.t :=
  {| success := false;
     data := None;
     error := Some (o_bien (prop parsedRegistrar "message")
                (VStr (lit "Error registrando el env" ++ [237%N]
                       ++ lit "o de correo")));
     statusCode := o_bien (prop parsedRegistrar "status") (VNum 500) |}.

(** The response after the audit write settled with [r], the webhook having
    left [webhookResponseData]. *)
Definition respuestaDe (firstRow : Fila.t) (rows : list Fila.t)
    (webhookResponseData : jsval) (r : excepcion + jsval)
  : ServiceResponse Reporte.t :=
  match r with
  | inl e => respuestaCatch e
  | inr rawRegistrar =>
      match parsear pl rawRegistrar with
      | inl e => respuestaCatch e
      | inr parsedRegistrar =>
          if rechazado parsedRegistrar then respuestaRechazo parsedRegistrar
          else {| success := true;
                  data := Some {| Reporte.envio := prop parsedRegistrar "data";
                                  Reporte.infoCorreo := infoCorreoDe firstRow rows;
                                  Reporte.infoPagos := pagosDe rows;
                                  Reporte.webhook := webhookResponseData |};
                  error := None;
                  statusCode := VNum 200 |}
      end
  end.

(** The audit write failed: it threw, its answer did not parse, or the
    answer is refused. *)
Definition registroFallido (r : excepcion + jsval) : bool :=
  match r with
  | inl _ => true
  | inr rawRegistrar =>
      match parsear pl rawRegistrar with
      | inl _ => true
      | inr parsedRegistrar => rechazado parsedRegistrar
      end
  end.

End Vistas.

(** A response without the raw webhook answer of its report. *)
Definition sinWebhook (r : ServiceResponse Reporte.t)
  : ServiceResponse Reporte.t :=
  {| success := success r;
     data := option_map
               (fun d => {| Reporte.envio := Reporte.envio d;
                            Reporte.infoCorreo := Reporte.infoCorreo d;
                            Reporte.infoPagos := Reporte.infoPagos d;
                            Reporte.webhook := VUndefined |})
               (data r);
     error := error r;
     statusCode := statusCode r |}.

(** Left-to-right sum from zero, [sum(pago.monto for pago in pagos)]. *)
Definition sumaMontos (l : list GmailPaymentRecord.t) : float :=
  fold_left (fun acc p => (acc + GmailPaymentRecord.monto p)%float) l 0%float.

(** Section 4.2 of the spec in its words, with the one change the code
    forces: a present override that is not blank after trimming is used
    trimmed; otherwise the text is derived. *)
Definition enBlanco (s : texto) : bool :=
  match trim s with
  | [] => true
  | _ :: _ => false
  end.

Definition componer (override : option texto) (derivado : texto) : texto :=
  match override with
  | Some s => if enBlanco s then derivado else trim s
  | None => derivado
  end.

(** The totals of a group are those of its members, [suma] being the way
    the amounts are added. *)
Definition totalesRecalculados (suma : list GmailPaymentRecord.t -> float)
    (g : GmailEmailGroup.t) : Prop :=
  GmailEmailGroup.totalPagos g
  = numero_de_nat (List.length (GmailEmailGroup.pagos g))
  /\ GmailEmailGroup.totalMonto g = suma (GmailEmailGroup.pagos g).

(** The totals of a group of the sibling revision: those stored in the
    [resumen] of its [detalles] where they are numbers, recomputed from the
    members where they are not. *)
Definition totalesDeResumen (detalles : Origen.Detalles)
    (g : GmailEmailGroup.t) : Prop :=
  GmailEmailGroup.totalPagos g
  = match GmailGenService001.campoResumen detalles Origen.cantidad_pagos with
    | VNum almacenado => almacenado
    | _ => numero_de_nat (List.length (GmailEmailGroup.pagos g))
    end
  /\ GmailEmailGroup.totalMonto g
     = match GmailGenService001.campoResumen detalles Origen.monto_total with
       | VNum almacenado => almacenado
       | _ => GmailGenService.sumarMontos (GmailEmailGroup.pagos g)
       end.

(** An entry of [mapGroups] whose running totals are those of the payments
    pushed so far. *)
Definition alDia (d : GmailGenService.Detalles) : Prop :=
  GmailGenService.monto_total d = sumaMontos (GmailGenService.pagos d)
  /\ GmailGenService.cantidad_pagos d
     = List.length (GmailGenService.pagos d).

(** The keys of a Map, in insertion order. *)
Definition claves (m : GmailGenService.Mapa) : list texto := map fst m.

(** The rows of one provider name, in the order of the rows. *)
Definition filasDeNombre (k : texto) (rows : list Fila.t) : list Fila.t :=
  filter (fun r => texto_eqb (Fila.nombre_proveedor r) k) rows.

(** The entry of [mapGroups] under the name [k] once the rows [seen] went
    through [rows.forEach]: the payments of the rows of that name, in their
    order, with the id and the address of the first of them. *)
Definition entradaDe (pl : Plataforma) (seen : list Fila.t) (k : texto)
    (d : GmailGenService.Detalles) : Prop :=
  GmailGenService.pagos d
  = map (GmailGenService.pagoDeFila pl) (filasDeNombre k seen)
  /\ exists r0 rest,
       filasDeNombre k seen = r0 :: rest
       /\ GmailGenService.id_proveedor d = Fila.id_proveedor r0
       /\ GmailGenService.correo d = Fila.correo r0.

(** [mapGroups] after the rows [seen]: one entry per name met. *)
Definition mapaDe (pl : Plataforma) (seen : list Fila.t)
    (m : GmailGenService.Mapa) : Prop :=
  NoDup (claves m)
  /\ (forall r, In r seen -> In (Fila.nombre_proveedor r) (claves m))
  /\ (forall k d, In (k, d) m -> entradaDe pl seen k d).

(** [v == null]: [null] or [undefined]. *)
Definition nulo (v : jsval) : bool :=
  match v with
  | VUndefined | VNull => true
  | _ => false
  end.

(** The response of the sibling revision's [enviarCorreoProveedor] after
    the audit write settled with [r]. *)
Definition respuesta001De (pl : Plataforma) (ent : Entorno)
    (fecha asunto mensaje : option texto) (firstRow : Fila.t)
    (rows : list Fila.t) (webhookResponseData : jsval) (r : excepcion + jsval)
  : ServiceResponse Reporte.t :=
  match r with
  | inl e => respuestaCatch e
  | inr rawRegistrar =>
      match parsear pl rawRegistrar with
      | inl e => respuestaCatch e
      | inr parsedRegistrar =>
          if GmailGenService001.rehusado parsedRegistrar
          then {| success := false;
                  data := None;
                  error :=
                    Some (o_bien (GmailGenService001.messageDe parsedRegistrar)
                            (VStr GmailGenService001.textoAuditoria));
                  statusCode := GmailGenService001.codigoDe parsedRegistrar |}
          else {| success := true;
                  data :=
                    Some {| Reporte.envio :=
                              GmailGenService001.dataDe parsedRegistrar VNull;
                            Reporte.infoCorreo :=
                              infoCorreoDe pl ent fecha asunto mensaje firstRow
                                rows;
                            Reporte.infoPagos := pagosDe pl rows;
                            Reporte.webhook := webhookResponseData |};
                  error := None;
                  statusCode := VNum 200 |}
      end
  end.

(** A response a controller can answer with as it is: a numeric status,
    200 with data and no error on success, from 400 on with an error and
    no data on failure. *)
Definition bienFormada {T : Type} (r : ServiceResponse T) : Prop :=
  exists x,
    statusCode r = VNum x
    /\ if success r
       then x = 200%float /\ data r <> None /\ error r = None
       else ge400 x = true /\ data r = None /\ error r <> None.

(** ** The document upload component
    (src/app/features/equipo-tarjetas/components/document-upload)

    The component's fields are its state; a method is a function on it.
    The calls that leave the component (PagoService, EventoService) are
    listed in the order they are issued.  A [FileReader] and an HTTP
    observable each notify once, and a method is followed to the end of the
    callbacks it starts, no other event of the page coming in between. *)

Definition minusculaAscii (c : N) : N :=
  if ((65 <=? c) && (c <=? 90))%N then (c + 32)%N else c.

(** [s.endsWith(sufijo)]. *)
Definition endsWith (s sufijo : texto) : bool :=
  startsWith (rev s) (rev sufijo).

Fixpoint hastaComa (s : texto) : texto :=
  match s with
  | [] => []
  | c :: r => if (c =? 44)%N then [] else c :: hastaComa r
  end.

Fixpoint trasComa (s : texto) : option texto :=
  match s with
  | [] => None
  | c :: r => if (c =? 44)%N then Some r else trasComa r
  end.

(** [s.split(',')[1] || '']. *)
Definition segundoCampo (s : texto) : texto :=
  match trasComa s with
  | Some r => hastaComa r
  | None => []
  end.

Module DocumentUpload.

(** A [File] of the page: its name, its MIME type, and the bytes, which
    the component never looks at. *)
Record File : Type := {
  name : texto;
  type : texto;
  contenido : texto
}.

(** [interface DocumentCard]. *)
Record DocumentCard : Type := {
  id : texto;
  title : texto;
  icon : texto;
  description : texto;
  files : list File
}.

(** The members of [PagoDisplay] the component reads. *)
Record PagoDisplay : Type := {
  pago_id : Z;
  numero_presta : option texto
}.

(** [interface WebhookArchivoPdf]. *)
Record WebhookArchivoPdf : Type := {
  nombre : texto;
  tipo : texto;
  base64 : texto
}.

Record Componente : Type := {
  pago : option PagoDisplay;
  isScanning : bool;
  scanMessage : jsval;
  scanError : jsval;
  isScanSuccess : bool;
  activeScanCardId : option texto;
  documentCards : list DocumentCard
}.

(** How a [FileReader] ends: [onload] with its [result], or [onerror]. *)
Inductive Lectura : Type :=
| onload (result : texto)
| onerror.

(** What an observable notifies: [next] with the response, or [error] with
    the members of the error object. *)
Inductive Notificacion : Type :=
| next (response : jsval)
| error (campos : list (texto * jsval)).

(** The calls to PagoService and EventoService. *)
Inductive Llamada : Type :=
| scanPagoDocumento (pdfBase64 : texto) (pagoId : option Z)
    (numeroPresta : option texto)
| enviarDocumentosRecibiendoPdf (archivos : list WebhookArchivoPdf)
| enviarDocumentoBancoPdf (archivo : WebhookArchivoPdf)
| recargarPagos
| registrarEvento (tipo_entidad : texto) (entidad_id : option Z)
    (descripcion : texto).

Definition conError (st : Componente) (e : jsval) : Componente :=
  {| pago := pago st;
     isScanning := isScanning st;
     scanMessage := scanMessage st;
     scanError := e;
     isScanSuccess := isScanSuccess st;
     activeScanCardId := activeScanCardId st;
     documentCards := documentCards st |}.

Definition conTarjetas (st : Componente) (cards : list DocumentCard)
  : Componente :=
  {| pago := pago st;
     isScanning := isScanning st;
     scanMessage := scanMessage st;
     scanError := scanError st;
     isScanSuccess := isScanSuccess st;
     activeScanCardId := activeScanCardId st;
     documentCards := cards |}.

(** [this.documentCards.find(c => c.id === cardId)]. *)
Definition buscarTarjeta (cards : list DocumentCard) (cardId : texto)
  : option DocumentCard :=
  find (fun c => texto_eqb (id c) cardId) cards.

(** The card [c] with the files [fs]. *)
Definition conFiles (c : DocumentCard) (fs : list File) : DocumentCard :=
  {| id := id c; title := title c; icon := icon c;
     description := description c; files := fs |}.

(** The array after the card [find] returns got the files [fs]: the cards
    are objects, the first one of that id is the one changed. *)
Fixpoint conArchivos (cards : list DocumentCard) (cardId : texto)
    (fs : list File) : list DocumentCard :=
  match cards with
  | [] => []
  | c :: r =>
      if texto_eqb (id c) cardId
      then conFiles c fs :: r
      else c :: conArchivos r cardId fs
  end.

(** [cardId === 'bank-doc' ? 1 : 5]. *)
Definition maxFilesDe (cardId : texto) : nat :=
  if texto_eqb cardId (lit "bank-doc") then 1 else 5.

(** [maxFiles === 1 ? '1 archivo PDF' : '5 archivos PDF']. *)
Definition limiteTexto (maxFiles : nat) : texto :=
  if (maxFiles =? 1)%nat then lit "1 archivo PDF" else lit "5 archivos PDF".

Section Metodos.

(** The lower-case mapping of a code point outside ASCII. *)
Variable minusculaUnicode : N -> texto.

(** [s.toLowerCase()]. *)
Definition toLowerCase (s : texto) : texto :=
  flat_map (fun c => if (c <? 128)%N then [minusculaAscii c]
                     else minusculaUnicode c) s.

(** The test both methods filter with. *)
Definition esPdf (file : File) : bool :=
  texto_eqb (type file) (lit "application/pdf")
  || texto_eqb (type file) (lit "application/x-pdf")
  || endsWith (toLowerCase (name file)) (lit ".pdf").

(** [onFileSelected]: [input_files] is [input.files], [None] for [null]. *)
Definition onFileSelected (input_files : option (list File)) (cardId : texto)
    (st : Componente) : Componente :=
  match input_files with
  | None | Some [] => st
  | Some allFiles =>
      match buscarTarjeta (documentCards st) cardId with
      | None => st
      | Some card =>
          let maxFiles := maxFilesDe cardId in
          let pdfFiles := filter esPdf allFiles in
          match pdfFiles with
          | [] => conError st (VStr (lit "Solo se permiten archivos PDF."))
          | _ :: _ =>
              let totalArchivos :=
                (List.length (files card) + List.length pdfFiles)%nat in
              let st :=
                conError st
                  (if (maxFiles <? totalArchivos)%nat
                   then VStr (lit "Solo se pueden subir hasta "
                              ++ limiteTexto maxFiles ++ lit " a la vez.")
                   else VNull) in
              let espacioDisponible :=
                (Z.of_nat maxFiles - Z.of_nat (List.length (files card)))%Z in
              if (espacioDisponible <=? 0)%Z
              then
                if negb (truthy (scanError st))
                then conError st
                       (VStr (lit "Solo se permiten hasta "
                              ++ limiteTexto maxFiles ++ lit "."))
                else st
              else
                let archivosAAgregar :=
                  firstn (Z.to_nat espacioDisponible) pdfFiles in
                conTarjetas st
                  (conArchivos (documentCards st) cardId
                     (files card ++ archivosAAgregar))
          end
      end
  end.

(** [xs.splice(index, 1)] for an integer [index]: a negative one counts
    from the end, and one outside the array removes nothing. *)
Definition splice1 (A : Type) (index : Z) (xs : list A) : list A :=
  let len := Z.of_nat (List.length xs) in
  let start :=
    if (index <? 0)%Z then Z.max (len + index) 0 else Z.min index len in
  firstn (Z.to_nat start) xs ++ skipn (S (Z.to_nat start)) xs.

Definition removeFile (cardId : texto) (index : Z) (st : Componente)
  : Componente :=
  match buscarTarjeta (documentCards st) cardId with
  | None => st
  | Some card =>
      conTarjetas st
        (conArchivos (documentCards st) cardId (splice1 index (files card)))
  end.

(** The state while a request is under way: the first three statements of
    the scan methods. *)
Definition escaneando (st : Componente) : Componente :=
  {| pago := pago st;
     isScanning := true;
     scanMessage := VStr (lit "Escaneando documento...");
     scanError := VNull;
     isScanSuccess := isScanSuccess st;
     activeScanCardId := activeScanCardId st;
     documentCards := documentCards st |}.

(** [registrarEventoSubidaPdf]. *)
Definition registrarEventoSubidaPdf (st : Componente) (factura : bool)
    (cantidadArchivos : nat) : Llamada :=
  let tipo_entidad :=
    match pago st with Some _ => lit "PAGO" | None => lit "DOCUMENTO" end in
  let entidad_id :=
    match pago st with Some p => Some (pago_id p) | None => None end in
  let descripcionBase :=
    if factura
    then lit "Escaneo de " ++ texto_de_nat cantidadArchivos
         ++ lit " documento(s) PDF asociado al pago "
         ++ match pago st with
            | Some p =>
                match numero_presta p with Some n => n | None => [] end
            | None => []
            end
    else lit "Subida de " ++ texto_de_nat cantidadArchivos
         ++ lit " documento(s) PDF desde el mf3dulo de Subida de documentos" in
  registrarEvento tipo_entidad entidad_id descripcionBase.

(** [response?.code === 200 && response?.estado === true]. *)
Definition aceptado (response : jsval) : bool :=
  match prop response "code", prop response "estado" with
  | VNum code, VBool true => PrimFloat.eqb code 200
  | _, _ => false
  end.

(** The observer the three scan methods subscribe with; they differ in the
    texts, in the origin of the event and in the reload of the payments. *)
Definition observar (mensajeExito textoError textoDesconocido : texto)
    (factura recargar : bool) (cantidadArchivos : nat) (st : Componente)
    (n : Notificacion) : Componente * list Llamada :=
  match n with
  | next response =>
      if aceptado response
      then
        ({| pago := pago st;
            isScanning := false;
            scanMessage :=
              o_bien (prop response "mensaje") (VStr mensajeExito);
            scanError := VNull;
            isScanSuccess := true;
            activeScanCardId := activeScanCardId st;
            documentCards := documentCards st |},
         registrarEventoSubidaPdf st factura cantidadArchivos
         :: (if recargar then [recargarPagos] else []))
      else
        ({| pago := pago st;
            isScanning := false;
            scanMessage := VNull;
            scanError :=
              o_bien (prop response "error")
                (o_bien (prop response "mensaje") (VStr textoError));
            isScanSuccess := false;
            activeScanCardId := activeScanCardId st;
            documentCards := documentCards st |},
         [])
  | error campos =>
      ({| pago := pago st;
          isScanning := false;
          scanMessage := VNull;
          scanError :=
            o_bien (prop (buscar (lit "error") campos) "error")
              (o_bien (prop (buscar (lit "error") campos) "mensaje")
                 (o_bien (buscar (lit "message") campos)
                    (VStr textoDesconocido)));
          isScanSuccess := false;
          activeScanCardId := activeScanCardId st;
          documentCards := documentCards st |},
       [])
  end.

(** What the services answer to a call. *)
Variable servicio : Llamada -> Notificacion.

Definition suscribir (llamada : Llamada)
    (observador : Componente -> Notificacion -> Componente * list Llamada)
    (st : Componente) : Componente * list Llamada :=
  let r := observador (escaneando st) (servicio llamada) in
  (fst r, llamada :: snd r).

Definition scanDocumento (pdfBase64 : texto) (cantidadArchivos : nat)
  : Componente -> Componente * list Llamada :=
  fun st =>
    suscribir
      (scanPagoDocumento pdfBase64
         match pago st with Some p => Some (pago_id p) | None => None end
         match pago st with Some p => numero_presta p | None => None end)
      (observar (lit "Documento validado correctamente.")
         (lit "Error al validar el documento.")
         (lit "Error desconocido al escanear el documento.")
         true true cantidadArchivos)
      st.

Definition scanDocumentosRecibiendo (archivos : list WebhookArchivoPdf)
    (cantidadArchivos : nat) : Componente -> Componente * list Llamada :=
  suscribir (enviarDocumentosRecibiendoPdf archivos)
    (observar (lit "Documentos enviados correctamente.")
       (lit "Error al procesar los documentos.")
       (lit "Error desconocido al escanear el documento.")
       false false cantidadArchivos).

Definition scanDocumentoBanco (archivo : WebhookArchivoPdf)
    (cantidadArchivos : nat) : Componente -> Componente * list Llamada :=
  suscribir (enviarDocumentoBancoPdf archivo)
    (observar (lit "Documento de banco enviado correctamente.")
       (lit "Error al procesar el documento de banco.")
       (lit "Error desconocido al escanear el documento de banco.")
       false false cantidadArchivos).

(** How reading each file ends. *)
Variable leer : File -> Lectura.

(** [leerArchivo(index)] over the files not read yet, [archivos] holding
    those read: [inl] with the error text when a file cannot be read,
    [inr] with all of them otherwise.  In [onScanCard] below [archivos[0]]
    is read off the result; it is there, [limitedFiles] having a file. *)
Fixpoint leerArchivos (pendientes : list File)
    (archivos : list WebhookArchivoPdf) : texto + list WebhookArchivoPdf :=
  match pendientes with
  | [] => inr archivos
  | file :: r =>
      match leer file with
      | onload result =>
          match segundoCampo result with
          | [] => inl (lit "No se pudo leer el contenido del archivo PDF.")
          | base64 =>
              leerArchivos r
                (archivos
                 ++ [{| nombre := name file;
                        tipo := match type file with
                                | [] => lit "application/pdf"
                                | t => t
                                end;
                        base64 := base64 |}])
          end
      | onerror => inl (lit "Error leyendo el archivo PDF.")
      end
  end.

Definition onScanCard (cardId : texto) (st : Componente)
  : Componente * list Llamada :=
  let st :=
    {| pago := pago st;
       isScanning := isScanning st;
       scanMessage := VNull;
       scanError := VNull;
       isScanSuccess := false;
       activeScanCardId := Some cardId;
       documentCards := documentCards st |} in
  let sinArchivos :=
    (conError st
       (VStr (lit "Debes adjuntar al menos un archivo PDF antes de escanear.")),
     []) in
  match buscarTarjeta (documentCards st) cardId with
  | None => sinArchivos
  | Some card =>
      match files card with
      | [] => sinArchivos
      | _ :: _ =>
          let pdfFiles := filter esPdf (files card) in
          match pdfFiles with
          | [] =>
              (conError st (VStr (lit "Solo se permiten archivos PDF.")), [])
          | _ :: _ =>
              let maxFiles := maxFilesDe cardId in
              let limitedFiles := firstn maxFiles pdfFiles in
              let cantidadArchivos := List.length limitedFiles in
              let st :=
                {| pago := pago st;
                   isScanning := true;
                   scanMessage := VStr (lit "Escaneando documento...");
                   scanError := scanError st;
                   isScanSuccess := isScanSuccess st;
                   activeScanCardId := activeScanCardId st;
                   documentCards := documentCards st |} in
              match leerArchivos limitedFiles [] with
              | inl texto =>
                  ({| pago := pago st;
                      isScanning := false;
                      scanMessage := scanMessage st;
                      scanError := VStr texto;
                      isScanSuccess := isScanSuccess st;
                      activeScanCardId := activeScanCardId st;
                      documentCards := documentCards st |},
                   [])
              | inr [] => (st, [])
              | inr (primer :: resto) =>
                  if texto_eqb cardId (lit "bank-doc")
                  then scanDocumentoBanco primer cantidadArchivos st
                  else
                    match pago st with
                    | Some _ =>
                        scanDocumento (base64 primer) cantidadArchivos st
                    | None =>
                        scanDocumentosRecibiendo (primer :: resto)
                          cantidadArchivos st
                    end
              end
          end
      end
  end.

End Metodos.

(** The cards the component starts with. *)
Definition inicial : Componente :=
  {| pago := None;
     isScanning := false;
     scanMessage := VNull;
     scanError := VNull;
     isScanSuccess := false;
     activeScanCardId := None;
     documentCards :=
       [{| id := lit "invoices"; title := lit "Facturas";
           icon := lit "pi pi-file-pdf";
           description := lit "Adjunta archivos o haz clic";
           files := [] |};
        {| id := lit "bank-doc"; title := lit "Documento Banco";
           icon := lit "pi pi-file-word";
           description := lit "Adjunta un archivo o haz clic";
           files := [] |}] |}.

End DocumentUpload.

(** [a] is what reading the file [f] gave: its name, and the text between
    the first and the second comma of the data URL, which is not empty. *)
Definition leido (leer : DocumentUpload.File -> DocumentUpload.Lectura)
    (f : DocumentUpload.File) (a : DocumentUpload.WebhookArchivoPdf) : Prop :=
  exists result,
    leer f = DocumentUpload.onload result
    /\ DocumentUpload.base64 a = segundoCampo result
    /\ DocumentUpload.base64 a <> []
    /\ DocumentUpload.nombre a = DocumentUpload.name f.

(** ** The Gmail-GEN page (src/app/features/gmail-gen/gmail-gen.ts):
    the two getters over the history of dispatches *)

(** [a < b] on strings: the order of the code units, a proper prefix
    first.  The keys compared below are ASCII. *)
Fixpoint menorQue (a b : texto) : bool :=
  match a, b with
  | _, [] => false
  | [], _ :: _ => true
  | x :: a', y :: b' =>
      if (x <? y)%N then true
      else if (x =? y)%N then menorQue a' b'
      else false
  end.

(** [s.padStart(2, '0')]. *)
Definition padStart2 (s : texto) : texto :=
  repeat 48%N (2 - List.length s) ++ s.

Module GmailGenComponent.

(** The members of a [Date] the getters read, in local time. *)
Record Fecha : Type := {
  getFullYear : Z;
  getMonth : nat;
  getDate : nat
}.

(** The member of [GmailEnvioHistorial] the getters read, [None] where the
    answer of the server has none, and the rest of the entry. *)
Record GmailEnvioHistorial : Type := {
  id_envio : Z;
  fecha_resumen : option texto;
  resto : jsval
}.

(** The key [`${y}-${mm}-${dd}`] of a date. *)
Definition claveDe (fecha : Fecha) : texto :=
  texto_de_Z (getFullYear fecha)
  ++ [45%N] ++ padStart2 (texto_de_nat (getMonth fecha + 1))
  ++ [45%N] ++ padStart2 (texto_de_nat (getDate fecha)).

Section Getters.

(** [new Date(s)], [None] when its time is NaN; and the [new Date()] the
    getter reads when it runs: each getter reads the clock itself, so two
    getters, or two runs of one, may be given different readings. *)
Variable nuevaFecha : texto -> option Fecha.
Variable today : Fecha.

(** The callback of both filters, up to the comparison of the keys. *)
Definition conClave (compara : texto -> texto -> bool)
    (envio : GmailEnvioHistorial) : bool :=
  let todayKey := claveDe today in
  match fecha_resumen envio with
  | None | Some [] => false
  | Some s =>
      match nuevaFecha s with
      | None => false
      | Some fecha => compara (claveDe fecha) todayKey
      end
  end.

Definition enviosHoy (historialEnvios : list GmailEnvioHistorial)
  : list GmailEnvioHistorial :=
  filter (conClave texto_eqb) historialEnvios.

Definition enviosPasados (historialEnvios : list GmailEnvioHistorial)
  : list GmailEnvioHistorial :=
  filter (conClave menorQue) historialEnvios.

End Getters.

End GmailGenComponent.

(** A date of the common era with a four-digit year. *)
Definition fechaCorriente (f : GmailGenComponent.Fecha) : Prop :=
  (1000 <= GmailGenComponent.getFullYear f <= 9999)%Z
  /\ (GmailGenComponent.getMonth f <= 11)%nat
  /\ (1 <= GmailGenComponent.getDate f <= 31)%nat.

(** [f] is a day before [g]. *)
Definition antes (f g : GmailGenComponent.Fecha) : Prop :=
  (GmailGenComponent.getFullYear f < GmailGenComponent.getFullYear g)%Z
  \/ (GmailGenComponent.getFullYear f = GmailGenComponent.getFullYear g
      /\ ((GmailGenComponent.getMonth f < GmailGenComponent.getMonth g)%nat
          \/ (GmailGenComponent.getMonth f = GmailGenComponent.getMonth g
              /\ (GmailGenComponent.getDate f
                  < GmailGenComponent.getDate g)%nat))).

(** The two decimal digits of a number below 100. *)
Definition dos (n : nat) : texto :=
  [(48 + N.of_nat (n / 10))%N; (48 + N.of_nat (n mod 10))%N].

(** Two groups that differ at most in their totals. *)
Definition mismoGrupo (g g1 : GmailEmailGroup.t) : Prop :=
  GmailEmailGroup.id g1 = GmailEmailGroup.id g
  /\ GmailEmailGroup.proveedorNombre g1 = GmailEmailGroup.proveedorNombre g
  /\ GmailEmailGroup.correoContacto g1 = GmailEmailGroup.correoContacto g
  /\ GmailEmailGroup.color g1 = GmailEmailGroup.color g
  /\ GmailEmailGroup.estado g1 = GmailEmailGroup.estado g
  /\ GmailEmailGroup.pagos g1 = GmailEmailGroup.pagos g.

(** ** A collation that folds case

    A database may collate without regard to case (a [citext] column, an
    ICU collation of strength two, [utf8mb4_general_ci]); the statement of
    [obtenerPagosDirectos] names no collation.  This one compares the
    ASCII upper-casing of the two names bytewise. *)
Definition colacionSinCaja (a b : texto) : bool :=
  texto_leb (map mayusculaAscii a) (map mayusculaAscii b).

(** The worked data over that collation, the first provider spelled
    "acme". *)
Module EjemploSinCaja.

Definition plataforma : Plataforma :=
  {| mayusculaUnicode := mayusculaUnicode Ejemplo.plataforma;
     numeroDeObjeto := numeroDeObjeto Ejemplo.plataforma;
     numeroATexto := numeroATexto Ejemplo.plataforma;
     JSON_parse := JSON_parse Ejemplo.plataforma;
     colacion := colacionSinCaja |}.

Definition acme : Tabla.Proveedor :=
  {| Tabla.id := 7; Tabla.nombre := lit "acme";
     Tabla.correo := lit "acme@example.com" |}.

Definition tablas : BaseDatos :=
  {| pagos := [Ejemplo.pago 13 8 3 "banco-002"; Ejemplo.pago 11 7 10 "TARJ-001"];
     proveedores := [Ejemplo.zeta; acme];
     detalle_envio_correo := [];
     envios := [] |}.

Definition mundo : Mundo :=
  {| base := tablas; enviados := []; registros := [] |}.

End EjemploSinCaja.

(** ** Two executions of the SELECT

    [ORDER BY pr.nombre ASC] orders by the provider's name and by nothing
    else: the order of the payments of one provider, and of providers whose
    names the collation ties, is left to the scan and may differ between
    two statements and between two executions of one statement.  In the
    model the scan follows the tables as they are listed, so that the
    answers a statement may give over the same rows are the answers of the
    model over the tables in every order ([orden_admitido] below).
    Properties that compare two executions therefore run them over tables
    that hold the same rows in any order. *)
Definition mismasFilas (db db' : BaseDatos) : Prop :=
  Permutation (pagos db) (pagos db')
  /\ Permutation (proveedores db) (proveedores db')
  /\ Permutation (detalle_envio_correo db) (detalle_envio_correo db')
  /\ Permutation (envios db) (envios db').




(** * Properties *)

(** ** The run of a dispatch *)

Section Corrida.

Variables (pl : Plataforma) (ent : Entorno).
Variables (usuarioId proveedorId : Z) (fecha asunto mensaje : option texto).

Local Abbreviation enviar :=
  (GmailGenService.enviarCorreoProveedor pl ent usuarioId proveedorId
     fecha asunto mensaje).
Local Abbreviation filas := (filasDe pl ent usuarioId proveedorId fecha).

Lemma enviar_select_falla (w : Mundo) (e : excepcion) :
  fallo_select ent = Some e ->
  enviar w = (w, respuestaCatch e).
Proof.
  intros H. unfold GmailGenService.enviarCorreoProveedor, intentar, bind,
    GmailGenService.obtenerPagosDirectos.
  rewrite H. reflexivity.
Qed.

Lemma enviar_sin_filas (w : Mundo) :
  fallo_select ent = None ->
  filas w = [] ->
  enviar w = (w, respuestaSinPagos).
Proof.
  intros H H0. unfold GmailGenService.enviarCorreoProveedor, intentar, bind,
    GmailGenService.obtenerPagosDirectos.
  rewrite H. unfold filasDe in H0. rewrite H0. reflexivity.
Qed.

Lemma enviar_con_filas (w : Mundo) (firstRow : Fila.t) (resto : list Fila.t) :
  fallo_select ent = None ->
  filas w = firstRow :: resto ->
  let rows := firstRow :: resto in
  let carga := cargaDe pl ent fecha asunto mensaje firstRow rows in
  let registro :=
    registroDe pl ent usuarioId proveedorId fecha asunto mensaje firstRow rows in
  let escrito := registrar_envio_correo_con_detalles ent (base w) registro in
  enviar w =
  ({| base := fst escrito;
      enviados := enviados w ++ [carga];
      registros := registros w ++ [registro] |},
   respuestaDe pl ent fecha asunto mensaje firstRow rows
     (fst (GmailGenService.clasificarRespuesta (axios_post ent carga)))
     (snd escrito)).
Proof.
  intros H H0 rows carga registro escrito.
  unfold GmailGenService.enviarCorreoProveedor, intentar, bind,
    GmailGenService.obtenerPagosDirectos.
  rewrite H. unfold filasDe in H0. rewrite H0.
  unfold GmailGenService.enviarWebhook, GmailGenService.registrarEnvio,
    deResultado, ret.
  fold rows. cbn [base enviados registros fst snd].
  change (registrar_envio_correo_con_detalles ent (base w) _) with escrito.
  destruct escrito as [b [e | rawRegistrar]]; cbn [fst snd respuestaDe].
  - reflexivity.
  - destruct (parsear pl rawRegistrar) as [e | parsedRegistrar].
    + reflexivity.
    + fold (rechazado pl parsedRegistrar).
      destruct (rechazado pl parsedRegistrar); reflexivity.
Qed.

End Corrida.

(** ** The webhook step (C4) *)

Lemma clasificar_error (r : Respuesta) :
  snd (GmailGenService.clasificarRespuesta r) = ERROR_WEBHOOK <->
  (exists e, r = Rechaza e) \/
  (exists cuerpo, r = Resuelve cuerpo
                  /\ truthy (prop cuerpo "code") = true
                  /\ prop cuerpo "estado" = VBool false).
Proof.
  destruct r as [cuerpo | e]; cbn [GmailGenService.clasificarRespuesta snd].
  - destruct (truthy (prop cuerpo "code")) eqn:Hc; cbn [andb].
    + destruct (prop cuerpo "estado") as [| | [|] | | | |] eqn:He;
        cbn [GmailGenService.esFalse]; split;
        try discriminate;
        try (intros [[e H] | [c [H [_ H2]]]];
             [discriminate | injection H as <-; congruence]).
      intros _. right. exists cuerpo. auto.
    + split; [discriminate |].
      intros [[e H] | [c [H [H1 _]]]]; [discriminate |].
      injection H as <-. congruence.
  - split; [| reflexivity]. intros _. left. exists e. reflexivity.
Qed.

(** C4 (as amended): the webhook step always hands the caller an outcome and
    never throws.  The outcome carries the body [axios.post] resolved with,
    or [null] when it was rejected, and a status: ERROR_WEBHOOK exactly when
    [axios.post] was rejected (transport failure, timeout) or the body has a
    truthy [code] together with [estado] strictly equal to [false], and
    ENVIADO in every other case. *)
Theorem webhook_siempre_clasifica :
  forall (ent : Entorno) (carga : WebhookPayload) (w : Mundo),
  exists (cuerpo : jsval) (estadoEnvio : EstadoEnvio),
    GmailGenService.enviarWebhook ent carga w =
      ({| base := base w;
          enviados := enviados w ++ [carga];
          registros := registros w |},
       inr (cuerpo, estadoEnvio))
    /\ cuerpo = match axios_post ent carga with
                | Resuelve webhookResponseData => webhookResponseData
                | Rechaza _ => VNull
                end
    /\ (estadoEnvio = ERROR_WEBHOOK <->
        (exists e, axios_post ent carga = Rechaza e) \/
        (exists c, axios_post ent carga = Resuelve c
                   /\ truthy (prop c "code") = true
                   /\ prop c "estado" = VBool false))
    /\ (estadoEnvio = ENVIADO \/ estadoEnvio = ERROR_WEBHOOK).
Proof.
  intros ent carga w.
  exists (fst (GmailGenService.clasificarRespuesta (axios_post ent carga))),
         (snd (GmailGenService.clasificarRespuesta (axios_post ent carga))).
  split; [| split; [| split]].
  - unfold GmailGenService.enviarWebhook.
    now rewrite <- surjective_pairing.
  - now destruct (axios_post ent carga).
  - apply clasificar_error.
  - destruct (snd _); auto.
Qed.

(** C4 (as stated) fails: a body [{ estado: false }] received with HTTP 200,
    whose [estado] is falsy, is classified ENVIADO because it has no
    [code]. *)
Lemma estado_falsy_sin_code_es_ENVIADO :
  truthy (prop Ejemplo.cuerpoEstadoFalso "estado") = false
  /\ GmailGenService.clasificarRespuesta (Resuelve Ejemplo.cuerpoEstadoFalso)
     = (Ejemplo.cuerpoEstadoFalso, ENVIADO).
Proof.
  split; reflexivity.
Qed.

(** ** Empty summaries (C8) *)

(** C8: [getResumenPagosDia] on a scope whose SELECT returns no row answers
    with success and the empty list, and leaves the world as it was. *)
Theorem resumen_vacio_es_exito :
  forall (pl : Plataforma) (ent : Entorno) (usuarioId : Z)
         (fecha : option texto) (w : Mundo),
    fallo_select ent = None ->
    consultaPagosDirectos pl (base w) usuarioId
      (GmailGenService.fechaO ent fecha) None = [] ->
    GmailGenService.getResumenPagosDia pl ent usuarioId fecha w =
      (w, {| success := true; data := Some []; error := None;
             statusCode := VNum 200 |}).
Proof.
  intros pl ent usuarioId fecha w H H0.
  unfold GmailGenService.getResumenPagosDia, intentar, bind,
    GmailGenService.obtenerPagosDirectos.
  rewrite H, H0. reflexivity.
Qed.

Lemma resumen_vacio_es_exito_en_otro_dia :
  GmailGenService.getResumenPagosDia Ejemplo.plataforma
    (Ejemplo.entorno Ejemplo.acepta) 1 (Some (lit "2024-05-02")) Ejemplo.mundo
  = (Ejemplo.mundo,
     {| success := true; data := Some []; error := None;
        statusCode := VNum 200 |}).
Proof.
  apply (resumen_vacio_es_exito Ejemplo.plataforma
           (Ejemplo.entorno Ejemplo.acepta) 1 (Some (lit "2024-05-02"))
           Ejemplo.mundo); reflexivity.
Defined.

(** ** The webhook's outcome does not reach the store or the caller (C10) *)

Lemma fechaO_conWebhook (ent : Entorno) (post : WebhookPayload -> Respuesta)
    (fecha : option texto) :
  GmailGenService.fechaO (conWebhook ent post) fecha
  = GmailGenService.fechaO ent fecha.
Proof.
  reflexivity.
Qed.

Lemma cargaDe_conWebhook (pl : Plataforma) (ent : Entorno)
    (post : WebhookPayload -> Respuesta) (fecha asunto mensaje : option texto)
    (firstRow : Fila.t) (rows : list Fila.t) :
  cargaDe pl (conWebhook ent post) fecha asunto mensaje firstRow rows
  = cargaDe pl ent fecha asunto mensaje firstRow rows.
Proof.
  reflexivity.
Qed.

Lemma registroDe_conWebhook (pl : Plataforma) (ent : Entorno)
    (post : WebhookPayload -> Respuesta) (usuarioId proveedorId : Z)
    (fecha asunto mensaje : option texto)
    (firstRow : Fila.t) (rows : list Fila.t) :
  registroDe pl (conWebhook ent post) usuarioId proveedorId fecha asunto
    mensaje firstRow rows
  = registroDe pl ent usuarioId proveedorId fecha asunto mensaje firstRow rows.
Proof.
  reflexivity.
Qed.

Lemma respuestaDe_conWebhook (pl : Plataforma) (ent : Entorno)
    (post : WebhookPayload -> Respuesta) (fecha asunto mensaje : option texto)
    (firstRow : Fila.t) (rows : list Fila.t) (d : jsval)
    (r : excepcion + jsval) :
  respuestaDe pl (conWebhook ent post) fecha asunto mensaje firstRow rows d r
  = respuestaDe pl ent fecha asunto mensaje firstRow rows d r.
Proof.
  reflexivity.
Qed.

Lemma respuestaDe_sinWebhook (pl : Plataforma) (ent : Entorno)
    (fecha asunto mensaje : option texto) (firstRow : Fila.t)
    (rows : list Fila.t) (d1 d2 : jsval) (r : excepcion + jsval) :
  sinWebhook (respuestaDe pl ent fecha asunto mensaje firstRow rows d1 r)
  = sinWebhook (respuestaDe pl ent fecha asunto mensaje firstRow rows d2 r).
Proof.
  unfold respuestaDe.
  destruct r as [e | raw]; [reflexivity |].
  destruct (parsear pl raw) as [e | parsed]; [reflexivity |].
  destruct (rechazado pl parsed); reflexivity.
Qed.

(** Two dispatches that differ only in the webhook end in the same world
    and in responses that differ at most in the raw [webhook] member. *)
Lemma enviar_conWebhook (pl : Plataforma) (ent : Entorno)
    (post1 post2 : WebhookPayload -> Respuesta)
    (usuarioId proveedorId : Z) (fecha asunto mensaje : option texto)
    (w : Mundo) :
  let r1 := GmailGenService.enviarCorreoProveedor pl (conWebhook ent post1)
              usuarioId proveedorId fecha asunto mensaje w in
  let r2 := GmailGenService.enviarCorreoProveedor pl (conWebhook ent post2)
              usuarioId proveedorId fecha asunto mensaje w in
  fst r1 = fst r2 /\ sinWebhook (snd r1) = sinWebhook (snd r2).
Proof.
  intros r1 r2. subst r1 r2.
  destruct (fallo_select ent) as [e |] eqn:Hs.
  - rewrite !enviar_select_falla with (e := e) by exact Hs. auto.
  - destruct (filasDe pl ent usuarioId proveedorId fecha w)
      as [| firstRow resto] eqn:Hf.
    + rewrite !enviar_sin_filas by assumption. auto.
    + pose proof (@enviar_con_filas pl (conWebhook ent post1) usuarioId
                    proveedorId fecha asunto mensaje w firstRow resto Hs Hf)
        as E1.
      pose proof (@enviar_con_filas pl (conWebhook ent post2) usuarioId
                    proveedorId fecha asunto mensaje w firstRow resto Hs Hf)
        as E2.
      cbv zeta in E1, E2. rewrite E1, E2.
      rewrite !cargaDe_conWebhook, !registroDe_conWebhook,
        !respuestaDe_conWebhook.
      cbn [fst snd base enviados registros conWebhook
           registrar_envio_correo_con_detalles].
      split; [reflexivity |].
      apply respuestaDe_sinWebhook.
Qed.

(** C10: two dispatches that differ only in how the webhook settles issue
    the same audit writes with the same nine arguments, post the same
    payloads, leave the same tables, and return the same response up to the
    raw [webhook] member of the report.  [estadoEnvio] reaches neither the
    store nor the caller. *)
Theorem enviar_no_depende_del_webhook :
  forall (pl : Plataforma) (ent : Entorno)
         (post1 post2 : WebhookPayload -> Respuesta)
         (usuarioId proveedorId : Z) (fecha asunto mensaje : option texto)
         (w : Mundo),
    let r1 := GmailGenService.enviarCorreoProveedor pl (conWebhook ent post1)
                usuarioId proveedorId fecha asunto mensaje w in
    let r2 := GmailGenService.enviarCorreoProveedor pl (conWebhook ent post2)
                usuarioId proveedorId fecha asunto mensaje w in
    registros (fst r1) = registros (fst r2)
    /\ base (fst r1) = base (fst r2)
    /\ enviados (fst r1) = enviados (fst r2)
    /\ sinWebhook (snd r1) = sinWebhook (snd r2).
Proof.
  intros pl ent post1 post2 usuarioId proveedorId fecha asunto mensaje w r1 r2.
  destruct (enviar_conWebhook pl ent post1 post2 usuarioId proveedorId fecha
              asunto mensaje w) as [Hw Hr].
  cbv zeta in Hw, Hr. subst r1 r2. rewrite Hw. auto.
Qed.

(** ** A failed audit write after the webhook (C3) *)

(** C3 (as amended): when the audit write fails after the webhook was
    called -- the write throws, its answer does not parse, or the answer is
    falsy or has a status from 400 on -- [enviarCorreoProveedor] returns the
    ordinary failure response: [success] false, no [data], [error] the
    store's message (or [error.message], or a fixed text) and [statusCode]
    the store's status (or 500).  The response is the same however the
    webhook settled and carries neither the recipient, the record ids nor
    the composed message. *)
Theorem enviar_registro_fallido :
  forall (pl : Plataforma) (ent : Entorno) (post : WebhookPayload -> Respuesta)
         (usuarioId proveedorId : Z) (fecha asunto mensaje : option texto)
         (w : Mundo) (firstRow : Fila.t) (resto : list Fila.t),
    fallo_select ent = None ->
    filasDe pl ent usuarioId proveedorId fecha w = firstRow :: resto ->
    let r := snd (registrar_envio_correo_con_detalles ent (base w)
                    (registroDe pl ent usuarioId proveedorId fecha asunto
                       mensaje firstRow (firstRow :: resto))) in
    registroFallido pl r = true ->
    let resp := snd (GmailGenService.enviarCorreoProveedor pl
                       (conWebhook ent post) usuarioId proveedorId fecha
                       asunto mensaje w) in
    resp = match r with
           | inl e => respuestaCatch e
           | inr rawRegistrar =>
               match parsear pl rawRegistrar with
               | inl e => respuestaCatch e
               | inr parsedRegistrar => respuestaRechazo parsedRegistrar
               end
           end
    /\ success resp = false
    /\ data resp = None.
Proof.
  intros pl ent post usuarioId proveedorId fecha asunto mensaje w firstRow
    resto Hs Hf r Hr resp.
  pose proof (@enviar_con_filas pl (conWebhook ent post) usuarioId proveedorId
                fecha asunto mensaje w firstRow resto Hs Hf) as E.
  cbv zeta in E.
  rewrite registroDe_conWebhook, respuestaDe_conWebhook in E.
  cbn [conWebhook registrar_envio_correo_con_detalles] in E.
  subst resp. rewrite E. cbn [snd]. fold r.
  unfold respuestaDe, registroFallido in *.
  destruct r as [e | raw]; [now auto |].
  destruct (parsear pl raw) as [e | parsed]; [now auto |].
  rewrite Hr. now auto.
Qed.

Lemma enviar_registro_fallido_ejemplo :
  snd (GmailGenService.enviarCorreoProveedor Ejemplo.plataforma
         (conWebhook (Ejemplo.entornoRechazo Ejemplo.acepta)
            Ejemplo.inalcanzable)
         1 7 None None None Ejemplo.mundo)
  = respuestaRechazo Ejemplo.rechazo.
Proof.
  refine (proj1 (enviar_registro_fallido Ejemplo.plataforma
                   (Ejemplo.entornoRechazo Ejemplo.acepta) Ejemplo.inalcanzable
                   1 7 None None None Ejemplo.mundo
                   (firstRow := seleccionar
                      (Ejemplo.pago 11 7 10 "TARJ-001",
                       Ejemplo.acme))
                   (resto := [seleccionar
                      (Ejemplo.pago 12 7 15.5 "BANCO-001",
                       Ejemplo.acme)])
                   _ _ _)); reflexivity.
Defined.

(** C3 (as stated) fails: the webhook accepted the notification, the audit
    write was refused with status 500, and the caller gets the plain
    failure response -- no data on the recipient, the ids or the message --
    which is the very response of a dispatch whose webhook was unreachable
    too. *)
Lemma fallo_tras_envio_no_se_distingue :
  let tras_exito :=
    GmailGenService.enviarCorreoProveedor Ejemplo.plataforma
      (Ejemplo.entornoRechazo Ejemplo.acepta) 1 7 None None None
      Ejemplo.mundo in
  let tras_error :=
    GmailGenService.enviarCorreoProveedor Ejemplo.plataforma
      (Ejemplo.entornoRechazo Ejemplo.inalcanzable) 1 7 None None None
      Ejemplo.mundo in
  List.length (enviados (fst tras_exito)) = 1%nat
  /\ snd tras_exito =
     {| success := false;
        data := None;
        error := Some (VStr (lit "No se pudo registrar"));
        statusCode := VNum 500 |}
  /\ snd tras_exito = snd tras_error.
Proof.
  cbv zeta. repeat split; vm_compute; reflexivity.
Qed.

(** ** The two identifier lists of step 5 *)

Section Reparto.

Variable pl : Plataforma.

Local Abbreviation esBancario := (GmailGenService.esBancario pl).
Local Abbreviation idDe := GmailPaymentRecord.id.

Lemma repartirIds_desde (pagos : list GmailPaymentRecord.t)
    (tarjeta bancario : list Z) :
  fold_left
    (fun ids p =>
       if esBancario p
       then (fst ids, snd ids ++ [idDe p])
       else (fst ids ++ [idDe p], snd ids))
    pagos (tarjeta, bancario)
  = (tarjeta ++ map idDe (filter (fun p => negb (esBancario p)) pagos),
     bancario ++ map idDe (filter esBancario pagos)).
Proof.
  revert tarjeta bancario.
  induction pagos as [| p r IH]; intros tarjeta bancario; cbn [fold_left filter map].
  - now rewrite !app_nil_r.
  - destruct (esBancario p); cbn [negb fst snd map]; rewrite IH;
      now rewrite <- ?app_assoc.
Qed.

Lemma repartirIds_filtros (pagos : list GmailPaymentRecord.t) :
  GmailGenService.repartirIds pl pagos
  = (map idDe (filter (fun p => negb (esBancario p)) pagos),
     map idDe (filter esBancario pagos)).
Proof.
  unfold GmailGenService.repartirIds. now rewrite repartirIds_desde.
Qed.

Lemma particion_permutacion (A : Type) (f : A -> bool) (l : list A) :
  Permutation (filter (fun x => negb (f x)) l ++ filter f l) l.
Proof.
  induction l as [| x r IH]; cbn [filter]; [constructor |].
  destruct (f x); cbn [negb app].
  - apply Permutation_sym, Permutation_cons_app, Permutation_sym, IH.
  - now constructor.
Qed.

Lemma repartirIds_cubre (pagos : list GmailPaymentRecord.t) :
  Permutation
    (fst (GmailGenService.repartirIds pl pagos)
     ++ snd (GmailGenService.repartirIds pl pagos))
    (map idDe pagos).
Proof.
  rewrite repartirIds_filtros. cbn [fst snd].
  rewrite <- map_app. apply Permutation_map, particion_permutacion.
Qed.

End Reparto.

(** ** The array literals of the audit write *)

Lemma leerDigitos_digitos (u : Decimal.uint) :
  Almacen.leerDigitos (digitos u) = Some u.
Proof.
  induction u; cbn [digitos Almacen.leerDigitos]; rewrite ?IHu; reflexivity.
Qed.

Lemma digitos_sin_coma (u : Decimal.uint) :
  Forall (fun c => (48 <= c <= 57)%N) (digitos u).
Proof.
  induction u; cbn [digitos]; constructor; try assumption; lia.
Qed.

Lemma leerEntero_digitos (u : Decimal.uint) :
  u <> Decimal.Nil ->
  Almacen.leerEntero (digitos u) = Some (Z.of_int (Decimal.Pos u)).
Proof.
  intros Hu. unfold Almacen.leerEntero.
  rewrite leerDigitos_digitos.
  destruct u; [congruence | ..]; reflexivity.
Qed.

Lemma leerEntero_menos_digitos (u : Decimal.uint) :
  u <> Decimal.Nil ->
  Almacen.leerEntero (45%N :: digitos u) = Some (Z.of_int (Decimal.Neg u)).
Proof.
  intros Hu. unfold Almacen.leerEntero.
  rewrite leerDigitos_digitos.
  destruct u; [congruence | ..]; reflexivity.
Qed.

Lemma leerEntero_texto_de_Z (z : Z) :
  Almacen.leerEntero (texto_de_Z z) = Some z.
Proof.
  pose proof (DecimalZ.of_to z) as E. unfold texto_de_Z.
  destruct z as [| p | p]; cbn [Z.to_int] in *.
  - reflexivity.
  - rewrite leerEntero_digitos by apply DecimalPos.Unsigned.to_uint_nonnil.
    now rewrite E.
  - rewrite leerEntero_menos_digitos
      by apply DecimalPos.Unsigned.to_uint_nonnil.
    now rewrite E.
Qed.

Lemma texto_de_Z_sin_coma (z : Z) : ~ In 44%N (texto_de_Z z).
Proof.
  unfold texto_de_Z. intros H.
  assert (forall u, ~ In 44%N (digitos u)) as Hd.
  { intros u Hin. pose proof (digitos_sin_coma u) as F.
    rewrite Forall_forall in F. specialize (F _ Hin). lia. }
  destruct (Z.to_int z) as [u | u].
  - now apply (Hd u).
  - destruct H as [H | H]; [discriminate | now apply (Hd u)].
Qed.

Lemma texto_de_Z_no_vacio (z : Z) : texto_de_Z z <> [].
Proof.
  unfold texto_de_Z.
  destruct z as [| p | p]; cbn [Z.to_int]; try discriminate.
  pose proof (DecimalPos.Unsigned.to_uint_nonnil p) as Hn.
  destruct (Pos.to_uint p); [congruence | ..]; discriminate.
Qed.

Lemma partir_sin_separador (sep : N) (x : texto) :
  ~ In sep x -> Almacen.partir sep x = [x].
Proof.
  induction x as [| c r IH]; intros H; cbn [Almacen.partir]; [reflexivity |].
  destruct (N.eqb_spec c sep) as [-> | Hc].
  - exfalso. apply H. now left.
  - rewrite IH; [reflexivity |]. intros Hin. apply H. now right.
Qed.

Lemma partir_app (sep : N) (x s : texto) :
  ~ In sep x ->
  Almacen.partir sep (x ++ sep :: s) = x :: Almacen.partir sep s.
Proof.
  induction x as [| c r IH]; intros H; cbn [Almacen.partir app].
  - now rewrite N.eqb_refl.
  - destruct (N.eqb_spec c sep) as [-> | Hc].
    + exfalso. apply H. now left.
    + rewrite IH; [reflexivity |]. intros Hin. apply H. now right.
Qed.

Lemma partir_join (sep : N) (xs : list texto) :
  xs <> [] ->
  Forall (fun x => ~ In sep x) xs ->
  Almacen.partir sep (join [sep] xs) = xs.
Proof.
  induction xs as [| x r IH]; intros Hne HF; [congruence |].
  inversion HF as [| ? ? Hx Hr]; subst.
  destruct r as [| y r'].
  - cbn [join]. now apply partir_sin_separador.
  - change (join [sep] (x :: y :: r')) with (x ++ sep :: join [sep] (y :: r')).
    rewrite partir_app by assumption.
    rewrite IH; [reflexivity | discriminate | assumption].
Qed.

Lemma todos_leerEntero (ids : list Z) :
  Almacen.todos Almacen.leerEntero (map texto_de_Z ids) = Some ids.
Proof.
  induction ids as [| z r IH]; cbn [map Almacen.todos]; [reflexivity |].
  now rewrite leerEntero_texto_de_Z, IH.
Qed.

Lemma join_no_vacio (sep : texto) (xs : list texto) :
  xs <> [] -> Forall (fun x => x <> []) xs -> join sep xs <> [].
Proof.
  destruct xs as [| x r]; intros Hne HF; [congruence |].
  inversion HF as [| ? ? Hx _]; subst.
  destruct r; cbn [join]; [assumption |].
  destruct x; [congruence | discriminate].
Qed.

(** The literal the service writes reads back as the identifiers it was
    made from. *)
Lemma leerLiteral_literalIds (ids : list Z) :
  Almacen.leerLiteral (GmailGenService.literalIds ids) = Some ids.
Proof.
  unfold GmailGenService.literalIds, Almacen.leerLiteral.
  rewrite rev_unit, rev_involutive.
  destruct ids as [| z r]; [reflexivity |].
  assert (join [44%N] (map texto_de_Z (z :: r)) <> []) as Hne.
  { apply join_no_vacio; [discriminate |].
    apply Forall_forall. intros x Hx. apply in_map_iff in Hx.
    destruct Hx as [y [<- _]]. apply texto_de_Z_no_vacio. }
  destruct (join [44%N] (map texto_de_Z (z :: r))) as [| c cuerpo] eqn:Hj;
    [congruence |].
  rewrite <- Hj, partir_join.
  - apply todos_leerEntero.
  - discriminate.
  - apply Forall_forall. intros x Hx. apply in_map_iff in Hx.
    destruct Hx as [y [<- _]]. apply texto_de_Z_sin_coma.
Qed.

(** ** The SELECT after an audit write *)

Section OrdenLemas.

Variables (A K : Type) (clave : A -> K) (le : K -> K -> bool).

Lemma In_insertar (x y : A) (l : list A) :
  In x (insertar clave le y l) <-> x = y \/ In x l.
Proof.
  induction l as [| z r IH]; cbn [insertar].
  - cbn. intuition.
  - destruct (le (clave y) (clave z)); cbn [In] in *; intuition.
Qed.

Lemma In_ordenar (x : A) (l : list A) :
  In x (ordenar clave le l) <-> In x l.
Proof.
  induction l as [| y r IH]; cbn [ordenar]; [reflexivity |].
  rewrite In_insertar. cbn [In]. intuition.
Qed.

End OrdenLemas.

Lemma sin_elementos (A : Type) (l : list A) :
  (forall x, ~ In x l) -> l = [].
Proof.
  destruct l as [| x r]; [reflexivity |].
  intros H. exfalso. apply (H x). now left.
Qed.

Section TrasRegistrar.

Variable pl : Plataforma.
Variables (db db' : BaseDatos) (extra : list Tabla.DetalleEnvioCorreo).

Hypothesis mismos_pagos : pagos db' = pagos db.
Hypothesis mismos_proveedores : proveedores db' = proveedores db.
Hypothesis mas_vinculos :
  detalle_envio_correo db' = detalle_envio_correo db ++ extra.

Lemma elegible_mas_vinculos (usuarioId : Z) (fecha : texto)
    (proveedorId : option Z) (x : Tabla.Pago * Tabla.Proveedor) :
  elegible db' usuarioId fecha proveedorId x
  = elegible db usuarioId fecha proveedorId x
    && negb (existsb (fun d => (Tabla.pago_id d =? Tabla.id_pago (fst x))%Z)
               extra).
Proof.
  destruct x as [p pr]. unfold elegible, reclamado. cbn [fst].
  rewrite mas_vinculos, existsb_app.
  destruct (Tabla.usuario_id p =? usuarioId)%Z,
           (texto_eqb (Tabla.estado p) (lit "PAGADO")),
           (Tabla.esta_activo p),
           (existsb (fun d => (Tabla.pago_id d =? Tabla.id_pago p)%Z)
              (detalle_envio_correo db)),
           (existsb (fun d => (Tabla.pago_id d =? Tabla.id_pago p)%Z) extra),
           (texto_eqb (Tabla.fecha_pago p) fecha),
           (filtraProveedor proveedorId pr); reflexivity.
Qed.

Lemma consulta_mas_vinculos (usuarioId : Z) (fecha : texto)
    (proveedorId : option Z) (fila : Fila.t) :
  In fila (consultaPagosDirectos pl db' usuarioId fecha proveedorId) ->
  In fila (consultaPagosDirectos pl db usuarioId fecha proveedorId)
  /\ existsb (fun d => (Tabla.pago_id d =? Fila.id_pago fila)%Z) extra = false.
Proof.
  unfold consultaPagosDirectos, pagos_con_proveedor.
  rewrite mismos_pagos, mismos_proveedores.
  rewrite !In_ordenar, !in_map_iff.
  intros [x [<- Hx]]. apply filter_In in Hx. destruct Hx as [Hx He].
  rewrite elegible_mas_vinculos in He. apply andb_true_iff in He.
  destruct He as [He Hn]. split.
  - exists x. split; [reflexivity |]. apply filter_In. now split.
  - destruct x as [p pr]. cbn [fst seleccionar Fila.id_pago] in *.
    now apply negb_true_iff in Hn.
Qed.

End TrasRegistrar.

Lemma existsb_vinculos (idEnvio i : Z) (ids : list Z) :
  In i ids ->
  existsb (fun d => (Tabla.pago_id d =? i)%Z) (Almacen.vinculos idEnvio ids)
  = true.
Proof.
  intros H. apply existsb_exists.
  exists {| Tabla.pago_id := i; Tabla.envio_id := idEnvio |}. split.
  - unfold Almacen.vinculos. apply in_map_iff. exists i. now split.
  - cbn. apply Z.eqb_refl.
Qed.

Section EnvioConAlmacen.

Variables (pl : Plataforma) (ent : Entorno) (estadoInicial : texto).
Variables (usuarioId proveedorId : Z) (fecha asunto mensaje : option texto).

Hypothesis select_responde : fallo_select ent = None.
Hypothesis almacen_modelado :
  registrar_envio_correo_con_detalles ent = Almacen.registrar estadoInicial.

Local Abbreviation enviar :=
  (GmailGenService.enviarCorreoProveedor pl ent usuarioId proveedorId
     fecha asunto mensaje).
Local Abbreviation filas := (filasDe pl ent usuarioId proveedorId fecha).
Local Abbreviation registro :=
  (registroDe pl ent usuarioId proveedorId fecha asunto mensaje).

(** The row the modelled store writes for the dispatch of [rows]. *)
Lemma registrar_de_registro (db : BaseDatos) (firstRow : Fila.t)
    (rows : list Fila.t) :
  let ids := GmailGenService.repartirIds pl (pagosDe pl rows) in
  let idEnvio := Z.of_nat (S (List.length (envios db))) in
  exists (fila : Tabla.Envio) (respuesta : jsval),
    Almacen.registrar estadoInicial db (registro firstRow rows)
    = ({| pagos := pagos db;
          proveedores := proveedores db;
          detalle_envio_correo :=
            detalle_envio_correo db
            ++ Almacen.vinculos idEnvio (fst ids ++ snd ids);
          envios := envios db ++ [fila] |},
       inr respuesta)
    /\ Tabla.e_estado fila = estadoInicial
    /\ Tabla.e_cantidad_pagos fila = List.length rows
    /\ Tabla.e_pagos_tarjeta fila = fst ids
    /\ Tabla.e_pagos_bancario fila = snd ids
    /\ parsear pl respuesta = inr respuesta
    /\ rechazado pl respuesta = false
    /\ registroFallido pl (inr respuesta) = false.
Proof.
  intros ids idEnvio. unfold Almacen.registrar.
  cbn [registroDe Registro.ids_pagos_tarjeta Registro.ids_pagos_bancario].
  rewrite !leerLiteral_literalIds. fold ids. fold idEnvio.
  eexists. eexists. split; [reflexivity |].
  cbn [Tabla.e_estado Tabla.e_cantidad_pagos Tabla.e_pagos_tarjeta
       Tabla.e_pagos_bancario registroDe Registro.cantidad_pagos
       infoCorreoDe InfoCorreo.cantidad_pagos].
  unfold pagosDe. rewrite length_map.
  repeat split; reflexivity.
Qed.

(** With the modelled store, a dispatch that selected rows succeeds whatever
    the webhook did, adds exactly one Delivery row, and leaves every row it
    consumed out of any later SELECT. *)
Lemma enviar_con_almacen (w : Mundo) (firstRow : Fila.t)
    (resto : list Fila.t) :
  filas w = firstRow :: resto ->
  let r := enviar w in
  success (snd r) = true
  /\ (exists fila,
        envios (base (fst r)) = envios (base w) ++ [fila]
        /\ Tabla.e_estado fila = estadoInicial
        /\ Tabla.e_cantidad_pagos fila = List.length (firstRow :: resto))
  /\ (forall u f p fila,
        In fila (consultaPagosDirectos pl (base (fst r)) u f p) ->
        In fila (consultaPagosDirectos pl (base w) u f p)
        /\ ~ In (Fila.id_pago fila) (map Fila.id_pago (firstRow :: resto))).
Proof.
  intros Hf r.
  pose proof (@enviar_con_filas pl ent usuarioId proveedorId fecha asunto
                mensaje w firstRow resto select_responde Hf) as E.
  cbv zeta in E. rewrite almacen_modelado in E.
  destruct (registrar_de_registro (base w) firstRow (firstRow :: resto))
    as [fila [respuesta [Hreg [He [Hc [_ [_ [Hp [Hr _]]]]]]]]].
  cbv zeta in Hreg. rewrite Hreg in E. cbn [fst snd] in E.
  subst r. rewrite E. cbn [fst snd base].
  split; [| split].
  - unfold respuestaDe. rewrite Hp, Hr. reflexivity.
  - exists fila. cbn [envios]. auto.
  - intros u f p fila' Hin.
    match type of Hin with
    | In _ (consultaPagosDirectos _ ?d _ _ _) =>
        pose proof (@consulta_mas_vinculos pl (base w) d
                      (Almacen.vinculos _ _) eq_refl eq_refl eq_refl
                      u f p fila' Hin) as H
    end.
    destruct H as [Hin' Hex]. split; [exact Hin' |].
    intros Hid. rewrite existsb_vinculos in Hex; [discriminate |].
    eapply Permutation_in;
      [apply Permutation_sym, repartirIds_cubre |].
    unfold pagosDe. rewrite map_map. exact Hid.
Qed.

(** After such a dispatch the same scope selects nothing. *)
Lemma filas_tras_enviar (w : Mundo) (firstRow : Fila.t) (resto : list Fila.t) :
  filas w = firstRow :: resto ->
  filas (fst (enviar w)) = [].
Proof.
  intros Hf. apply sin_elementos. intros fila Hin.
  destruct (enviar_con_almacen w Hf) as [_ [_ H]].
  unfold filasDe in Hin. apply H in Hin. destruct Hin as [Hin Hno].
  apply Hno. apply in_map. unfold filasDe in Hf. now rewrite <- Hf.
Qed.

End EnvioConAlmacen.

(** ** No dispatch without eligible rows (C2) *)

(** C2: a dispatch whose SELECT returns no row fails with the
    no-pending-payments response (404) and leaves the world untouched: no
    audit write, nothing posted to the webhook.  That is the case of a
    second dispatch with the same arguments after a first one succeeded,
    the audit write being the one modelled from the spec. *)
Theorem enviar_sin_elegibles :
  forall (pl : Plataforma) (ent : Entorno) (usuarioId proveedorId : Z)
         (fecha asunto mensaje : option texto) (w : Mundo),
    fallo_select ent = None ->
    let enviar := GmailGenService.enviarCorreoProveedor pl ent usuarioId
                    proveedorId fecha asunto mensaje in
    (filasDe pl ent usuarioId proveedorId fecha w = [] ->
     enviar w = (w, respuestaSinPagos))
    /\ (forall estadoInicial,
          registrar_envio_correo_con_detalles ent
          = Almacen.registrar estadoInicial ->
          success (snd (enviar w)) = true ->
          enviar (fst (enviar w)) = (fst (enviar w), respuestaSinPagos)).
Proof.
  intros pl ent usuarioId proveedorId fecha asunto mensaje w Hs enviar.
  split.
  - intros Hf. now apply enviar_sin_filas.
  - intros estadoInicial Hreg Hok. subst enviar.
    destruct (filasDe pl ent usuarioId proveedorId fecha w)
      as [| firstRow resto] eqn:Hf.
    + rewrite enviar_sin_filas in Hok by assumption. discriminate.
    + apply enviar_sin_filas; [assumption |].
      now apply (@filas_tras_enviar pl ent estadoInicial usuarioId proveedorId
                   fecha asunto mensaje Hs Hreg w firstRow resto).
Qed.

Lemma enviar_sin_elegibles_dos_veces :
  let enviar := GmailGenService.enviarCorreoProveedor Ejemplo.plataforma
                  (Ejemplo.entorno Ejemplo.acepta) 1 7 None None None in
  GmailGenService.enviarCorreoProveedor Ejemplo.plataforma
    (Ejemplo.entorno Ejemplo.acepta) 1 9 None None None Ejemplo.mundo
  = (Ejemplo.mundo, respuestaSinPagos)
  /\ enviar (fst (enviar Ejemplo.mundo))
     = (fst (enviar Ejemplo.mundo), respuestaSinPagos).
Proof.
  split.
  - apply (proj1 (enviar_sin_elegibles Ejemplo.plataforma
                    (Ejemplo.entorno Ejemplo.acepta) 1 9 None None None
                    Ejemplo.mundo eq_refl)).
    reflexivity.
  - apply (proj2 (enviar_sin_elegibles Ejemplo.plataforma
                    (Ejemplo.entorno Ejemplo.acepta) 1 7 None None None
                    Ejemplo.mundo eq_refl) (lit "ENVIADO")); reflexivity.
Defined.

(** ** The status of the recorded Delivery (C1) *)

(** C1, evaluated where the webhook cannot be reached: [estadoEnvio] is
    ERROR_WEBHOOK, and the dispatch still posts once and issues one audit
    write; with the store of the spec it succeeds, records exactly one
    Delivery and leaves nothing to select for the scope.  But whatever the
    store, the write and the tables after it are those of a dispatch whose
    webhook accepted: the row carries the status the store gives every row
    ([estadoInicial]), not the error. *)
Theorem envio_con_webhook_inalcanzable :
  forall (almacen : BaseDatos -> Registro.t -> BaseDatos * (excepcion + jsval))
         (estadoInicial : texto),
    let enviar reg post :=
      GmailGenService.enviarCorreoProveedor Ejemplo.plataforma
        (Ejemplo.entornoCon reg post) 1 7 None None None Ejemplo.mundo in
    let caido := enviar almacen Ejemplo.inalcanzable in
    let aceptado := enviar almacen Ejemplo.acepta in
    let registrado :=
      enviar (Almacen.registrar estadoInicial) Ejemplo.inalcanzable in
    map (fun carga =>
           snd (GmailGenService.clasificarRespuesta
                  (Ejemplo.inalcanzable carga)))
      (enviados (fst caido)) = [ERROR_WEBHOOK]
    /\ List.length (registros (fst caido)) = 1%nat
    /\ registros (fst caido) = registros (fst aceptado)
    /\ base (fst caido) = base (fst aceptado)
    /\ success (snd registrado) = true
    /\ map Tabla.e_estado (envios (base (fst registrado))) = [estadoInicial]
    /\ filasDe Ejemplo.plataforma
         (Ejemplo.entornoCon (Almacen.registrar estadoInicial)
            Ejemplo.inalcanzable) 1 7 None (fst registrado) = [].
Proof.
  intros almacen estadoInicial enviar caido aceptado registrado.
  assert (forall reg post,
            filasDe Ejemplo.plataforma (Ejemplo.entornoCon reg post) 1 7 None
              Ejemplo.mundo
            = [seleccionar
                 (Ejemplo.pago 11 7 10 "TARJ-001", Ejemplo.acme);
               seleccionar
                 (Ejemplo.pago 12 7 15.5 "BANCO-001", Ejemplo.acme)])
    as Hf by reflexivity.
  pose proof (@enviar_con_filas Ejemplo.plataforma
                (Ejemplo.entornoCon almacen Ejemplo.inalcanzable) 1 7 None
                None None Ejemplo.mundo _ _ eq_refl (Hf _ _)) as E.
  cbv zeta in E.
  destruct (enviar_conWebhook Ejemplo.plataforma
              (Ejemplo.entornoCon almacen Ejemplo.acepta)
              Ejemplo.inalcanzable Ejemplo.acepta 1 7 None None None
              Ejemplo.mundo) as [Hw _].
  change (fst caido = fst aceptado) in Hw.
  destruct (@enviar_con_almacen Ejemplo.plataforma
              (Ejemplo.entornoCon (Almacen.registrar estadoInicial)
                 Ejemplo.inalcanzable)
              estadoInicial 1 7 None None None eq_refl eq_refl
              Ejemplo.mundo _ _ (Hf _ _)) as [Hok [[fila [He [Hest _]]] _]].
  repeat match goal with |- _ /\ _ => split end.
  - subst caido enviar. cbv beta. rewrite E. reflexivity.
  - subst caido enviar. cbv beta. rewrite E. reflexivity.
  - now rewrite Hw.
  - now rewrite Hw.
  - exact Hok.
  - subst registrado enviar. cbv beta. rewrite He.
    cbn [Ejemplo.mundo base Ejemplo.tablas envios app map]. now rewrite Hest.
  - apply (@filas_tras_enviar Ejemplo.plataforma
             (Ejemplo.entornoCon (Almacen.registrar estadoInicial)
                Ejemplo.inalcanzable)
             estadoInicial 1 7 None None None eq_refl eq_refl
             Ejemplo.mundo _ _ (Hf _ _)).
Qed.

(** ** The split by channel (C5) *)

Lemma disjuntos_de_NoDup (A : Type) (l1 l2 : list A) :
  NoDup (l1 ++ l2) -> forall a, In a l1 -> ~ In a l2.
Proof.
  induction l1 as [| x r IH]; cbn [app]; intros H a Ha; [contradiction |].
  inversion H as [| ? ? Hx Hr]; subst.
  destruct Ha as [-> | Ha].
  - intros H2. apply Hx. apply in_or_app. now right.
  - now apply IH.
Qed.

(** C5 (as amended): the [pagos.forEach] of step 5 sends the id of a payment
    to the bank set when its code, upper-cased, starts with [BANCO-] (so
    [BANCO-001] and also [banco-001]) and to the card set otherwise
    ([TARJ-001], the empty code, no code); the two sets together are the
    ids of the payments, each id once, and they share no id when the ids
    are distinct.  The audit write receives the two sets as literals. *)
Theorem reparto_por_canal :
  forall (pl : Plataforma) (pagos : list GmailPaymentRecord.t),
    let tarjeta := fst (GmailGenService.repartirIds pl pagos) in
    let bancario := snd (GmailGenService.repartirIds pl pagos) in
    let conCodigo c :=
      {| GmailPaymentRecord.id := 1; GmailPaymentRecord.cliente := [];
         GmailPaymentRecord.monto := 0%float;
         GmailPaymentRecord.codigo := c |} in
    tarjeta
    = map GmailPaymentRecord.id
        (filter (fun p => negb (GmailGenService.esBancario pl p)) pagos)
    /\ bancario
       = map GmailPaymentRecord.id
           (filter (GmailGenService.esBancario pl) pagos)
    /\ Permutation (tarjeta ++ bancario) (map GmailPaymentRecord.id pagos)
    /\ (NoDup (map GmailPaymentRecord.id pagos) ->
        forall i, In i tarjeta -> ~ In i bancario)
    /\ (forall p,
          GmailGenService.esBancario pl p
          = startsWith
              (toUpperCase pl match GmailPaymentRecord.codigo p with
                              | Some s => s
                              | None => []
                              end)
              (lit "BANCO-"))
    /\ GmailGenService.esBancario pl (conCodigo (Some (lit "BANCO-001"))) = true
    /\ GmailGenService.esBancario pl (conCodigo (Some (lit "banco-001"))) = true
    /\ GmailGenService.esBancario pl (conCodigo (Some (lit "TARJ-001"))) = false
    /\ GmailGenService.esBancario pl (conCodigo (Some [])) = false
    /\ GmailGenService.esBancario pl (conCodigo None) = false
    /\ (forall ent usuarioId proveedorId fecha asunto mensaje firstRow rows,
          let registro :=
            registroDe pl ent usuarioId proveedorId fecha asunto mensaje
              firstRow rows in
          let ids := GmailGenService.repartirIds pl (pagosDe pl rows) in
          Registro.ids_pagos_tarjeta registro
          = GmailGenService.literalIds (fst ids)
          /\ Registro.ids_pagos_bancario registro
             = GmailGenService.literalIds (snd ids)).
Proof.
  intros pl pagos tarjeta bancario conCodigo.
  subst tarjeta bancario.
  pose proof (repartirIds_cubre pl pagos) as Hperm.
  rewrite repartirIds_filtros in *. cbn [fst snd] in *.
  repeat match goal with |- _ /\ _ => split end;
    try reflexivity; try assumption.
  - intros Hnd. apply disjuntos_de_NoDup.
    eapply Permutation_NoDup; [apply Permutation_sym, Hperm | exact Hnd].
  - intros; split; reflexivity.
Qed.

Lemma reparto_por_canal_ejemplo :
  let pagos :=
    pagosDe Ejemplo.plataforma
      (filasDe Ejemplo.plataforma (Ejemplo.entorno Ejemplo.acepta) 1 7 None
         Ejemplo.mundo) in
  NoDup (map GmailPaymentRecord.id pagos)
  /\ ~ In 11%Z (snd (GmailGenService.repartirIds Ejemplo.plataforma pagos)).
Proof.
  cbv zeta.
  assert (NoDup (map GmailPaymentRecord.id
                   (pagosDe Ejemplo.plataforma
                      (filasDe Ejemplo.plataforma
                         (Ejemplo.entorno Ejemplo.acepta) 1 7 None
                         Ejemplo.mundo)))) as Hnd.
  { vm_compute. repeat constructor; cbn; intuition discriminate. }
  split; [exact Hnd |].
  apply (proj1 (proj2 (proj2 (proj2
           (reparto_por_canal Ejemplo.plataforma
              (pagosDe Ejemplo.plataforma
                 (filasDe Ejemplo.plataforma
                    (Ejemplo.entorno Ejemplo.acepta) 1 7 None
                    Ejemplo.mundo)))))) Hnd 11%Z).
  vm_compute. now left.
Defined.

(** C5 (as stated) fails: the code [banco-002] does not start with the
    prefix [BANCO-], yet its payment goes to the bank set. *)
Lemma codigo_en_minusculas_va_al_banco :
  startsWith (lit "banco-002") (lit "BANCO-") = false
  /\ GmailGenService.repartirIds Ejemplo.plataforma
       [{| GmailPaymentRecord.id := 13;
           GmailPaymentRecord.cliente := lit "Cliente";
           GmailPaymentRecord.monto := 3%float;
           GmailPaymentRecord.codigo := Some (lit "banco-002") |}]
     = ([], [13%Z]).
Proof.
  split; reflexivity.
Qed.

(** ** The composed message (C7) *)

Example trim_ejemplos :
  map trim [lit "  ho la  "; lit " "; [160; 72; 8232]%N; lit "x"; []]
  = [lit "ho la"; []; [72%N]; lit "x"; []].
Proof.
  reflexivity.
Qed.

Lemma textoO_componer (override : option texto) (derivado : texto) :
  GmailGenService.textoO override derivado = componer override derivado.
Proof.
  unfold GmailGenService.textoO, componer, enBlanco.
  destruct override as [[| c r] |]; [reflexivity | | reflexivity].
  destruct (trim (c :: r)); reflexivity.
Qed.

(** C7 (as amended): the dispatch posts one payload whose subject and
    message are the caller's override with leading and trailing white space
    removed whenever the override is present and not blank after trimming;
    otherwise the subject is the fixed confirmation prefix followed by the
    provider's name, and the message the template sentence with the number
    of payments, their total printed by [toFixed(2)], and the date of the
    summary. *)
Theorem composicion_del_correo :
  forall (pl : Plataforma) (ent : Entorno) (usuarioId proveedorId : Z)
         (fecha asunto mensaje : option texto) (w : Mundo)
         (firstRow : Fila.t) (resto : list Fila.t),
    fallo_select ent = None ->
    filasDe pl ent usuarioId proveedorId fecha w = firstRow :: resto ->
    exists carga : WebhookPayload,
      enviados (fst (GmailGenService.enviarCorreoProveedor pl ent usuarioId
                       proveedorId fecha asunto mensaje w))
      = enviados w ++ [carga]
      /\ InfoCorreo.proveedor (info_correo carga)
         = Fila.nombre_proveedor firstRow
      /\ InfoCorreo.cantidad_pagos (info_correo carga)
         = List.length (firstRow :: resto)
      /\ InfoCorreo.monto_total (info_correo carga)
         = GmailGenService.sumarMontos (pagosDe pl (firstRow :: resto))
      /\ InfoCorreo.fecha (info_correo carga) = GmailGenService.fechaO ent fecha
      /\ InfoCorreo.asunto (info_correo carga)
         = componer asunto
             (lit "Confirmaci" ++ [243%N] ++ lit "n de pagos - "
              ++ InfoCorreo.proveedor (info_correo carga))
      /\ InfoCorreo.mensaje (info_correo carga)
         = componer mensaje
             (lit "Estimado proveedor, le enviamos el resumen de "
              ++ texto_de_nat (InfoCorreo.cantidad_pagos (info_correo carga))
              ++ lit " pago(s) por un total de "
              ++ toFixed2 pl (InfoCorreo.monto_total (info_correo carga))
              ++ lit " correspondiente a la fecha "
              ++ InfoCorreo.fecha (info_correo carga)
              ++ lit ".").
Proof.
  intros pl ent usuarioId proveedorId fecha asunto mensaje w firstRow resto
    Hs Hf.
  pose proof (@enviar_con_filas pl ent usuarioId proveedorId fecha asunto
                mensaje w firstRow resto Hs Hf) as E.
  cbv zeta in E. rewrite E. cbn [fst enviados].
  eexists. split; [reflexivity |].
  cbn [cargaDe info_correo infoCorreoDe InfoCorreo.proveedor
       InfoCorreo.cantidad_pagos InfoCorreo.monto_total InfoCorreo.fecha
       InfoCorreo.asunto InfoCorreo.mensaje].
  rewrite !textoO_componer.
  unfold pagosDe. rewrite length_map.
  repeat split.
Qed.

Lemma composicion_del_correo_ejemplo :
  exists carga : WebhookPayload,
    enviados (fst (GmailGenService.enviarCorreoProveedor Ejemplo.plataforma
                     (Ejemplo.entorno Ejemplo.acepta) 1 7 None
                     (Some (lit "  ")) None Ejemplo.mundo))
    = [carga]
    /\ InfoCorreo.asunto (info_correo carga)
       = lit "Confirmaci" ++ [243%N] ++ lit "n de pagos - Acme"
    /\ InfoCorreo.mensaje (info_correo carga)
       = lit "Estimado proveedor, le enviamos el resumen de 2 pago(s) por un total de 25.50 correspondiente a la fecha 2024-05-01.".
Proof.
  destruct (composicion_del_correo Ejemplo.plataforma
              (Ejemplo.entorno Ejemplo.acepta) 1 7 None (Some (lit "  ")) None
              Ejemplo.mundo
              (firstRow := seleccionar
                 (Ejemplo.pago 11 7 10 "TARJ-001",
                  Ejemplo.acme))
              (resto := [seleccionar
                 (Ejemplo.pago 12 7 15.5 "BANCO-001",
                  Ejemplo.acme)])
              eq_refl eq_refl)
    as [carga [He [Hp [Hc [Hm [Hf [Ha Hb]]]]]]].
  exists carga. split; [exact He |].
  rewrite Ha, Hb, Hp, Hc, Hm, Hf. split; vm_compute; reflexivity.
Defined.

(** C7 (as stated) fails: the override ["  Hola "] is present and not blank
    after trimming, and the subject posted is ["Hola"], not the override
    verbatim. *)
Lemma asunto_no_es_literal :
  map (fun carga => InfoCorreo.asunto (info_correo carga))
    (enviados (fst (GmailGenService.enviarCorreoProveedor Ejemplo.plataforma
                      (Ejemplo.entorno Ejemplo.acepta) 1 7 None
                      (Some (lit "  Hola ")) None Ejemplo.mundo)))
  = [lit "Hola"]
  /\ enBlanco (lit "  Hola ") = false
  /\ lit "Hola" <> lit "  Hola ".
Proof.
  repeat split; try (vm_compute; reflexivity). discriminate.
Qed.

(** ** The Map of [getResumenPagosDia] *)

Section MapaLemas.

Import GmailGenService.

Lemma texto_eqb_eq (a b : texto) : texto_eqb a b = true <-> a = b.
Proof.
  unfold texto_eqb. destruct (texto_eq_dec a b); split; congruence.
Qed.

Lemma texto_eqb_refl (a : texto) : texto_eqb a a = true.
Proof.
  now apply texto_eqb_eq.
Qed.

Lemma mapHas_In (m : Mapa) (k : texto) :
  mapHas m k = true <-> In k (claves m).
Proof.
  induction m as [| [k' v] r IH]; cbn [mapHas claves map fst In].
  - split; [discriminate | contradiction].
  - rewrite orb_true_iff, texto_eqb_eq, IH. unfold claves. intuition.
Qed.

Lemma claves_mapSet (m : Mapa) (k : texto) (v : Detalles) :
  claves (mapSet m k v) = if mapHas m k then claves m else claves m ++ [k].
Proof.
  induction m as [| [k' v'] r IH]; cbn [mapSet mapHas claves map fst app];
    [reflexivity |].
  destruct (texto_eqb k k'); cbn [orb claves map fst].
  - reflexivity.
  - unfold claves in IH. rewrite IH. now destruct (mapHas r k).
Qed.

Lemma mapHas_mapSet (m : Mapa) (k : texto) (v : Detalles) :
  mapHas (mapSet m k v) k = true.
Proof.
  induction m as [| [k' v'] r IH]; cbn [mapSet mapHas].
  - now rewrite texto_eqb_refl.
  - destruct (texto_eqb k k') eqn:E; cbn [mapHas]; rewrite ?E; [reflexivity |].
    now rewrite IH, orb_true_r.
Qed.

Lemma mapGet_mapSet (m : Mapa) (k : texto) (v : Detalles) :
  mapGet (mapSet m k v) k = Some v.
Proof.
  induction m as [| [k' v'] r IH]; cbn [mapSet mapGet].
  - now rewrite texto_eqb_refl.
  - destruct (texto_eqb k k') eqn:E; cbn [mapGet]; now rewrite E.
Qed.

Lemma mapGet_In (m : Mapa) (k : texto) (v : Detalles) :
  mapGet m k = Some v -> In v (map snd m).
Proof.
  induction m as [| [k' v'] r IH]; cbn [mapGet map snd In]; [discriminate |].
  destruct (texto_eqb k k'); [intros [= ->]; now left | intros H; right; auto].
Qed.

Lemma mapHas_mapGet (m : Mapa) (k : texto) :
  mapHas m k = true -> exists v, mapGet m k = Some v.
Proof.
  induction m as [| [k' v'] r IH]; cbn [mapHas mapGet]; [discriminate |].
  destruct (texto_eqb k k'); cbn [orb]; [intros _; now exists v' | exact IH].
Qed.

Lemma valores_mapSet (P : Detalles -> Prop) (m : Mapa) (k : texto)
    (v : Detalles) :
  Forall P (map snd m) -> P v -> Forall P (map snd (mapSet m k v)).
Proof.
  intros HF Hv.
  induction m as [| [k' v'] r IH]; cbn [mapSet map snd] in *.
  - now constructor.
  - inversion HF; subst.
    destruct (texto_eqb k k'); cbn [map snd]; constructor; auto.
Qed.

Variable pl : Plataforma.

Lemma claves_agruparFila (m : Mapa) (row : Fila.t) :
  claves (agruparFila pl m row)
  = if mapHas m (Fila.nombre_proveedor row) then claves m
    else claves m ++ [Fila.nombre_proveedor row].
Proof.
  unfold agruparFila.
  destruct (mapHas m (Fila.nombre_proveedor row)) eqn:Hh.
  - destruct (mapHas_mapGet m _ Hh) as [g ->].
    now rewrite claves_mapSet, Hh.
  - rewrite mapGet_mapSet, claves_mapSet, mapHas_mapSet.
    now rewrite claves_mapSet, Hh.
Qed.

Lemma sumaMontos_app (l : list GmailPaymentRecord.t)
    (p : GmailPaymentRecord.t) :
  sumaMontos (l ++ [p]) = (sumaMontos l + GmailPaymentRecord.monto p)%float.
Proof.
  unfold sumaMontos. now rewrite fold_left_app.
Qed.

Lemma alDia_agruparFila (m : Mapa) (row : Fila.t) :
  Forall alDia (map snd m) -> Forall alDia (map snd (agruparFila pl m row)).
Proof.
  intros HF. unfold agruparFila.
  set (nuevo := {| id_proveedor := Fila.id_proveedor row;
                   correo := Fila.correo row;
                   pagos := [];
                   monto_total := 0%float;
                   cantidad_pagos := 0 |}).
  assert (alDia nuevo) as Hn by (split; reflexivity).
  set (m1 := if mapHas m (Fila.nombre_proveedor row) then m
             else mapSet m (Fila.nombre_proveedor row) nuevo).
  assert (Forall alDia (map snd m1)) as HF1.
  { subst m1. destruct (mapHas m _); [assumption |].
    now apply valores_mapSet. }
  destruct (mapGet m1 (Fila.nombre_proveedor row)) as [g |] eqn:Hg;
    [| assumption].
  apply valores_mapSet; [assumption |].
  apply mapGet_In in Hg. rewrite Forall_forall in HF1.
  destruct (HF1 _ Hg) as [Hm Hc].
  split; cbn [monto_total pagos cantidad_pagos].
  - now rewrite sumaMontos_app, Hm.
  - rewrite length_app, Hc. cbn. lia.
Qed.

Lemma alDia_fold (rows : list Fila.t) (m : Mapa) :
  Forall alDia (map snd m) ->
  Forall alDia (map snd (fold_left (agruparFila pl) rows m)).
Proof.
  revert m. induction rows as [| row r IH]; intros m HF; cbn [fold_left].
  - assumption.
  - apply IH. now apply alDia_agruparFila.
Qed.

Lemma gruposDe_totales (index : nat) (m : Mapa) :
  Forall alDia (map snd m) ->
  Forall (totalesRecalculados sumaMontos) (gruposDe index m).
Proof.
  revert index. induction m as [| [k d] r IH]; intros index HF;
    cbn [gruposDe map snd] in *; [constructor |].
  inversion HF as [| ? ? [Hm Hc] Hr]; subst.
  constructor; [| now apply IH].
  split; cbn [GmailEmailGroup.totalPagos GmailEmailGroup.pagos
              GmailEmailGroup.totalMonto]; congruence.
Qed.

Lemma gruposDe_nombres (index : nat) (m : Mapa) :
  map GmailEmailGroup.proveedorNombre (gruposDe index m) = claves m.
Proof.
  revert index. induction m as [| [k d] r IH]; intros index;
    cbn [gruposDe map claves fst GmailEmailGroup.proveedorNombre];
    [reflexivity |].
  f_equal. apply IH.
Qed.

End MapaLemas.

(** ** The order of the groups (C9) *)

Section Ordenado.

Variables (A K : Type) (clave : A -> K) (le : K -> K -> bool).

Hypothesis le_total : forall a b, le a b = true \/ le b a = true.
Hypothesis le_trans :
  forall a b c, le a b = true -> le b c = true -> le a c = true.

Let R (x y : A) : Prop := le (clave x) (clave y) = true.

Lemma insertar_ordenado (x : A) (l : list A) :
  StronglySorted R l -> StronglySorted R (insertar clave le x l).
Proof.
  induction l as [| y r IH]; intros Hs; cbn [insertar].
  - repeat constructor.
  - apply StronglySorted_inv in Hs. destruct Hs as [Hr Hy].
    destruct (le (clave x) (clave y)) eqn:E.
    + constructor; [now constructor |].
      constructor; [exact E |].
      rewrite Forall_forall in *. intros z Hz.
      eapply le_trans; [exact E | now apply Hy].
    + constructor; [now apply IH |].
      rewrite Forall_forall in *. intros z Hz.
      apply In_insertar in Hz. destruct Hz as [-> | Hz]; [| now apply Hy].
      destruct (le_total (clave x) (clave y)); [congruence | assumption].
Qed.

Lemma ordenar_ordenado (l : list A) :
  StronglySorted R (ordenar clave le l).
Proof.
  induction l as [| x r IH]; cbn [ordenar]; [constructor |].
  now apply insertar_ordenado.
Qed.

Lemma claves_ordenadas (l : list A) :
  StronglySorted (fun a b => le a b = true) (map clave (ordenar clave le l)).
Proof.
  induction (ordenar_ordenado l) as [| x r Hs IH Hx]; cbn [map];
    constructor; [assumption |].
  rewrite Forall_forall in *. intros k Hk. apply in_map_iff in Hk.
  destruct Hk as [y [<- Hy]]. now apply Hx.
Qed.

End Ordenado.

Lemma StronglySorted_quitar (A : Type) (R : A -> A -> Prop) (l1 l2 : list A)
    (x : A) :
  StronglySorted R (l1 ++ x :: l2) -> StronglySorted R (l1 ++ l2).
Proof.
  induction l1 as [| a r IH]; cbn [app]; intros H;
    apply StronglySorted_inv in H; destruct H as [Hs Ha].
  - assumption.
  - constructor; [now apply IH |].
    apply Forall_app in Ha. destruct Ha as [H1 H2].
    apply Forall_app. split; [assumption |]. now inversion H2.
Qed.

Lemma StronglySorted_impl (A : Type) (R S : A -> A -> Prop) (l : list A) :
  (forall a b, R a b -> S a b) -> StronglySorted R l -> StronglySorted S l.
Proof.
  intros H Hs. induction Hs as [| x r Hs IH Hx]; constructor; [assumption |].
  eapply Forall_impl; [| exact Hx]. auto.
Qed.

Section ClavesDelResumen.

Variables (pl : Plataforma) (R : texto -> texto -> Prop).

Lemma claves_fold_ordenadas (rows : list Fila.t) (m : GmailGenService.Mapa) :
  StronglySorted R (claves m ++ map Fila.nombre_proveedor rows) ->
  StronglySorted R
    (claves (fold_left (GmailGenService.agruparFila pl) rows m)).
Proof.
  revert m. induction rows as [| row r IH]; intros m Hs; cbn [fold_left map] in *.
  - now rewrite app_nil_r in Hs.
  - apply IH. rewrite claves_agruparFila.
    destruct (GmailGenService.mapHas m (Fila.nombre_proveedor row)).
    + now apply StronglySorted_quitar in Hs.
    + now rewrite <- app_assoc.
Qed.

Lemma claves_fold_NoDup (rows : list Fila.t) (m : GmailGenService.Mapa) :
  NoDup (claves m) ->
  NoDup (claves (fold_left (GmailGenService.agruparFila pl) rows m)).
Proof.
  revert m. induction rows as [| row r IH]; intros m Hn; cbn [fold_left];
    [assumption |].
  apply IH. rewrite claves_agruparFila.
  destruct (GmailGenService.mapHas m (Fila.nombre_proveedor row)) eqn:Hh;
    [assumption |].
  apply NoDup_app; [assumption | repeat constructor; intros [] |].
  intros k Hk [<- | []].
  apply mapHas_In in Hk. congruence.
Qed.

End ClavesDelResumen.

(** What a successful [getResumenPagosDia] returns. *)
Lemma resumen_datos (pl : Plataforma) (ent : Entorno) (usuarioId : Z)
    (fecha : option texto) (w : Mundo) (grupos : list GmailEmailGroup.t) :
  data (snd (GmailGenService.getResumenPagosDia pl ent usuarioId fecha w))
  = Some grupos ->
  fallo_select ent = None
  /\ grupos
     = GmailGenService.gruposDe 0
         (fold_left (GmailGenService.agruparFila pl)
            (consultaPagosDirectos pl (base w) usuarioId
               (GmailGenService.fechaO ent fecha) None) []).
Proof.
  unfold GmailGenService.getResumenPagosDia, intentar, bind,
    GmailGenService.obtenerPagosDirectos.
  destruct (fallo_select ent); cbn [snd data ret]; [discriminate |].
  intros [= <-]. now split.
Qed.

(** The groups come in the order of the collation, one per name. *)
Lemma resumen_ordenado_por_colacion (pl : Plataforma) (ent : Entorno)
    (usuarioId : Z) (fecha : option texto) (w : Mundo)
    (grupos : list GmailEmailGroup.t) :
  (forall a b, colacion pl a b = true \/ colacion pl b a = true) ->
  (forall a b c, colacion pl a b = true -> colacion pl b c = true ->
                 colacion pl a c = true) ->
  data (snd (GmailGenService.getResumenPagosDia pl ent usuarioId fecha w))
  = Some grupos ->
  StronglySorted (fun a b => colacion pl a b = true)
    (map GmailEmailGroup.proveedorNombre grupos)
  /\ NoDup (map GmailEmailGroup.proveedorNombre grupos).
Proof.
  intros Ht Htr Hd. apply resumen_datos in Hd. destruct Hd as [_ ->].
  rewrite gruposDe_nombres. split.
  - apply claves_fold_ordenadas. cbn [claves map app].
    unfold consultaPagosDirectos. now apply claves_ordenadas.
  - apply claves_fold_NoDup. constructor.
Qed.

Lemma texto_leb_total (a b : texto) :
  texto_leb a b = true \/ texto_leb b a = true.
Proof.
  revert b. induction a as [| x a' IH]; intros [| y b']; cbn [texto_leb]; auto.
  destruct (N.ltb_spec x y), (N.ltb_spec y x), (N.eqb_spec x y),
           (N.eqb_spec y x); auto; try lia.
Qed.

Lemma texto_leb_trans (a b c : texto) :
  texto_leb a b = true -> texto_leb b c = true -> texto_leb a c = true.
Proof.
  revert b c. induction a as [| x a' IH]; intros [| y b'] [| z c'];
    cbn [texto_leb]; auto; try discriminate.
  destruct (N.ltb_spec x y), (N.ltb_spec y z), (N.ltb_spec x z),
           (N.eqb_spec x y), (N.eqb_spec y z), (N.eqb_spec x z);
    auto; try discriminate; try lia.
  apply IH.
Qed.

(** C9 (as amended): the groups [getResumenPagosDia] returns are in the
    ascending order of the collation the database applies to
    [ORDER BY pr.nombre ASC], one group per name; the statement names no
    collation.  They are in case-sensitive byte order where that collation
    is the bytewise one. *)
Theorem resumen_ordenado_por_nombre :
  forall (pl : Plataforma) (ent : Entorno) (usuarioId : Z)
         (fecha : option texto) (w : Mundo) (grupos : list GmailEmailGroup.t),
    (forall a b, colacion pl a b = true \/ colacion pl b a = true) ->
    (forall a b c, colacion pl a b = true -> colacion pl b c = true ->
                   colacion pl a c = true) ->
    data (snd (GmailGenService.getResumenPagosDia pl ent usuarioId fecha w))
    = Some grupos ->
    StronglySorted (fun a b => colacion pl a b = true)
      (map GmailEmailGroup.proveedorNombre grupos)
    /\ NoDup (map GmailEmailGroup.proveedorNombre grupos)
    /\ ((forall a b, colacion pl a b = texto_leb a b) ->
        StronglySorted texto_le (map GmailEmailGroup.proveedorNombre grupos)).
Proof.
  intros pl ent usuarioId fecha w grupos Ht Htr Hd.
  destruct (@resumen_ordenado_por_colacion pl ent usuarioId fecha w grupos
              Ht Htr Hd) as [Hs Hn].
  split; [assumption |]. split; [assumption |].
  intros Hc. eapply StronglySorted_impl; [| exact Hs].
  intros a b H. unfold texto_le. now rewrite <- Hc.
Qed.

Lemma resumen_ordenado_por_nombre_ejemplo :
  StronglySorted (fun a b => texto_leb a b = true) [lit "Acme"; lit "Zeta"]
  /\ NoDup [lit "Acme"; lit "Zeta"].
Proof.
  destruct (@resumen_ordenado_por_nombre Ejemplo.plataforma
              (Ejemplo.entorno Ejemplo.acepta) 1 None Ejemplo.mundo _
              texto_leb_total texto_leb_trans eq_refl) as [Hs [Hn _]].
  split; [exact Hs | exact Hn].
Defined.

Lemma colacionSinCaja_total (a b : texto) :
  colacionSinCaja a b = true \/ colacionSinCaja b a = true.
Proof.
  apply texto_leb_total.
Qed.

Lemma colacionSinCaja_trans (a b c : texto) :
  colacionSinCaja a b = true -> colacionSinCaja b c = true ->
  colacionSinCaja a c = true.
Proof.
  apply texto_leb_trans.
Qed.

(** C9 (as stated) fails: over a collation that folds case, itself total
    and transitive, the summary lists "acme" before "Zeta", which is not the
    byte order: in bytes "Zeta" comes first. *)
Lemma resumen_en_orden_sin_caja :
  exists acme zeta,
    data (snd (GmailGenService.getResumenPagosDia EjemploSinCaja.plataforma
                 (Ejemplo.entorno Ejemplo.acepta) 1 None
                 EjemploSinCaja.mundo))
    = Some [acme; zeta]
    /\ GmailEmailGroup.proveedorNombre acme = lit "acme"
    /\ GmailEmailGroup.proveedorNombre zeta = lit "Zeta"
    /\ texto_leb (lit "acme") (lit "Zeta") = false
    /\ texto_leb (lit "Zeta") (lit "acme") = true
    /\ colacion EjemploSinCaja.plataforma (lit "acme") (lit "Zeta") = true.
Proof.
  eexists. eexists. split; [vm_compute; reflexivity |].
  repeat split.
Qed.

(** ** The totals of a group (C6) *)

Section Totales.

Variable pl : Plataforma.

Lemma gruposDeDatos_totales (estado : GmailGroupEstado) (index : nat)
    (datos : Origen.Datos) :
  Forall (totalesRecalculados GmailGenService.sumarMontos)
    (GmailGenService.gruposDeDatos pl estado index datos).
Proof.
  revert index.
  induction datos as [| [nombre [detalles |]] r IH]; intros index;
    cbn [GmailGenService.gruposDeDatos]; [constructor | | apply IH].
  constructor; [| apply IH]. split; reflexivity.
Qed.

Lemma gruposDeDatos001_totales (estado : GmailGroupEstado) (index : nat)
    (datos : Origen.Datos) :
  Forall
    (fun g =>
       exists detalles,
         In (GmailEmailGroup.proveedorNombre g, Some detalles) datos
         /\ GmailEmailGroup.pagos g
            = GmailGenService.pagosDeDetalles pl detalles
         /\ totalesDeResumen detalles g)
    (GmailGenService001.gruposDeDatos pl estado index datos).
Proof.
  revert index.
  induction datos as [| [nombre [detalles |]] r IH]; intros index;
    cbn [GmailGenService001.gruposDeDatos]; [constructor | | ].
  - constructor.
    + exists detalles. split; [now left |]. split; [reflexivity |].
      split; reflexivity.
    + eapply Forall_impl; [| apply IH].
      intros g [d [Hin H]]. exists d. split; [now right | exact H].
  - eapply Forall_impl; [| apply IH].
    intros g [d [Hin H]]. exists d. split; [now right | exact H].
Qed.

Variable ent : Entorno.

(** What a successful JSON summary returns, by revision. *)
Lemma resumirRespuesta_datos (estado : GmailGroupEstado)
    (parsed : option Origen.Respuesta) (grupos : list GmailEmailGroup.t) :
  data (GmailGenService.resumirRespuesta pl estado parsed) = Some grupos ->
  grupos = GmailGenService.gruposDeDatos pl estado 0
             (GmailGenService.datosDe parsed).
Proof.
  unfold GmailGenService.resumirRespuesta.
  destruct (_ || _); cbn [data]; [discriminate | now intros [= <-]].
Qed.

Lemma resumirRespuesta001_datos (estado : GmailGroupEstado)
    (porDefecto : texto) (parsed : option Origen.Respuesta)
    (grupos : list GmailEmailGroup.t) :
  data (GmailGenService001.resumirRespuesta pl estado porDefecto parsed)
  = Some grupos ->
  grupos = GmailGenService001.gruposDeDatos pl estado 0
             (GmailGenService.datosDe parsed).
Proof.
  unfold GmailGenService001.resumirRespuesta.
  destruct (_ || _); cbn [data]; [discriminate | now intros [= <-]].
Qed.

End Totales.

(** C6 (as amended): in every group of [getResumenPagosDia] (either
    revision) [totalPagos] is the number of its payments and [totalMonto]
    their left-to-right sum.  In every group of the JSON summaries of
    GmailGenService.ts ([getResumenEnviosFecha],
    [getCorreosPendientesGeneral]) [totalPagos] is the number of its
    payments and [totalMonto] their sum with a NaN amount counted as zero.
    In the sibling revision the two JSON summaries take [totalPagos] and
    [totalMonto] from the [resumen] stored with the provider whenever these
    are numbers, and recompute them from the payments only otherwise. *)
Theorem totales_de_los_grupos :
  forall (pl : Plataforma) (ent : Entorno) (usuarioId : Z)
         (fecha : option texto) (w : Mundo)
         (grupos : list GmailEmailGroup.t) (g : GmailEmailGroup.t),
    In g grupos ->
    (data (snd (GmailGenService.getResumenPagosDia pl ent usuarioId fecha w))
     = Some grupos ->
     totalesRecalculados sumaMontos g)
    /\ (data (snd (GmailGenService001.getResumenPagosDia pl ent usuarioId
                     fecha w))
        = Some grupos ->
        totalesRecalculados sumaMontos g)
    /\ (data (snd (GmailGenService.getResumenEnviosFecha pl ent usuarioId
                     fecha w))
        = Some grupos ->
        totalesRecalculados GmailGenService.sumarMontos g)
    /\ (data (snd (GmailGenService.getCorreosPendientesGeneral pl ent
                     usuarioId w))
        = Some grupos ->
        totalesRecalculados GmailGenService.sumarMontos g)
    /\ (data (snd (GmailGenService001.getResumenEnviosFecha pl ent usuarioId
                     fecha w))
        = Some grupos ->
        exists parsed detalles,
          resumen_envios_fecha_get ent (base w) usuarioId
            (GmailGenService.fechaO ent fecha) = inr parsed
          /\ In (GmailEmailGroup.proveedorNombre g, Some detalles)
               (GmailGenService.datosDe parsed)
          /\ GmailEmailGroup.pagos g
             = GmailGenService.pagosDeDetalles pl detalles
          /\ totalesDeResumen detalles g)
    /\ (data (snd (GmailGenService001.getCorreosPendientesGeneral pl ent
                     usuarioId w))
        = Some grupos ->
        exists parsed detalles,
          correos_pendientes_general_get ent (base w) usuarioId = inr parsed
          /\ In (GmailEmailGroup.proveedorNombre g, Some detalles)
               (GmailGenService.datosDe parsed)
          /\ GmailEmailGroup.pagos g
             = GmailGenService.pagosDeDetalles pl detalles
          /\ totalesDeResumen detalles g).
Proof.
  intros pl ent usuarioId fecha w grupos g Hg.
  assert (data (snd (GmailGenService.getResumenPagosDia pl ent usuarioId
                       fecha w)) = Some grupos ->
          totalesRecalculados sumaMontos g) as Hdia.
  { intros Hd. apply resumen_datos in Hd. destruct Hd as [_ ->].
    eapply Forall_forall; [| exact Hg].
    apply gruposDe_totales, alDia_fold. constructor. }
  repeat match goal with |- _ /\ _ => split end.
  - exact Hdia.
  - exact Hdia.
  - unfold GmailGenService.getResumenEnviosFecha, intentar, bind, ret.
    destruct (resumen_envios_fecha_get ent (base w) usuarioId _)
      as [e | parsed]; cbn [snd data]; [discriminate |].
    intros Hd. apply resumirRespuesta_datos in Hd. subst grupos.
    eapply Forall_forall; [apply gruposDeDatos_totales | exact Hg].
  - unfold GmailGenService.getCorreosPendientesGeneral, intentar, bind, ret.
    destruct (correos_pendientes_general_get ent (base w) usuarioId)
      as [e | parsed]; cbn [snd data]; [discriminate |].
    intros Hd. apply resumirRespuesta_datos in Hd. subst grupos.
    eapply Forall_forall; [apply gruposDeDatos_totales | exact Hg].
  - unfold GmailGenService001.getResumenEnviosFecha, intentar, bind, ret.
    destruct (resumen_envios_fecha_get ent (base w) usuarioId _)
      as [e | parsed] eqn:Hq; cbn [snd data]; [discriminate |].
    intros Hd. apply resumirRespuesta001_datos in Hd. subst grupos.
    pose proof (gruposDeDatos001_totales pl enviado 0
                  (GmailGenService.datosDe parsed)) as HF.
    rewrite Forall_forall in HF. destruct (HF _ Hg) as [d H].
    exists parsed, d. split; [reflexivity | exact H].
  - unfold GmailGenService001.getCorreosPendientesGeneral, intentar, bind, ret.
    destruct (correos_pendientes_general_get ent (base w) usuarioId)
      as [e | parsed] eqn:Hq; cbn [snd data]; [discriminate |].
    intros Hd. apply resumirRespuesta001_datos in Hd. subst grupos.
    pose proof (gruposDeDatos001_totales pl pendiente 0
                  (GmailGenService.datosDe parsed)) as HF.
    rewrite Forall_forall in HF. destruct (HF _ Hg) as [d H].
    exists parsed, d. split; [reflexivity | exact H].
Qed.

Lemma totales_de_los_grupos_ejemplo :
  let grupos :=
    GmailGenService.gruposDe 0
      (fold_left (GmailGenService.agruparFila Ejemplo.plataforma)
         (consultaPagosDirectos Ejemplo.plataforma Ejemplo.tablas 1
            Ejemplo.dia None) []) in
  Forall (totalesRecalculados sumaMontos) grupos
  /\ map GmailEmailGroup.totalMonto grupos = [25.5%float; 3%float].
Proof.
  cbv zeta. split; [| vm_compute; reflexivity].
  apply Forall_forall. intros g Hg.
  exact (proj1 (totales_de_los_grupos Ejemplo.plataforma
                  (Ejemplo.entorno Ejemplo.acepta) 1 None Ejemplo.mundo
                  _ g Hg) eq_refl).
Defined.

(** C6 (as stated) fails: the sent summary of the sibling revision returns
    a group of one payment of 10.00 whose [totalPagos] is 5 and whose
    [totalMonto] is 99.00, the totals stored with the provider. *)
Lemma totales_almacenados_no_recalculados :
  exists g : GmailEmailGroup.t,
    data (snd (GmailGenService001.getResumenEnviosFecha Ejemplo.plataforma
                 Ejemplo.entornoEnvios 1 None Ejemplo.mundo))
    = Some [g]
    /\ map GmailPaymentRecord.monto (GmailEmailGroup.pagos g) = [10%float]
    /\ GmailEmailGroup.totalPagos g = 5%float
    /\ GmailEmailGroup.totalMonto g = 99%float
    /\ numero_de_nat (List.length (GmailEmailGroup.pagos g)) = 1%float
    /\ sumaMontos (GmailEmailGroup.pagos g) = 10%float
    /\ GmailGenService.sumarMontos (GmailEmailGroup.pagos g) = 10%float
    /\ PrimFloat.eqb 5 1 = false
    /\ PrimFloat.eqb 99 10 = false.
Proof.
  eexists. split; [vm_compute; reflexivity |].
  repeat split; vm_compute; reflexivity.
Qed.

(** ** The printed total *)

Lemma fijarDos_forma (n : Z) :
  exists (entero : texto) (d1 d2 : N),
    fijarDos n = entero ++ [46%N; d1; d2]
    /\ entero <> []
    /\ Forall (fun c => (48 <= c <= 57)%N) (entero ++ [d1; d2]).
Proof.
  unfold fijarDos.
  set (ds := digitos (N.to_uint (Z.to_N n))).
  set (m := repeat 48%N (3 - List.length ds) ++ ds).
  assert (3 <= List.length m)%nat as Hlen.
  { subst m. rewrite length_app, repeat_length. lia. }
  assert (Forall (fun c => (48 <= c <= 57)%N) m) as HF.
  { subst m. apply Forall_app. split; [| apply digitos_sin_coma].
    apply Forall_forall. intros x Hx. apply repeat_spec in Hx. lia. }
  pose proof (firstn_skipn (List.length m - 2) m) as Hsplit.
  pose proof (length_skipn (List.length m - 2) m) as Hb.
  pose proof (length_firstn (List.length m - 2) m) as Ha.
  destruct (skipn (List.length m - 2) m) as [| d1 [| d2 [| d3 r]]];
    cbn [List.length] in Hb; try lia.
  exists (firstn (List.length m - 2) m), d1, d2.
  split; [reflexivity |]. split.
  - intros H0. rewrite H0 in Ha. cbn [List.length] in Ha. lia.
  - now rewrite Hsplit.
Qed.

(** A finite total below 10^21 in magnitude is printed as an optional minus
    sign, one digit at least, a point and exactly two digits. *)
Lemma toFixed2_dos_decimales (pl : Plataforma) (x : float) (s : bool)
    (m : positive) (e : Z) :
  Prim2SF x = S754_finite s m e ->
  desde1e21 m e = false ->
  exists (entero : texto) (d1 d2 : N),
    toFixed2 pl x = (if s then [45%N] else []) ++ entero ++ [46%N; d1; d2]
    /\ entero <> []
    /\ Forall (fun c => (48 <= c <= 57)%N) (entero ++ [d1; d2]).
Proof.
  intros Hx Hg. unfold toFixed2. rewrite Hx, Hg.
  destruct (fijarDos_forma (centesimas m e)) as [entero [d1 [d2 [-> H]]]].
  now exists entero, d1, d2.
Qed.

Example toFixed2_ejemplos :
  map (toFixed2 Ejemplo.plataforma)
    [25.5; 0; 1.005; 0.125; 1234.5678; -0.001; -2.345]%float
  = map lit ["25.50"; "0.00"; "1.00"; "0.13"; "1234.57"; "-0.00"; "-2.35"]%string.
Proof.
  vm_compute. reflexivity.
Qed.

(** ** The summaries only read *)

Lemma getResumenPagosDia_solo_lee (pl : Plataforma) (ent : Entorno)
    (usuarioId : Z) (fecha : option texto) (w : Mundo) :
  fst (GmailGenService.getResumenPagosDia pl ent usuarioId fecha w) = w.
Proof.
  unfold GmailGenService.getResumenPagosDia, intentar, bind,
    GmailGenService.obtenerPagosDirectos.
  now destruct (fallo_select ent).
Qed.

Lemma getResumenEnviosFecha_solo_lee (pl : Plataforma) (ent : Entorno)
    (usuarioId : Z) (fecha : option texto) (w : Mundo) :
  fst (GmailGenService.getResumenEnviosFecha pl ent usuarioId fecha w) = w
  /\ fst (GmailGenService001.getResumenEnviosFecha pl ent usuarioId fecha w)
     = w.
Proof.
  unfold GmailGenService.getResumenEnviosFecha,
    GmailGenService001.getResumenEnviosFecha, intentar, bind.
  now destruct (resumen_envios_fecha_get ent (base w) usuarioId _).
Qed.

(** ** The scenario of section 8

    Acme has two eligible payments (10.00 and 15.50) on 2024-05-01.  The
    summary shows Acme with two payments and 25.50; the dispatch to Acme
    through an accepting webhook records one Delivery of two payments and
    25.50, one by card and one by bank; the next summary no longer shows
    Acme, and a second dispatch finds nothing to send. *)
Example escenario :
  let resumen w :=
    option_map
      (map (fun g => (GmailEmailGroup.proveedorNombre g,
                      GmailEmailGroup.totalPagos g,
                      GmailEmailGroup.totalMonto g)))
      (data (snd (GmailGenService.getResumenPagosDia Ejemplo.plataforma
                    (Ejemplo.entorno Ejemplo.acepta) 1 (Some Ejemplo.dia) w)))
  in
  let enviar :=
    GmailGenService.enviarCorreoProveedor Ejemplo.plataforma
      (Ejemplo.entorno Ejemplo.acepta) 1 7 (Some Ejemplo.dia) None None in
  resumen Ejemplo.mundo
  = Some [(lit "Acme", 2%float, 25.5%float); (lit "Zeta", 1%float, 3%float)]
  /\ success (snd (enviar Ejemplo.mundo)) = true
  /\ map (fun e => (Tabla.e_cantidad_pagos e, Tabla.e_monto_total e,
                    Tabla.e_pagos_tarjeta e, Tabla.e_pagos_bancario e))
       (envios (base (fst (enviar Ejemplo.mundo))))
     = [(2%nat, 25.5%float, [11%Z], [12%Z])]
  /\ resumen (fst (enviar Ejemplo.mundo))
     = Some [(lit "Zeta", 1%float, 3%float)]
  /\ snd (enviar (fst (enviar Ejemplo.mundo))) = respuestaSinPagos.
Proof.
  cbv zeta. repeat split; vm_compute; reflexivity.
Qed.

(** * Further properties of the service *)

(** ** The rows of the SELECT *)

Section OrdenPermuta.

Variables (A K : Type) (clave : A -> K) (le : K -> K -> bool).

Lemma insertar_permuta (x : A) (l : list A) :
  Permutation (insertar clave le x l) (x :: l).
Proof.
  induction l as [| y r IH]; cbn [insertar]; [reflexivity |].
  destruct (le (clave x) (clave y)); [reflexivity |].
  rewrite IH. apply perm_swap.
Qed.

Lemma ordenar_permuta (l : list A) : Permutation (ordenar clave le l) l.
Proof.
  induction l as [| x r IH]; cbn [ordenar]; [reflexivity |].
  rewrite insertar_permuta. now constructor.
Qed.

End OrdenPermuta.


(** ** The provider id zero *)

Lemma consulta_proveedor_cero (pl : Plataforma) (db : BaseDatos)
    (usuarioId : Z) (fecha : texto) :
  consultaPagosDirectos pl db usuarioId fecha (Some 0%Z)
  = consultaPagosDirectos pl db usuarioId fecha None.
Proof.
  unfold consultaPagosDirectos.
  replace (filter (elegible db usuarioId fecha (Some 0%Z))
             (pagos_con_proveedor db))
    with (filter (elegible db usuarioId fecha None) (pagos_con_proveedor db));
    [reflexivity |].
  apply filter_ext. now intros [p pr].
Qed.

(** X2: [enviarCorreoProveedor] with the provider id 0 does not filter by
    provider ([if (proveedorId)] is false): it consumes every eligible
    payment of the operator for the date, whatever its provider, posts them
    in one payload addressed to the provider of the first row, and records
    the write under provider 0. *)
Theorem envio_a_proveedor_cero :
  forall (pl : Plataforma) (ent : Entorno) (usuarioId : Z)
         (fecha asunto mensaje : option texto) (w : Mundo)
         (firstRow : Fila.t) (resto : list Fila.t),
    fallo_select ent = None ->
    consultaPagosDirectos pl (base w) usuarioId
      (GmailGenService.fechaO ent fecha) None = firstRow :: resto ->
    exists carga registro,
      enviados (fst (GmailGenService.enviarCorreoProveedor pl ent usuarioId 0
                       fecha asunto mensaje w))
      = enviados w ++ [carga]
      /\ registros (fst (GmailGenService.enviarCorreoProveedor pl ent
                           usuarioId 0 fecha asunto mensaje w))
         = registros w ++ [registro]
      /\ info_pagos carga
         = map GmailGenService.infoPagoDe (pagosDe pl (firstRow :: resto))
      /\ InfoCorreo.correo (info_correo carga) = Fila.correo firstRow
      /\ InfoCorreo.proveedor (info_correo carga)
         = Fila.nombre_proveedor firstRow
      /\ Registro.proveedor_id registro = 0%Z
      /\ Registro.cantidad_pagos registro = List.length (firstRow :: resto).
Proof.
  intros pl ent usuarioId fecha asunto mensaje w firstRow resto Hs Hf.
  assert (filasDe pl ent usuarioId 0 fecha w = firstRow :: resto) as Hf0.
  { unfold filasDe. now rewrite consulta_proveedor_cero. }
  pose proof (@enviar_con_filas pl ent usuarioId 0%Z fecha asunto mensaje w
                firstRow resto Hs Hf0) as E.
  cbv zeta in E. rewrite E. cbn [fst enviados registros].
  eexists. eexists. split; [reflexivity |]. split; [reflexivity |].
  cbn [cargaDe info_pagos info_correo infoCorreoDe InfoCorreo.correo
       InfoCorreo.proveedor registroDe Registro.proveedor_id
       Registro.cantidad_pagos InfoCorreo.cantidad_pagos].
  unfold pagosDe. rewrite length_map. repeat split.
Qed.

Lemma envio_a_proveedor_cero_ejemplo :
  exists carga registro,
    enviados (fst (GmailGenService.enviarCorreoProveedor Ejemplo.plataforma
                     (Ejemplo.entorno Ejemplo.acepta) 1 0 None None None
                     Ejemplo.mundo))
    = [carga]
    /\ registros (fst (GmailGenService.enviarCorreoProveedor
                         Ejemplo.plataforma (Ejemplo.entorno Ejemplo.acepta)
                         1 0 None None None Ejemplo.mundo))
       = [registro]
    /\ List.length (info_pagos carga) = 3%nat
    /\ InfoCorreo.correo (info_correo carga) = lit "acme@example.com"
    /\ Registro.proveedor_id registro = 0%Z.
Proof.
  destruct (envio_a_proveedor_cero Ejemplo.plataforma
              (Ejemplo.entorno Ejemplo.acepta) 1 None None None Ejemplo.mundo
              (firstRow := seleccionar
                 (Ejemplo.pago 11 7 10 "TARJ-001", Ejemplo.acme))
              (resto := [seleccionar
                           (Ejemplo.pago 12 7 15.5 "BANCO-001", Ejemplo.acme);
                         seleccionar
                           (Ejemplo.pago 13 8 3 "banco-002", Ejemplo.zeta)])
              eq_refl eq_refl)
    as [carga [registro [He [Hr [Hp [Hc [_ [Hi _]]]]]]]].
  exists carga, registro.
  split; [exact He |]. split; [exact Hr |].
  rewrite Hp, Hc, Hi. repeat split.
Defined.

(** ** The groups of the summary and the rows they come from *)

Section Agrupacion.

Import GmailGenService.

Lemma In_mapSet (m : Mapa) (k k' : texto) (v d' : Detalles) :
  NoDup (claves m) ->
  In (k', d') (mapSet m k v) <->
  (k' = k /\ d' = v) \/ (k' <> k /\ In (k', d') m).
Proof.
  induction m as [| [k0 v0] r IH]; intros Hn; cbn [mapSet In].
  - split.
    + intros [[= <- <-] | []]. now left.
    + intros [[-> ->] | [_ []]]. now left.
  - cbn [claves map fst] in Hn. inversion Hn as [| ? ? Hk0 Hr]; subst.
    destruct (texto_eqb k k0) eqn:E; cbn [In].
    + apply texto_eqb_eq in E. subst k0. split.
      * intros [[= <- <-] | Hin]; [now left |].
        right. split; [| now right].
        intros ->. apply Hk0. apply in_map_iff. now exists (k, d').
      * intros [[-> ->] | [Hne [[= -> ->] | Hin]]];
          [now left | congruence | now right].
    + assert (k <> k0) as Hne by (intros ->; now rewrite texto_eqb_refl in E).
      rewrite (IH Hr). split.
      * intros [[= <- <-] | [[-> ->] | [Hk Hin]]]; auto.
      * intros [[-> ->] | [Hk [[= -> ->] | Hin]]]; auto.
Qed.

Lemma NoDup_mapSet (m : Mapa) (k : texto) (v : Detalles) :
  NoDup (claves m) -> NoDup (claves (mapSet m k v)).
Proof.
  intros Hn. rewrite claves_mapSet.
  destruct (mapHas m k) eqn:Hh; [assumption |].
  apply NoDup_app; [assumption | repeat constructor; intros [] |].
  intros x Hx [<- | []]. apply mapHas_In in Hx. congruence.
Qed.

Lemma mapGet_In_par (m : Mapa) (k : texto) (v : Detalles) :
  mapGet m k = Some v -> In (k, v) m.
Proof.
  induction m as [| [k0 v0] r IH]; cbn [mapGet In]; [discriminate |].
  destruct (texto_eqb k k0) eqn:E.
  - apply texto_eqb_eq in E. subst. intros [= ->]. now left.
  - intros H. right. now apply IH.
Qed.

Lemma mapGet_None (m : Mapa) (k : texto) :
  mapHas m k = false -> mapGet m k = None.
Proof.
  induction m as [| [k0 v0] r IH]; cbn [mapHas mapGet]; [reflexivity |].
  destruct (texto_eqb k k0); cbn [orb]; [discriminate | exact IH].
Qed.

Variable pl : Plataforma.

(** The entry [rows.forEach] leaves under the name of [row]. *)
Let actualizada (m : Mapa) (row : Fila.t) : Detalles :=
  let g :=
    match mapGet m (Fila.nombre_proveedor row) with
    | Some g => g
    | None => {| id_proveedor := Fila.id_proveedor row;
                 correo := Fila.correo row;
                 pagos := [];
                 monto_total := 0%float;
                 cantidad_pagos := 0 |}
    end in
  {| id_proveedor := id_proveedor g;
     correo := correo g;
     pagos := pagos g ++ [pagoDeFila pl row];
     monto_total :=
       (monto_total g + GmailPaymentRecord.monto (pagoDeFila pl row))%float;
     cantidad_pagos := S (cantidad_pagos g) |}.

Lemma In_agruparFila (m : Mapa) (row : Fila.t) (k' : texto) (d' : Detalles) :
  NoDup (claves m) ->
  In (k', d') (agruparFila pl m row) <->
  (k' = Fila.nombre_proveedor row /\ d' = actualizada m row)
  \/ (k' <> Fila.nombre_proveedor row /\ In (k', d') m).
Proof.
  intros Hn. unfold agruparFila, actualizada.
  destruct (mapHas m (Fila.nombre_proveedor row)) eqn:Hh.
  - destruct (mapHas_mapGet m _ Hh) as [g Hg]. rewrite Hg.
    now apply In_mapSet.
  - rewrite (@mapGet_None _ _ Hh), mapGet_mapSet.
    rewrite In_mapSet by now apply NoDup_mapSet.
    rewrite In_mapSet by assumption. intuition congruence.
Qed.

Lemma filasDeNombre_app (k : texto) (seen : list Fila.t) (row : Fila.t) :
  filasDeNombre k (seen ++ [row])
  = filasDeNombre k seen
    ++ (if texto_eqb (Fila.nombre_proveedor row) k then [row] else []).
Proof.
  unfold filasDeNombre. rewrite filter_app. cbn [filter].
  now destruct (texto_eqb (Fila.nombre_proveedor row) k).
Qed.

Lemma filasDeNombre_nil (k : texto) (seen : list Fila.t) :
  (forall r, In r seen -> Fila.nombre_proveedor r <> k) ->
  filasDeNombre k seen = [].
Proof.
  intros H. apply sin_elementos. intros r Hr.
  apply filter_In in Hr. destruct Hr as [Hin He].
  apply texto_eqb_eq in He. now apply (H r).
Qed.

Lemma mapaDe_agruparFila (seen : list Fila.t) (m : Mapa) (row : Fila.t) :
  mapaDe pl seen m -> mapaDe pl (seen ++ [row]) (agruparFila pl m row).
Proof.
  intros [Hn [Hcub Hent]]. split; [| split].
  - rewrite claves_agruparFila. destruct (mapHas m _) eqn:Hh; [assumption |].
    apply NoDup_app; [assumption | repeat constructor; intros [] |].
    intros x Hx [<- | []]. apply mapHas_In in Hx. congruence.
  - intros r Hr. rewrite claves_agruparFila.
    apply in_app_or in Hr. destruct Hr as [Hr | [<- | []]].
    + specialize (Hcub r Hr).
      destruct (mapHas m _); [assumption | apply in_or_app; now left].
    + destruct (mapHas m _) eqn:Hh; [now apply mapHas_In |].
      apply in_or_app. right. now left.
  - intros k d Hin. apply In_agruparFila in Hin; [| assumption].
    unfold entradaDe. rewrite filasDeNombre_app.
    destruct Hin as [[-> ->] | [Hne Hin]].
    + rewrite texto_eqb_refl. unfold actualizada.
      destruct (mapGet m (Fila.nombre_proveedor row)) as [g |] eqn:Hg.
      * apply mapGet_In_par in Hg.
        destruct (Hent _ _ Hg) as [Hp [r0 [rest [Hf [Hi Hc]]]]].
        cbn [pagos id_proveedor correo]. split.
        -- now rewrite map_app, Hp.
        -- exists r0, (rest ++ [row]). rewrite Hf. auto.
      * assert (filasDeNombre (Fila.nombre_proveedor row) seen = []) as Hnil.
        { apply filasDeNombre_nil. intros r Hr Heq.
          specialize (Hcub r Hr). rewrite Heq in Hcub.
          apply mapHas_In in Hcub.
          destruct (mapHas_mapGet m _ Hcub) as [g Hg']. congruence. }
        rewrite Hnil. cbn [pagos id_proveedor correo app map]. split.
        -- reflexivity.
        -- exists row, []. auto.
    + assert (texto_eqb (Fila.nombre_proveedor row) k = false) as E.
      { apply not_true_is_false. intros E. apply texto_eqb_eq in E.
        congruence. }
      rewrite E, app_nil_r. now apply Hent.
Qed.

Lemma mapaDe_fold (rows seen : list Fila.t) (m : Mapa) :
  mapaDe pl seen m ->
  mapaDe pl (seen ++ rows) (fold_left (agruparFila pl) rows m).
Proof.
  revert seen m. induction rows as [| row r IH]; intros seen m H;
    cbn [fold_left].
  - now rewrite app_nil_r.
  - replace (seen ++ row :: r) with ((seen ++ [row]) ++ r)
      by now rewrite <- app_assoc.
    apply IH. now apply mapaDe_agruparFila.
Qed.

Lemma In_gruposDe (index : nat) (m : Mapa) (g : GmailEmailGroup.t) :
  In g (gruposDe index m) ->
  exists d,
    In (GmailEmailGroup.proveedorNombre g, d) m
    /\ GmailEmailGroup.id g = id_proveedor d
    /\ GmailEmailGroup.correoContacto g = correo d
    /\ GmailEmailGroup.pagos g = pagos d.
Proof.
  revert index. induction m as [| [k d] r IH]; intros index;
    cbn [gruposDe In]; [contradiction |].
  intros [<- | Hin].
  - exists d. cbn. auto.
  - destruct (IH _ Hin) as [d' [H1 H2]]. exists d'. auto.
Qed.

Lemma gruposDe_pagos (index : nat) (m : Mapa) :
  flat_map GmailEmailGroup.pagos (gruposDe index m)
  = flat_map (fun kd => pagos (snd kd)) m.
Proof.
  revert index. induction m as [| [k d] r IH]; intros index;
    cbn [gruposDe flat_map snd GmailEmailGroup.pagos]; [reflexivity |].
  now rewrite IH.
Qed.

Lemma pagos_mapSet (m : Mapa) (k : texto) (g v : Detalles)
    (extra : list GmailPaymentRecord.t) :
  mapGet m k = Some g ->
  pagos v = pagos g ++ extra ->
  Permutation (flat_map (fun kd => pagos (snd kd)) (mapSet m k v))
    (flat_map (fun kd => pagos (snd kd)) m ++ extra).
Proof.
  intros Hg Hv. induction m as [| [k0 v0] r IH];
    cbn [mapGet mapSet flat_map snd] in *; [discriminate |].
  destruct (texto_eqb k k0); cbn [flat_map snd].
  - injection Hg as ->. rewrite Hv, <- !app_assoc.
    apply Permutation_app_head, Permutation_app_comm.
  - rewrite <- app_assoc. apply Permutation_app_head. now apply IH.
Qed.

Lemma mapSet_nuevo (m : Mapa) (k : texto) (v : Detalles) :
  mapHas m k = false -> mapSet m k v = m ++ [(k, v)].
Proof.
  induction m as [| [k0 v0] r IH]; cbn [mapHas mapSet app]; [reflexivity |].
  destruct (texto_eqb k k0); cbn [orb]; [discriminate |].
  intros H. now rewrite IH.
Qed.

Lemma pagos_agruparFila (m : Mapa) (row : Fila.t) :
  Permutation (flat_map (fun kd => pagos (snd kd)) (agruparFila pl m row))
    (flat_map (fun kd => pagos (snd kd)) m ++ [pagoDeFila pl row]).
Proof.
  unfold agruparFila.
  destruct (mapHas m (Fila.nombre_proveedor row)) eqn:Hh.
  - destruct (mapHas_mapGet m _ Hh) as [g Hg]. rewrite Hg.
    now apply pagos_mapSet with (g := g).
  - rewrite mapGet_mapSet.
    rewrite pagos_mapSet
      with (g := {| id_proveedor := Fila.id_proveedor row;
                    correo := Fila.correo row;
                    pagos := [];
                    monto_total := 0%float;
                    cantidad_pagos := 0 |})
           (extra := [pagoDeFila pl row]);
      [| apply mapGet_mapSet | reflexivity].
    rewrite (@mapSet_nuevo _ _ _ Hh), flat_map_app.
    cbn [flat_map snd pagos app]. now rewrite !app_nil_r.
Qed.

Lemma pagos_fold (rows : list Fila.t) (m : Mapa) :
  Permutation
    (flat_map (fun kd => pagos (snd kd)) (fold_left (agruparFila pl) rows m))
    (flat_map (fun kd => pagos (snd kd)) m ++ map (pagoDeFila pl) rows).
Proof.
  revert m. induction rows as [| row r IH]; intros m; cbn [fold_left map].
  - now rewrite app_nil_r.
  - rewrite IH, pagos_agruparFila, <- app_assoc. reflexivity.
Qed.

End Agrupacion.

(** X3: every group of [getResumenPagosDia] holds the payments of the
    selected rows that carry its provider name, all of them and in the
    order of the rows, with the provider id and the address of the first
    such row; no group is empty, every row has its group, and the groups
    together hold each selected payment once. *)
Theorem grupos_por_nombre :
  forall (pl : Plataforma) (ent : Entorno) (usuarioId : Z)
         (fecha : option texto) (w : Mundo) (grupos : list GmailEmailGroup.t),
    data (snd (GmailGenService.getResumenPagosDia pl ent usuarioId fecha w))
    = Some grupos ->
    let rows := consultaPagosDirectos pl (base w) usuarioId
                  (GmailGenService.fechaO ent fecha) None in
    (forall g, In g grupos ->
       exists r0 rest,
         filasDeNombre (GmailEmailGroup.proveedorNombre g) rows = r0 :: rest
         /\ GmailEmailGroup.pagos g
            = map (GmailGenService.pagoDeFila pl) (r0 :: rest)
         /\ GmailEmailGroup.id g = Fila.id_proveedor r0
         /\ GmailEmailGroup.correoContacto g = Fila.correo r0)
    /\ (forall r, In r rows ->
           In (Fila.nombre_proveedor r)
             (map GmailEmailGroup.proveedorNombre grupos))
    /\ Permutation (flat_map GmailEmailGroup.pagos grupos)
         (map (GmailGenService.pagoDeFila pl) rows).
Proof.
  intros pl ent usuarioId fecha w grupos Hd rows.
  apply resumen_datos in Hd. destruct Hd as [_ ->]. fold rows.
  assert (mapaDe pl rows (fold_left (GmailGenService.agruparFila pl) rows []))
    as [Hn [Hcub Hent]].
  { apply (@mapaDe_fold pl rows [] []).
    split; [constructor | split]; intros; contradiction. }
  split; [| split].
  - intros g Hg. apply In_gruposDe in Hg.
    destruct Hg as [d [Hin [Hi [Hc Hp]]]].
    destruct (Hent _ _ Hin) as [Hpd [r0 [rest [Hf [Hid Hco]]]]].
    exists r0, rest. rewrite Hp, Hpd, Hf, Hi, Hc. auto.
  - intros r Hr. rewrite gruposDe_nombres. now apply Hcub.
  - rewrite gruposDe_pagos. apply (@pagos_fold pl rows []).
Qed.

Lemma grupos_por_nombre_ejemplo :
  Permutation
    (flat_map GmailEmailGroup.pagos
       (GmailGenService.gruposDe 0
          (fold_left (GmailGenService.agruparFila Ejemplo.plataforma)
             (consultaPagosDirectos Ejemplo.plataforma Ejemplo.tablas 1
                Ejemplo.dia None) [])))
    (map (GmailGenService.pagoDeFila Ejemplo.plataforma)
       (consultaPagosDirectos Ejemplo.plataforma Ejemplo.tablas 1
          Ejemplo.dia None)).
Proof.
  exact (proj2 (proj2 (grupos_por_nombre Ejemplo.plataforma
                         (Ejemplo.entorno Ejemplo.acepta) 1 None
                         Ejemplo.mundo eq_refl))).
Defined.

(** ** From a group of the summary to its dispatch *)

Section FiltroOrden.

Variables (A K : Type) (clave : A -> K) (le : K -> K -> bool).
Variable f : A -> bool.

Hypothesis le_total : forall a b, le a b = true \/ le b a = true.
Hypothesis le_trans :
  forall a b c, le a b = true -> le b c = true -> le a c = true.

Lemma insertar_cabeza (x : A) (l : list A) :
  Forall (fun z => le (clave x) (clave z) = true) l ->
  insertar clave le x l = x :: l.
Proof.
  intros H. destruct l as [| y r]; cbn [insertar]; [reflexivity |].
  inversion H as [| ? ? Hy _]; subst. now rewrite Hy.
Qed.



End FiltroOrden.






(** ** The shape of a dispatch *)


(** ** The array literal *)

(** X7: the literal [`{${ids.join(',')}}`] determines the identifiers it was
    built from: two lists of ids give the same literal only if they are the
    same list, so the bank and card sets reach the store unambiguously. *)
Theorem literal_determina_los_ids :
  forall (a b : list Z),
    GmailGenService.literalIds a = GmailGenService.literalIds b <-> a = b.
Proof.
  intros a b. split; [| now intros ->].
  intros H.
  pose proof (leerLiteral_literalIds a) as Ha.
  pose proof (leerLiteral_literalIds b) as Hb.
  rewrite H in Ha. congruence.
Qed.

(** ** The sibling revision of the dispatch *)

Lemma ge400_no_falsy (x : float) : ge400 x = true -> numeroFalsy x = false.
Proof.
  unfold ge400, numeroFalsy, is_nan, is_zero.
  rewrite FloatAxioms.leb_spec. rewrite !FloatAxioms.eqb_spec.
  replace (Prim2SF 400) with (S754_finite false 7036874417766400 (-44))
    by (vm_compute; reflexivity).
  replace (Prim2SF zero) with (S754_zero false) by (vm_compute; reflexivity).
  destruct (Prim2SF x) as [s | s | | s m e]; cbn; try discriminate.
  - now destruct s.
  - unfold SFleb, SFeqb, SFcompare.
    destruct s; [discriminate |]. intros _.
    rewrite Z.compare_refl, Pos.compare_cont_refl. reflexivity.
Qed.

Section Corrida001.

Variables (pl : Plataforma) (ent : Entorno).
Variables (usuarioId proveedorId : Z) (fecha asunto mensaje : option texto).

Local Abbreviation enviar :=
  (GmailGenService001.enviarCorreoProveedor pl ent usuarioId proveedorId
     fecha asunto mensaje).
Local Abbreviation filas := (filasDe pl ent usuarioId proveedorId fecha).

Lemma enviar001_select_falla (w : Mundo) (e : excepcion) :
  fallo_select ent = Some e ->
  enviar w = (w, respuestaCatch e).
Proof.
  intros H. unfold GmailGenService001.enviarCorreoProveedor, intentar, bind,
    GmailGenService.obtenerPagosDirectos.
  rewrite H. reflexivity.
Qed.

Lemma enviar001_sin_filas (w : Mundo) :
  fallo_select ent = None ->
  filas w = [] ->
  enviar w = (w, respuestaSinPagos).
Proof.
  intros H H0. unfold GmailGenService001.enviarCorreoProveedor, intentar, bind,
    GmailGenService.obtenerPagosDirectos.
  rewrite H. unfold filasDe in H0. rewrite H0. reflexivity.
Qed.

Lemma enviar001_con_filas (w : Mundo) (firstRow : Fila.t)
    (resto : list Fila.t) :
  fallo_select ent = None ->
  filas w = firstRow :: resto ->
  let rows := firstRow :: resto in
  let carga := cargaDe pl ent fecha asunto mensaje firstRow rows in
  let registro :=
    registroDe pl ent usuarioId proveedorId fecha asunto mensaje firstRow rows in
  let escrito := registrar_envio_correo_con_detalles ent (base w) registro in
  enviar w =
  ({| base := fst escrito;
      enviados := enviados w ++ [carga];
      registros := registros w ++ [registro] |},
   respuesta001De pl ent fecha asunto mensaje firstRow rows
     (fst (GmailGenService.clasificarRespuesta (axios_post ent carga)))
     (snd escrito)).
Proof.
  intros H H0 rows carga registro escrito.
  unfold GmailGenService001.enviarCorreoProveedor, intentar, bind,
    GmailGenService.obtenerPagosDirectos.
  rewrite H. unfold filasDe in H0. rewrite H0.
  unfold GmailGenService.enviarWebhook, GmailGenService.registrarEnvio,
    deResultado, ret.
  fold rows. cbn [base enviados registros fst snd].
  change (registrar_envio_correo_con_detalles ent (base w) _) with escrito.
  destruct escrito as [b [e | rawRegistrar]]; cbn [fst snd respuesta001De].
  - reflexivity.
  - destruct (parsear pl rawRegistrar) as [e | parsedRegistrar].
    + reflexivity.
    + destruct (GmailGenService001.rehusado parsedRegistrar); reflexivity.
Qed.

End Corrida001.

Lemma app_uno_distinto (A : Type) (l : list A) (x : A) : l ++ [x] <> l.
Proof.
  intros H. apply (f_equal (@List.length A)) in H.
  rewrite length_app in H. cbn in H. lia.
Qed.

(** X8: the two revisions of [enviarCorreoProveedor] side by side.  They
    always leave the same world (same payload posted, same audit write,
    same tables) and return the same response when nothing was posted.
    After an audit write whose parsed answer has a numeric [status] they
    agree on success and on the status code, and on the whole response
    when the answer also has a truthy [message] and a [data] that is not
    null.  They part on an answer that names neither [status] nor [estado]:
    GmailGenService.ts takes it for a success, the sibling revision
    defaults the status to 500 and reports a failure -- of a write that
    was issued. *)
Theorem revisiones_del_envio :
  forall (pl : Plataforma) (ent : Entorno) (usuarioId proveedorId : Z)
         (fecha asunto mensaje : option texto) (w : Mundo),
    let r := GmailGenService.enviarCorreoProveedor pl ent usuarioId
               proveedorId fecha asunto mensaje w in
    let r1 := GmailGenService001.enviarCorreoProveedor pl ent usuarioId
                proveedorId fecha asunto mensaje w in
    fst r1 = fst r
    /\ (enviados (fst r) = enviados w -> snd r1 = snd r)
    /\ (forall firstRow resto rawRegistrar parsedRegistrar,
          fallo_select ent = None ->
          filasDe pl ent usuarioId proveedorId fecha w = firstRow :: resto ->
          snd (registrar_envio_correo_con_detalles ent (base w)
                 (registroDe pl ent usuarioId proveedorId fecha asunto mensaje
                    firstRow (firstRow :: resto))) = inr rawRegistrar ->
          parsear pl rawRegistrar = inr parsedRegistrar ->
          (forall x,
             prop parsedRegistrar "status" = VNum x ->
             success (snd r1) = success (snd r)
             /\ statusCode (snd r1) = statusCode (snd r)
             /\ (truthy (prop parsedRegistrar "message") = true ->
                 nulo (prop parsedRegistrar "data") = false ->
                 snd r1 = snd r))
          /\ (truthy parsedRegistrar = true ->
              nulo (prop parsedRegistrar "status") = true ->
              nulo (prop parsedRegistrar "estado") = true ->
              success (snd r) = true
              /\ success (snd r1) = false
              /\ statusCode (snd r1) = VNum 500)).
Proof.
  intros pl ent usuarioId proveedorId fecha asunto mensaje w r r1.
  subst r r1.
  destruct (fallo_select ent) as [e |] eqn:Hs.
  { rewrite (@enviar_select_falla pl ent usuarioId proveedorId fecha asunto
               mensaje w e Hs),
            (@enviar001_select_falla pl ent usuarioId proveedorId fecha asunto
               mensaje w e Hs).
    repeat split; try reflexivity; discriminate. }
  destruct (filasDe pl ent usuarioId proveedorId fecha w)
    as [| firstRow resto] eqn:Hf.
  { rewrite (@enviar_sin_filas pl ent usuarioId proveedorId fecha asunto
               mensaje w Hs Hf),
            (@enviar001_sin_filas pl ent usuarioId proveedorId fecha asunto
               mensaje w Hs Hf).
    repeat split; try reflexivity; discriminate. }
  pose proof (@enviar_con_filas pl ent usuarioId proveedorId fecha asunto
                mensaje w firstRow resto Hs Hf) as E.
  pose proof (@enviar001_con_filas pl ent usuarioId proveedorId fecha asunto
                mensaje w firstRow resto Hs Hf) as E1.
  cbv zeta in E, E1. rewrite E, E1. cbn [fst snd enviados].
  split; [reflexivity |]. split.
  { intros H. now apply app_uno_distinto in H. }
  intros firstRow' resto' rawRegistrar parsedRegistrar _ [= <- <-] Hr Hp.
  rewrite Hr. cbn [respuestaDe respuesta001De]. rewrite Hp.
  unfold rechazado, GmailGenService001.rehusado, GmailGenService001.codigoDe,
    GmailGenService001.statusDe.
  split.
  - intros x Hx. rewrite Hx. cbn [coalescer Number].
    destruct parsedRegistrar as [| | b | y | t | l | campos];
      try (cbn in Hx; discriminate Hx).
    cbn [truthy negb orb].
    destruct (ge400 x) eqn:Hg; cbn [success statusCode respuestaRechazo].
    + split; [reflexivity |]. split.
      * unfold o_bien. rewrite Hx. cbn [truthy].
        now rewrite (@ge400_no_falsy _ Hg).
      * intros Hm _. unfold respuestaRechazo, o_bien. rewrite Hx.
        cbn [truthy]. rewrite (@ge400_no_falsy _ Hg). cbn [negb].
        unfold GmailGenService001.messageDe. rewrite Hm.
        destruct (prop (VObj campos) "message"); try discriminate Hm;
          cbn [coalescer truthy]; try reflexivity;
          cbn [truthy] in Hm; now rewrite Hm.
    + split; [reflexivity |]. split; [reflexivity |].
      intros _ Hd. unfold GmailGenService001.dataDe.
      destruct (prop (VObj campos) "data"); try discriminate Hd; reflexivity.
  - intros Ht Hst Hes. rewrite Ht. cbn [negb orb].
    destruct (prop parsedRegistrar "status"); try discriminate Hst;
      destruct (prop parsedRegistrar "estado"); try discriminate Hes;
      cbn [coalescer Number];
      (replace (ge400 nan) with false by (vm_compute; reflexivity));
      (replace (ge400 0) with false by (vm_compute; reflexivity));
      (replace (ge400 500) with true by (vm_compute; reflexivity));
      cbn; auto.
Qed.

Lemma revisiones_del_envio_ejemplo :
  let almacen :=
    fun (db : BaseDatos) (_ : Registro.t) =>
      (db, @inr excepcion jsval (VObj [(lit "data", VNum 1)])) in
  let ent := Ejemplo.entornoCon almacen Ejemplo.acepta in
  success (snd (GmailGenService.enviarCorreoProveedor Ejemplo.plataforma ent
                  1 7 None None None Ejemplo.mundo)) = true
  /\ success (snd (GmailGenService001.enviarCorreoProveedor Ejemplo.plataforma
                     ent 1 7 None None None Ejemplo.mundo)) = false
  /\ statusCode (snd (GmailGenService001.enviarCorreoProveedor
                        Ejemplo.plataforma ent 1 7 None None None
                        Ejemplo.mundo)) = VNum 500.
Proof.
  intros almacen ent.
  exact (proj2 (proj2 (proj2 (revisiones_del_envio Ejemplo.plataforma ent 1 7
                                None None None Ejemplo.mundo))
                  (seleccionar (Ejemplo.pago 11 7 10 "TARJ-001", Ejemplo.acme))
                  [seleccionar
                     (Ejemplo.pago 12 7 15.5 "BANCO-001", Ejemplo.acme)]
                  (VObj [(lit "data", VNum 1)])
                  (VObj [(lit "data", VNum 1)])
                  eq_refl eq_refl eq_refl eq_refl)
           eq_refl eq_refl eq_refl).
Defined.

(** ** The responses of the sibling revision *)

Section Respuestas001.

Variables (pl : Plataforma) (ent : Entorno).

Lemma ge400_500 : ge400 500 = true.
Proof. vm_compute. reflexivity. Qed.

Lemma ge400_404 : ge400 404 = true.
Proof. vm_compute. reflexivity. Qed.

Lemma bienFormada_fallo (T : Type) (e : jsval) (x : float) :
  ge400 x = true ->
  bienFormada
    {| success := false; data := @None T; error := Some e;
       statusCode := VNum x |}.
Proof.
  intros H. exists x. cbn. repeat split; [assumption | discriminate].
Qed.

Lemma bienFormada_exito (T : Type) (d : T) :
  bienFormada
    {| success := true; data := Some d; error := None;
       statusCode := VNum 200 |}.
Proof.
  exists 200%float. cbn. repeat split. discriminate.
Qed.

Lemma falsy_status (parsed : jsval) :
  truthy parsed = false -> GmailGenService001.statusDe parsed = VNum 500.
Proof.
  destruct parsed; cbn [truthy]; try discriminate; reflexivity.
Qed.

(** What [rehusado] leaves in [codigoDe]. *)
Lemma rehusado_codigo (parsed : jsval) :
  GmailGenService001.rehusado parsed = true ->
  exists x, GmailGenService001.codigoDe parsed = VNum x /\ ge400 x = true.
Proof.
  unfold GmailGenService001.rehusado, GmailGenService001.codigoDe.
  intros H. apply orb_true_iff in H. destruct H as [H | H].
  - apply negb_true_iff in H. rewrite (falsy_status _ H).
    exists 500%float. split; [reflexivity | apply ge400_500].
  - destruct (GmailGenService001.statusDe parsed); try discriminate H.
    eexists. split; [reflexivity | exact H].
Qed.

Lemma resumirRespuesta001_bienFormada (estado : GmailGroupEstado)
    (porDefecto : texto) (parsedResumen : option Origen.Respuesta) :
  bienFormada
    (GmailGenService001.resumirRespuesta pl estado porDefecto parsedResumen).
Proof.
  unfold GmailGenService001.resumirRespuesta.
  set (status := coalescer (coalescer _ _) (VNum 500)).
  set (message := coalescer (coalescer _ _) (VStr [])).
  destruct parsedResumen as [r |]; cbn [orb].
  - destruct status as [| | b | x | t | l | c];
      try apply bienFormada_exito.
    destruct (ge400 x) eqn:Hg; [| apply bienFormada_exito].
    now apply bienFormada_fallo.
  - subst status. cbn [GmailGenService.campoO coalescer].
    apply bienFormada_fallo, ge400_500.
Qed.

End Respuestas001.

(** X9: every method of the sibling revision answers with a response a
    controller can send as it is: the status code is a number, 200 with
    data and no error on success, from 400 on with an error and no data on
    failure -- whatever the stored functions answer, also a status that is
    a string, missing, or below 400 on a falsy answer. *)
Theorem respuestas_001_bien_formadas :
  forall (pl : Plataforma) (ent : Entorno)
         (historial_envios_get :
            BaseDatos -> Z -> float -> float -> excepcion + jsval)
         (usuarioId proveedorId : Z) (fecha asunto mensaje : option texto)
         (limit offset : option float) (w : Mundo),
    bienFormada (snd (GmailGenService001.getResumenPagosDia pl ent usuarioId
                        fecha w))
    /\ bienFormada (snd (GmailGenService001.getCorreosPendientesGeneral pl ent
                           usuarioId w))
    /\ bienFormada (snd (GmailGenService001.getResumenEnviosFecha pl ent
                           usuarioId fecha w))
    /\ bienFormada (snd (GmailGenService001.getHistorialEnvios pl
                           historial_envios_get usuarioId limit offset w))
    /\ bienFormada (snd (GmailGenService001.enviarCorreoProveedor pl ent
                           usuarioId proveedorId fecha asunto mensaje w)).
Proof.
  intros pl ent historial_envios_get usuarioId proveedorId fecha asunto
    mensaje limit offset w.
  split; [| split; [| split; [| split]]].
  - unfold GmailGenService001.getResumenPagosDia,
      GmailGenService.getResumenPagosDia, intentar, bind,
      GmailGenService.obtenerPagosDirectos.
    destruct (fallo_select ent); cbn [snd ret].
    + apply bienFormada_fallo, ge400_500.
    + apply bienFormada_exito.
  - unfold GmailGenService001.getCorreosPendientesGeneral, intentar, bind.
    destruct (correos_pendientes_general_get ent (base w) usuarioId)
      as [e | parsed]; cbn [snd ret].
    + apply bienFormada_fallo, ge400_500.
    + apply resumirRespuesta001_bienFormada.
  - unfold GmailGenService001.getResumenEnviosFecha, intentar, bind.
    destruct (resumen_envios_fecha_get ent (base w) usuarioId _)
      as [e | parsed]; cbn [snd ret].
    + apply bienFormada_fallo, ge400_500.
    + apply resumirRespuesta001_bienFormada.
  - unfold GmailGenService001.getHistorialEnvios, intentar, bind, deResultado.
    destruct (historial_envios_get (base w) usuarioId _ _) as [e | raw];
      cbn [snd ret]; [apply bienFormada_fallo, ge400_500 |].
    destruct (parsear pl raw) as [e | parsed]; cbn [snd ret];
      [apply bienFormada_fallo, ge400_500 |].
    destruct (GmailGenService001.rehusado parsed) eqn:Hr; cbn [snd ret].
    + destruct (rehusado_codigo _ Hr) as [x [-> Hx]].
      now apply bienFormada_fallo.
    + apply bienFormada_exito.
  - destruct (fallo_select ent) as [e |] eqn:Hs.
    { rewrite (@enviar001_select_falla pl ent usuarioId proveedorId fecha
                 asunto mensaje w e Hs).
      apply bienFormada_fallo, ge400_500. }
    destruct (filasDe pl ent usuarioId proveedorId fecha w)
      as [| firstRow resto] eqn:Hf.
    { rewrite (@enviar001_sin_filas pl ent usuarioId proveedorId fecha asunto
                 mensaje w Hs Hf).
      apply bienFormada_fallo, ge400_404. }
    pose proof (@enviar001_con_filas pl ent usuarioId proveedorId fecha asunto
                  mensaje w firstRow resto Hs Hf) as E.
    cbv zeta in E. rewrite E. cbn [snd]. unfold respuesta001De.
    destruct (snd (registrar_envio_correo_con_detalles ent (base w) _))
      as [e | raw]; [apply bienFormada_fallo, ge400_500 |].
    destruct (parsear pl raw) as [e | parsed];
      [apply bienFormada_fallo, ge400_500 |].
    destruct (GmailGenService001.rehusado parsed) eqn:Hr.
    + destruct (rehusado_codigo _ Hr) as [x [-> Hx]].
      now apply bienFormada_fallo.
    + apply bienFormada_exito.
Qed.

(** * The document upload component *)

Section Tarjetas.

Import DocumentUpload.

Lemma conFiles_mismo (c : DocumentCard) : conFiles c (files c) = c.
Proof.
  now destruct c.
Qed.

Lemma buscarTarjeta_conArchivos (cards : list DocumentCard) (cardId : texto)
    (card : DocumentCard) (fs : list File) :
  buscarTarjeta cards cardId = Some card ->
  buscarTarjeta (conArchivos cards cardId fs) cardId = Some (conFiles card fs).
Proof.
  unfold buscarTarjeta.
  induction cards as [| c r IH]; cbn [find conArchivos]; [discriminate |].
  destruct (texto_eqb (id c) cardId) eqn:E; cbn [find conFiles id].
  - intros [= ->]. now rewrite E.
  - rewrite E. exact IH.
Qed.

Lemma conArchivos_dos (cards : list DocumentCard) (cardId : texto)
    (fs fs' : list File) :
  conArchivos (conArchivos cards cardId fs) cardId fs'
  = conArchivos cards cardId fs'.
Proof.
  induction cards as [| c r IH]; cbn [conArchivos]; [reflexivity |].
  destruct (texto_eqb (id c) cardId) eqn:E; cbn [conArchivos conFiles id].
  - now rewrite E.
  - now rewrite E, IH.
Qed.

Lemma conArchivos_mismos (cards : list DocumentCard) (cardId : texto)
    (card : DocumentCard) :
  buscarTarjeta cards cardId = Some card ->
  conArchivos cards cardId (files card) = cards.
Proof.
  unfold buscarTarjeta.
  induction cards as [| c r IH]; cbn [find conArchivos]; [discriminate |].
  destruct (texto_eqb (id c) cardId) eqn:E.
  - intros [= ->]. f_equal. apply conFiles_mismo.
  - intros H. f_equal. now apply IH.
Qed.


End Tarjetas.

Section Seleccion.

Import DocumentUpload.

Variable minusculaUnicode : N -> texto.

Local Abbreviation esPdf := (DocumentUpload.esPdf minusculaUnicode).
Local Abbreviation onFileSelected :=
  (DocumentUpload.onFileSelected minusculaUnicode).

(** What [onFileSelected] does once the card is found and the selection
    holds a PDF. *)
Lemma onFileSelected_con_pdf (allFiles : list File) (cardId : texto)
    (st : Componente) (card : DocumentCard) :
  buscarTarjeta (documentCards st) cardId = Some card ->
  filter esPdf allFiles <> [] ->
  let pdfFiles := filter esPdf allFiles in
  let maxFiles := maxFilesDe cardId in
  onFileSelected (Some allFiles) cardId st
  = conTarjetas
      (conError st
         (if (List.length (files card) + List.length pdfFiles <=? maxFiles)%nat
          then VNull
          else VStr (lit "Solo se pueden subir hasta "
                     ++ limiteTexto maxFiles ++ lit " a la vez.")))
      (conArchivos (documentCards st) cardId
         (files card
          ++ firstn (maxFiles - List.length (files card)) pdfFiles)).
Proof.
  intros Hc Hne pdfFiles maxFiles.
  unfold DocumentUpload.onFileSelected.
  destruct allFiles as [| f0 r0]; [now elim Hne |].
  rewrite Hc. fold pdfFiles. fold maxFiles.
  destruct pdfFiles as [| p ps] eqn:Hp; [now elim Hne |].
  rewrite <- Hp.
  assert (0 < List.length pdfFiles)%nat as Hlen by (rewrite Hp; cbn; lia).
  destruct (Nat.ltb_spec maxFiles
              (List.length (files card) + List.length pdfFiles)) as [Hgt | Hle].
  - replace (List.length (files card) + List.length pdfFiles <=? maxFiles)%nat
      with false by (symmetry; apply Nat.leb_gt; lia).
    destruct (Z.leb_spec (Z.of_nat maxFiles
                          - Z.of_nat (List.length (files card))) 0)
      as [Hz | Hz].
    + cbn [scanError conError truthy negb].
      replace (maxFiles - List.length (files card))%nat with 0%nat by lia.
      cbn [firstn]. rewrite app_nil_r.
      rewrite (conArchivos_mismos _ _ Hc).
      destruct (lit "Solo se pueden subir hasta " ++ _) eqn:El;
        [discriminate El |].
      reflexivity.
    + replace (Z.to_nat (Z.of_nat maxFiles
                         - Z.of_nat (List.length (files card))))
        with (maxFiles - List.length (files card))%nat by lia.
      reflexivity.
  - replace (List.length (files card) + List.length pdfFiles <=? maxFiles)%nat
      with true by (symmetry; apply Nat.leb_le; lia).
    destruct (Z.leb_spec (Z.of_nat maxFiles
                          - Z.of_nat (List.length (files card))) 0)
      as [Hz | Hz]; [lia |].
    replace (Z.to_nat (Z.of_nat maxFiles
                       - Z.of_nat (List.length (files card))))
      with (maxFiles - List.length (files card))%nat by lia.
    reflexivity.
Qed.


(** X11: once the card is found and the selection holds a PDF, the card
    ends with its files followed by as many of the selected PDFs as still
    fit, and the error text is set exactly when a selected PDF was left
    out; it is then the text of the over-selection.  The text of the full
    card ("Solo se permiten hasta ...") is never shown: a full card always
    trips the over-selection test first. *)
Theorem aviso_si_sobran_archivos :
  forall (allFiles : list File) (cardId : texto) (st : Componente)
         (card : DocumentCard),
    buscarTarjeta (documentCards st) cardId = Some card ->
    filter esPdf allFiles <> [] ->
    let st' := onFileSelected (Some allFiles) cardId st in
    let pdfFiles := filter esPdf allFiles in
    let maxFiles := maxFilesDe cardId in
    exists card',
      buscarTarjeta (documentCards st') cardId = Some card'
      /\ files card'
         = files card ++ firstn (maxFiles - List.length (files card)) pdfFiles
      /\ (scanError st' = VNull <-> files card' = files card ++ pdfFiles)
      /\ (scanError st' = VNull
          \/ scanError st'
             = VStr (lit "Solo se pueden subir hasta "
                     ++ limiteTexto maxFiles ++ lit " a la vez.")).
Proof.
  intros allFiles cardId st card Hc Hne st' pdfFiles maxFiles. subst st'.
  rewrite (@onFileSelected_con_pdf allFiles cardId st card Hc Hne).
  fold pdfFiles. fold maxFiles.
  cbn [documentCards conTarjetas conError scanError].
  exists (conFiles card
            (files card
             ++ firstn (maxFiles - List.length (files card)) pdfFiles)).
  split; [now apply buscarTarjeta_conArchivos |].
  cbn [conFiles files]. split; [reflexivity |].
  assert (0 < List.length pdfFiles)%nat as Hlen.
  { subst pdfFiles.
    destruct (filter esPdf allFiles); [now elim Hne | cbn; lia]. }
  destruct (Nat.leb_spec (List.length (files card) + List.length pdfFiles)
              maxFiles) as [Hle | Hgt].
  - split; [| now left]. split; [| reflexivity].
    intros _. f_equal. apply firstn_all2. lia.
  - split; [| now right]. split; [discriminate |].
    intros H. apply app_inv_head in H.
    apply (f_equal (@List.length File)) in H.
    rewrite length_firstn in H. lia.
Qed.

(** X12: [removeFile] undoes [onFileSelected]: on a card with room left,
    selecting one PDF and then removing the file at the position it was
    given -- the old number of files, or -1 counted from the end --
    restores the cards. *)
Theorem quitar_deshace_seleccionar :
  forall (file : File) (cardId : texto) (st : Componente)
         (card : DocumentCard),
    buscarTarjeta (documentCards st) cardId = Some card ->
    esPdf file = true ->
    (List.length (files card) < maxFilesDe cardId)%nat ->
    let st' := onFileSelected (Some [file]) cardId st in
    documentCards
      (removeFile cardId (Z.of_nat (List.length (files card))) st')
    = documentCards st
    /\ documentCards (removeFile cardId (-1) st') = documentCards st.
Proof.
  intros file cardId st card Hc Hf Hlt st'. subst st'.
  assert (filter esPdf [file] = [file]) as Hp by (cbn; now rewrite Hf).
  rewrite (@onFileSelected_con_pdf [file] cardId st card Hc)
    by (rewrite Hp; discriminate).
  rewrite Hp.
  replace (firstn (maxFilesDe cardId - List.length (files card)) [file])
    with [file]
    by (destruct (maxFilesDe cardId - List.length (files card))%nat eqn:E;
        [lia | cbn [firstn]; now rewrite firstn_nil]).
  unfold removeFile. cbn [documentCards conTarjetas conError].
  rewrite (buscarTarjeta_conArchivos _ _ _ Hc).
  cbn [documentCards conTarjetas conFiles files].
  rewrite !conArchivos_dos.
  assert (forall index,
            (index = Z.of_nat (List.length (files card)) \/ index = (-1)%Z) ->
            splice1 index (files card ++ [file]) = files card) as Hs.
  { intros index Hi. unfold splice1. rewrite length_app. cbn [List.length].
    set (len := List.length (files card)) in *.
    assert (Z.to_nat
              (if (index <? 0)%Z
               then Z.max (Z.of_nat (len + 1) + index) 0
               else Z.min index (Z.of_nat (len + 1))) = len) as ->.
    { destruct Hi as [-> | ->].
      - destruct (Z.ltb_spec (Z.of_nat len) 0); lia.
      - cbn. lia. }
    subst len.
    rewrite firstn_app, firstn_all, Nat.sub_diag. cbn [firstn].
    rewrite app_nil_r.
    rewrite skipn_all2 by (rewrite length_app; cbn; lia).
    now rewrite app_nil_r. }
  rewrite !Hs by auto.
  split; now apply conArchivos_mismos.
Qed.

End Seleccion.

Lemma aviso_si_sobran_archivos_ejemplo :
  let pdf (n : string) :=
    {| DocumentUpload.name := lit n; DocumentUpload.type := [];
       DocumentUpload.contenido := [] |} in
  let st' :=
    DocumentUpload.onFileSelected (fun c => [c])
      (Some [pdf "a.pdf"%string; pdf "notas.txt"%string; pdf "B.PDF"%string]) (lit "bank-doc")
      DocumentUpload.inicial in
  exists card',
    DocumentUpload.buscarTarjeta (DocumentUpload.documentCards st')
      (lit "bank-doc") = Some card'
    /\ DocumentUpload.files card' = [pdf "a.pdf"%string]
    /\ DocumentUpload.scanError st'
       = VStr (lit "Solo se pueden subir hasta 1 archivo PDF a la vez.").
Proof.
  intros pdf st'.
  destruct (aviso_si_sobran_archivos (fun c => [c])
              [pdf "a.pdf"%string; pdf "notas.txt"%string; pdf "B.PDF"%string] (lit "bank-doc")
              DocumentUpload.inicial
              (card := {| DocumentUpload.id := lit "bank-doc";
                          DocumentUpload.title := lit "Documento Banco";
                          DocumentUpload.icon := lit "pi pi-file-word";
                          DocumentUpload.description :=
                            lit "Adjunta un archivo o haz clic";
                          DocumentUpload.files := [] |})
              eq_refl)
    as [card' [Hb [Hf [_ He]]]].
  - vm_compute. discriminate.
  - exists card'. split; [exact Hb |]. split; [exact Hf |].
    destruct He as [He | He]; [| exact He].
    exfalso. fold st' in He. vm_compute in He. discriminate He.
Defined.

Lemma quitar_deshace_seleccionar_ejemplo :
  let file :=
    {| DocumentUpload.name := lit "Factura.PDF"; DocumentUpload.type := [];
       DocumentUpload.contenido := [] |} in
  let st' :=
    DocumentUpload.onFileSelected (fun c => [c]) (Some [file])
      (lit "invoices") DocumentUpload.inicial in
  DocumentUpload.documentCards (DocumentUpload.removeFile (lit "invoices") 0 st')
  = DocumentUpload.documentCards DocumentUpload.inicial
  /\ DocumentUpload.documentCards
       (DocumentUpload.removeFile (lit "invoices") (-1) st')
     = DocumentUpload.documentCards DocumentUpload.inicial.
Proof.
  intros file st'.
  apply (quitar_deshace_seleccionar (fun c => [c]) file (lit "invoices")
           DocumentUpload.inicial
           (card := {| DocumentUpload.id := lit "invoices";
                       DocumentUpload.title := lit "Facturas";
                       DocumentUpload.icon := lit "pi pi-file-pdf";
                       DocumentUpload.description :=
                         lit "Adjunta archivos o haz clic";
                       DocumentUpload.files := [] |})
           eq_refl eq_refl).
  vm_compute. lia.
Defined.

Section Escaneo.

Import DocumentUpload.

Variable minusculaUnicode : N -> texto.
Variable servicio : Llamada -> Notificacion.
Variable leer : File -> Lectura.

Local Abbreviation esPdf := (DocumentUpload.esPdf minusculaUnicode).
Local Abbreviation leerArchivos := (DocumentUpload.leerArchivos leer).

Lemma leerArchivos_inr (pendientes : list File)
    (archivos res : list WebhookArchivoPdf) :
  leerArchivos pendientes archivos = inr res ->
  exists nuevos, res = archivos ++ nuevos /\ Forall2 (leido leer) pendientes nuevos.
Proof.
  revert archivos.
  induction pendientes as [| f r IH]; intros archivos;
    cbn [DocumentUpload.leerArchivos].
  - intros [= <-]. exists []. rewrite app_nil_r. split; constructor.
  - destruct (leer f) as [result |] eqn:Hl; [| discriminate].
    destruct (segundoCampo result) as [| c b] eqn:Hb; [discriminate |].
    intros H. apply IH in H. destruct H as [nuevos [-> HF]].
    eexists (_ :: nuevos). rewrite <- app_assoc. split; [reflexivity |].
    constructor; [| exact HF].
    exists result. cbn [base64 nombre]. rewrite Hb.
    repeat split; [assumption | discriminate].
Qed.

Lemma leerArchivos_inl (pendientes : list File)
    (archivos : list WebhookArchivoPdf) (t : texto) :
  leerArchivos pendientes archivos = inl t -> t <> [].
Proof.
  revert archivos.
  induction pendientes as [| f r IH]; intros archivos;
    cbn [DocumentUpload.leerArchivos]; [discriminate |].
  destruct (leer f) as [result |]; [| intros [= <-]; discriminate].
  destruct (segundoCampo result); [intros [= <-]; discriminate |].
  apply IH.
Qed.

Lemma observar_llamadas (mensajeExito textoError textoDesconocido : texto)
    (factura recargar : bool) (cantidadArchivos : nat) (st : Componente)
    (n : Notificacion) :
  snd (observar mensajeExito textoError textoDesconocido factura recargar
         cantidadArchivos st n) = []
  \/ snd (observar mensajeExito textoError textoDesconocido factura recargar
            cantidadArchivos st n)
     = registrarEventoSubidaPdf st factura cantidadArchivos
       :: (if recargar then [recargarPagos] else []).
Proof.
  unfold observar. destruct n as [response | campos]; [| now left].
  destruct (aceptado response); [now right | now left].
Qed.

(** X13: [onScanCard] sends all or nothing.  Either no call leaves the
    component, the scan is not a success and an error text is shown; or
    every one of the first PDFs of the card, up to its limit, was read
    with a non-empty payload, and exactly one document request is issued:
    the single file of the bank card, or, with a payment selected, the
    payload of the first file alone, or else all the files read.  The only
    calls that can follow are the audit event, which counts every file
    read -- also when only the first was sent --, and after it the reload
    of the payments of a scan for a payment. *)
Theorem escaneo_todo_o_nada :
  forall (cardId : texto) (st : Componente),
    let r := onScanCard minusculaUnicode servicio leer cardId st in
    (snd r = []
     /\ isScanSuccess (fst r) = false
     /\ truthy (scanError (fst r)) = true)
    \/ (exists card archivos llamada posteriores,
          buscarTarjeta (documentCards st) cardId = Some card
          /\ Forall2 (leido leer)
               (firstn (maxFilesDe cardId) (filter esPdf (files card)))
               archivos
          /\ snd r = llamada :: posteriores
          /\ ((cardId = lit "bank-doc"
               /\ exists a, archivos = [a]
                            /\ llamada = enviarDocumentoBancoPdf a)
              \/ (cardId <> lit "bank-doc"
                  /\ exists p a resto,
                       pago st = Some p
                       /\ archivos = a :: resto
                       /\ llamada
                          = scanPagoDocumento (base64 a) (Some (pago_id p))
                              (numero_presta p))
              \/ (cardId <> lit "bank-doc"
                  /\ pago st = None
                  /\ llamada = enviarDocumentosRecibiendoPdf archivos))
          /\ (posteriores = []
              \/ posteriores
                 = registrarEventoSubidaPdf st
                     (match llamada with
                      | scanPagoDocumento _ _ _ => true
                      | _ => false
                      end)
                     (List.length archivos)
                   :: match llamada with
                      | scanPagoDocumento _ _ _ => [recargarPagos]
                      | _ => []
                      end)).
Proof.
  intros cardId st r. subst r. unfold onScanCard.
  cbn [documentCards pago].
  destruct (buscarTarjeta (documentCards st) cardId) as [card |] eqn:Hc;
    [| left; now repeat split].
  destruct (files card) as [| f0 fs] eqn:Hfs; [left; now repeat split |].
  rewrite <- Hfs.
  destruct (filter esPdf (files card)) as [| p ps] eqn:Hp;
    [left; now repeat split |].
  rewrite <- Hp.
  set (limitados := firstn (maxFilesDe cardId) (filter esPdf (files card))).
  assert (limitados <> []) as Hne.
  { subst limitados. rewrite Hp. unfold maxFilesDe.
    destruct (texto_eqb cardId (lit "bank-doc")); discriminate. }
  destruct (leerArchivos limitados []) as [texto | archivos] eqn:Hl.
  { left. cbn [fst snd isScanSuccess scanError truthy].
    repeat split. apply leerArchivos_inl in Hl.
    now destruct texto. }
  apply leerArchivos_inr in Hl. destruct Hl as [nuevos [-> HF]].
  cbn [app] in *.
  assert (List.length limitados = List.length nuevos) as Hlen
    by (eapply Forall2_length; exact HF).
  destruct nuevos as [| primer resto].
  { destruct limitados; [now elim Hne | discriminate Hlen]. }
  right. exists card, (primer :: resto).
  destruct (texto_eqb cardId (lit "bank-doc")) eqn:Hb.
  - apply texto_eqb_eq in Hb.
    unfold scanDocumentoBanco, suscribir. cbn [fst snd].
    eexists. eexists. split; [reflexivity |]. split; [exact HF |].
    split; [reflexivity |]. split.
    + left. split; [assumption |]. exists primer. split; [| reflexivity].
      assert (List.length limitados <= 1)%nat as Hle.
      { subst limitados. rewrite length_firstn. unfold maxFilesDe.
        rewrite Hb, texto_eqb_refl. lia. }
      destruct resto; [reflexivity | cbn in Hlen; lia].
    + rewrite Hlen.
      match goal with
      | |- context [observar ?a ?b ?c ?d ?e ?n ?s ?x] =>
          destruct (observar_llamadas a b c d e n s x) as [-> | ->]
      end; [now left | right; reflexivity].
  - assert (cardId <> lit "bank-doc") as Hnb.
    { intros ->. now rewrite texto_eqb_refl in Hb. }
    destruct (pago st) as [pg |] eqn:Hpg.
    + unfold scanDocumento, suscribir. cbn [fst snd pago].
      eexists. eexists. split; [reflexivity |]. split; [exact HF |].
      split; [reflexivity |]. split.
      * right. left. split; [assumption |].
        exists pg, primer, resto. repeat split.
      * rewrite Hlen.
        match goal with
        | |- context [observar ?a ?b ?c ?d ?e ?n ?s ?x] =>
            destruct (observar_llamadas a b c d e n s x) as [-> | ->]
        end; [now left | right].
        unfold registrarEventoSubidaPdf. cbn [pago escaneando].
        now rewrite Hpg.
    + unfold scanDocumentosRecibiendo, suscribir. cbn [fst snd].
      eexists. eexists. split; [reflexivity |]. split; [exact HF |].
      split; [reflexivity |]. split.
      * right. right. now repeat split.
      * rewrite Hlen.
        match goal with
        | |- context [observar ?a ?b ?c ?d ?e ?n ?s ?x] =>
            destruct (observar_llamadas a b c d e n s x) as [-> | ->]
        end; [now left | right].
        unfold registrarEventoSubidaPdf. cbn [pago escaneando].
        now rewrite Hpg.
Qed.

End Escaneo.

(** * The history getters of the Gmail-GEN page *)

Lemma texto_eqb_cons (x y : N) (a b : texto) :
  texto_eqb (x :: a) (y :: b) = (x =? y)%N && texto_eqb a b.
Proof.
  destruct (N.eqb_spec x y) as [-> | Hxy]; cbn [andb].
  - destruct (texto_eqb a b) eqn:E.
    + apply texto_eqb_eq in E. subst. apply texto_eqb_refl.
    + apply not_true_is_false. intros H. apply texto_eqb_eq in H.
      injection H as ->. now rewrite texto_eqb_refl in E.
  - apply not_true_is_false. intros H. apply texto_eqb_eq in H. congruence.
Qed.

Lemma texto_eqb_app (p p' r r' : texto) :
  List.length p = List.length p' ->
  texto_eqb (p ++ r) (p' ++ r') = texto_eqb p p' && texto_eqb r r'.
Proof.
  revert p'. induction p as [| x p IH]; intros [| y p'] H;
    try discriminate H; cbn [app].
  - now rewrite texto_eqb_refl.
  - rewrite !texto_eqb_cons, IH by (cbn in H; lia).
    now rewrite andb_assoc.
Qed.

Lemma menorQue_app (p p' r r' : texto) :
  List.length p = List.length p' ->
  menorQue (p ++ r) (p' ++ r')
  = menorQue p p' || (texto_eqb p p' && menorQue r r').
Proof.
  revert p'. induction p as [| x p IH]; intros [| y p'] H;
    try discriminate H; cbn [app].
  - rewrite texto_eqb_refl. now destruct r'.
  - cbn [menorQue]. rewrite texto_eqb_cons, IH by (cbn in H; lia).
    destruct (N.ltb_spec x y) as [Hlt | Hge]; [reflexivity |].
    destruct (N.eqb_spec x y); reflexivity.
Qed.

Lemma dos_orden (a b : nat) :
  (a < 100)%nat -> (b < 100)%nat ->
  menorQue (dos a) (dos b) = (a <? b)%nat
  /\ texto_eqb (dos a) (dos b) = (a =? b)%nat.
Proof.
  intros Ha Hb.
  assert (forallb
            (fun a =>
               forallb
                 (fun b =>
                    Bool.eqb (menorQue (dos a) (dos b)) (a <? b)%nat
                    && Bool.eqb (texto_eqb (dos a) (dos b)) (a =? b)%nat)
                 (seq 0 100))
            (seq 0 100) = true) as H by (vm_compute; reflexivity).
  rewrite forallb_forall in H.
  specialize (H a (proj2 (in_seq _ _ _) (conj (Nat.le_0_l _) Ha))).
  rewrite forallb_forall in H.
  specialize (H b (proj2 (in_seq _ _ _) (conj (Nat.le_0_l _) Hb))).
  apply andb_true_iff in H. destruct H as [H1 H2].
  apply Bool.eqb_prop in H1, H2. now split.
Qed.

Lemma padStart2_dos (n : nat) :
  (n < 100)%nat -> padStart2 (texto_de_nat n) = dos n.
Proof.
  intros Hn.
  assert (forallb (fun n => texto_eqb (padStart2 (texto_de_nat n)) (dos n))
            (seq 0 100) = true) as H by (vm_compute; reflexivity).
  rewrite forallb_forall in H.
  specialize (H n (proj2 (in_seq _ _ _) (conj (Nat.le_0_l _) Hn))).
  now apply texto_eqb_eq in H.
Qed.

Lemma texto_de_Z_cuatro (y : Z) :
  (1000 <= y <= 9999)%Z ->
  texto_de_Z y
  = dos (Z.to_nat (y / 100)) ++ dos (Z.to_nat (y mod 100)).
Proof.
  intros Hy.
  assert (forallb
            (fun n =>
               let y := (1000 + Z.of_nat n)%Z in
               texto_eqb (texto_de_Z y)
                 (dos (Z.to_nat (y / 100)) ++ dos (Z.to_nat (y mod 100))))
            (seq 0 (90 * 100)) = true) as H by (vm_compute; reflexivity).
  rewrite forallb_forall in H.
  specialize (H (Z.to_nat (y - 1000))). cbv zeta in H.
  replace (1000 + Z.of_nat (Z.to_nat (y - 1000)))%Z with y in H by lia.
  apply texto_eqb_eq, H, in_seq. lia.
Qed.

(** The key of a current date, digit by digit. *)
Lemma claveDe_corriente (f : GmailGenComponent.Fecha) :
  fechaCorriente f ->
  GmailGenComponent.claveDe f
  = dos (Z.to_nat (GmailGenComponent.getFullYear f / 100))
    ++ dos (Z.to_nat (GmailGenComponent.getFullYear f mod 100))
    ++ [45%N] ++ dos (GmailGenComponent.getMonth f + 1)
    ++ [45%N] ++ dos (GmailGenComponent.getDate f).
Proof.
  intros [Hy [Hm Hd]]. unfold GmailGenComponent.claveDe.
  rewrite texto_de_Z_cuatro by assumption.
  rewrite !padStart2_dos by lia.
  now rewrite <- app_assoc.
Qed.

(** On current dates the order of the keys is the order of the days, and
    two keys are equal only for the same day. *)
Lemma claves_ordenan (f g : GmailGenComponent.Fecha) :
  fechaCorriente f -> fechaCorriente g ->
  (menorQue (GmailGenComponent.claveDe f) (GmailGenComponent.claveDe g) = true
   <-> antes f g)
  /\ (texto_eqb (GmailGenComponent.claveDe f) (GmailGenComponent.claveDe g)
      = true
      <-> GmailGenComponent.getFullYear f = GmailGenComponent.getFullYear g
          /\ GmailGenComponent.getMonth f = GmailGenComponent.getMonth g
          /\ GmailGenComponent.getDate f = GmailGenComponent.getDate g).
Proof.
  intros Hf Hg. rewrite !claveDe_corriente by assumption.
  destruct Hf as [Hfy [Hfm Hfd]], Hg as [Hgy [Hgm Hgd]].
  unfold antes.
  set (yf := GmailGenComponent.getFullYear f) in *.
  set (yg := GmailGenComponent.getFullYear g) in *.
  clearbody yf yg.
  assert (Z.to_nat (yf / 100) < 100)%nat as Bf'
    by (apply Nat2Z.inj_lt; rewrite Z2Nat.id;
        [apply Z.div_lt_upper_bound | apply Z.div_pos]; lia).
  assert (Z.to_nat (yg / 100) < 100)%nat as Bg'
    by (apply Nat2Z.inj_lt; rewrite Z2Nat.id;
        [apply Z.div_lt_upper_bound | apply Z.div_pos]; lia).
  pose proof (Z.mod_pos_bound yf 100 ltac:(lia)) as Mf.
  pose proof (Z.mod_pos_bound yg 100 ltac:(lia)) as Mg.
  assert (Z.to_nat (yf mod 100) < 100)%nat as Bf by lia.
  assert (Z.to_nat (yg mod 100) < 100)%nat as Bg by lia.
  pose proof (Z.div_mod yf 100 ltac:(lia)) as Ef.
  pose proof (Z.div_mod yg 100 ltac:(lia)) as Eg.
  assert (0 <= yf / 100)%Z as Pf by (apply Z.div_pos; lia).
  assert (0 <= yg / 100)%Z as Pg by (apply Z.div_pos; lia).
  destruct (dos_orden Bf' Bg') as [L1 E1].
  destruct (dos_orden Bf Bg) as [L2 E2].
  destruct (@dos_orden (GmailGenComponent.getMonth f + 1)
              (GmailGenComponent.getMonth g + 1)) as [L3 E3]; try lia.
  destruct (@dos_orden (GmailGenComponent.getDate f)
              (GmailGenComponent.getDate g)) as [L4 E4]; try lia.
  set (af := (yf / 100)%Z) in *. set (ag := (yg / 100)%Z) in *.
  set (bf := (yf mod 100)%Z) in *. set (bg := (yg mod 100)%Z) in *.
  clearbody af ag bf bg.
  split.
  - rewrite !menorQue_app by reflexivity.
    rewrite L1, L2, L3, L4, E1, E2, E3.
    replace (menorQue [45%N] [45%N]) with false by reflexivity.
    replace (texto_eqb [45%N] [45%N]) with true by reflexivity.
    cbn [orb andb].
    rewrite !orb_true_iff, !andb_true_iff, !orb_true_iff, !andb_true_iff,
      !orb_true_iff, !andb_true_iff.
    rewrite !Nat.ltb_lt, !Nat.eqb_eq. lia.
  - rewrite !texto_eqb_app by reflexivity.
    rewrite E1, E2, E3, E4.
    replace (texto_eqb [45%N] [45%N]) with true by reflexivity.
    rewrite !andb_true_iff. cbn [andb].
    rewrite !Nat.eqb_eq. lia.
Qed.

Lemma menorQue_irrefl (a : texto) : menorQue a a = false.
Proof.
  induction a as [| x a IH]; cbn [menorQue]; [reflexivity |].
  now rewrite N.ltb_irrefl, N.eqb_refl.
Qed.

(** X14: the two history getters of the Gmail-GEN page, each with the
    clock reading of its own [new Date()].  An entry without a date, or
    with one that does not parse, is in neither list.  An entry is in both
    lists only if the key of the day [enviosHoy] read is below the key of
    the day [enviosPasados] read, so never when both read the same day;
    where both readings have a four-digit year, only if the day changed
    between them.  For an entry whose date has a four-digit year the
    comparison of the keys is the comparison of the days: the entry is
    among [enviosPasados] exactly when its day is before the one that
    getter read, that one having a four-digit year, and among [enviosHoy]
    exactly when it is the day that getter read, under the same
    condition. *)
Theorem envios_por_dia :
  forall (nuevaFecha : texto -> option GmailGenComponent.Fecha)
         (todayHoy todayPasados : GmailGenComponent.Fecha)
         (historialEnvios : list GmailGenComponent.GmailEnvioHistorial)
         (envio : GmailGenComponent.GmailEnvioHistorial),
    let hoy :=
      GmailGenComponent.enviosHoy nuevaFecha todayHoy historialEnvios in
    let pasados :=
      GmailGenComponent.enviosPasados nuevaFecha todayPasados
        historialEnvios in
    (match GmailGenComponent.fecha_resumen envio with
     | Some (c :: s) => nuevaFecha (c :: s) = None
     | _ => True
     end ->
     ~ In envio hoy /\ ~ In envio pasados)
    /\ (In envio hoy -> In envio pasados ->
        menorQue (GmailGenComponent.claveDe todayHoy)
          (GmailGenComponent.claveDe todayPasados) = true
        /\ GmailGenComponent.claveDe todayHoy
           <> GmailGenComponent.claveDe todayPasados
        /\ (fechaCorriente todayHoy -> fechaCorriente todayPasados ->
            antes todayHoy todayPasados))
    /\ (forall s fecha,
          GmailGenComponent.fecha_resumen envio = Some s ->
          s <> [] ->
          nuevaFecha s = Some fecha ->
          fechaCorriente fecha ->
          (fechaCorriente todayPasados ->
           (In envio pasados <->
            In envio historialEnvios /\ antes fecha todayPasados))
          /\ (fechaCorriente todayHoy ->
              (In envio hoy <->
               In envio historialEnvios
               /\ GmailGenComponent.getFullYear fecha
                  = GmailGenComponent.getFullYear todayHoy
               /\ GmailGenComponent.getMonth fecha
                  = GmailGenComponent.getMonth todayHoy
               /\ GmailGenComponent.getDate fecha
                  = GmailGenComponent.getDate todayHoy))).
Proof.
  intros nuevaFecha todayHoy todayPasados historialEnvios envio hoy pasados.
  subst hoy pasados.
  unfold GmailGenComponent.enviosHoy, GmailGenComponent.enviosPasados.
  rewrite !filter_In. unfold GmailGenComponent.conClave.
  split; [| split].
  - intros H.
    destruct (GmailGenComponent.fecha_resumen envio) as [[| c s] |];
      try (split; intros [_ H']; discriminate).
    rewrite H. split; intros [_ H']; discriminate.
  - intros [_ H1] [_ H2].
    destruct (GmailGenComponent.fecha_resumen envio) as [[| c s] |];
      try discriminate.
    destruct (nuevaFecha (c :: s)) as [fecha |]; [| discriminate].
    apply texto_eqb_eq in H1. rewrite H1 in H2.
    split; [exact H2 |]. split.
    + intros E. rewrite E, menorQue_irrefl in H2. discriminate.
    + intros Hh Hp. now apply (claves_ordenan Hh Hp).
  - intros s fecha Hs Hne Hn Hf.
    rewrite !filter_In. unfold GmailGenComponent.conClave. rewrite Hs.
    destruct s as [| c s]; [now elim Hne |]. rewrite Hn. split.
    + intros Ht. destruct (claves_ordenan Hf Ht) as [Hlt _].
      rewrite Hlt. tauto.
    + intros Ht. destruct (claves_ordenan Hf Ht) as [_ Heq].
      rewrite Heq. tauto.
Qed.

Lemma envios_por_dia_ejemplo :
  let nuevaFecha s :=
    if texto_eqb s (lit "2024-04-30")
    then Some {| GmailGenComponent.getFullYear := 2024;
                 GmailGenComponent.getMonth := 3;
                 GmailGenComponent.getDate := 30 |}
    else None in
  let abril30 :=
    {| GmailGenComponent.getFullYear := 2024;
       GmailGenComponent.getMonth := 3;
       GmailGenComponent.getDate := 30 |} in
  let mayo1 :=
    {| GmailGenComponent.getFullYear := 2024;
       GmailGenComponent.getMonth := 4;
       GmailGenComponent.getDate := 1 |} in
  let envio :=
    {| GmailGenComponent.id_envio := 1;
       GmailGenComponent.fecha_resumen := Some (lit "2024-04-30");
       GmailGenComponent.resto := VNull |} in
  In envio (GmailGenComponent.enviosHoy nuevaFecha abril30 [envio])
  /\ In envio (GmailGenComponent.enviosPasados nuevaFecha mayo1 [envio])
  /\ antes abril30 mayo1
  /\ GmailGenComponent.enviosPasados nuevaFecha abril30 [envio] = [].
Proof.
  intros nuevaFecha abril30 mayo1 envio.
  assert (fechaCorriente abril30) as Ha by (unfold fechaCorriente; cbn; lia).
  assert (fechaCorriente mayo1) as Hm by (unfold fechaCorriente; cbn; lia).
  destruct (envios_por_dia nuevaFecha abril30 mayo1 [envio] envio)
    as [_ [Hd H]].
  destruct (H (lit "2024-04-30") abril30 eq_refl ltac:(discriminate) eq_refl
              Ha) as [Hp Hh].
  assert (In envio (GmailGenComponent.enviosHoy nuevaFecha abril30 [envio]))
    as H1 by (apply (Hh Ha); repeat split; now left).
  assert (In envio (GmailGenComponent.enviosPasados nuevaFecha mayo1 [envio]))
    as H2.
  { apply (Hp Hm). split; [now left |]. right. split; [reflexivity |].
    left. cbn. lia. }
  split; [exact H1 |]. split; [exact H2 |].
  split; [exact (proj2 (proj2 (Hd H1 H2)) Ha Hm) | reflexivity].
Defined.

(** * The JSON summaries of the two revisions *)

Section Resumenes.

Variable pl : Plataforma.

Lemma gruposDeDatos_mismos (estado : GmailGroupEstado) (index : nat)
    (datos : Origen.Datos) :
  Forall2 mismoGrupo
    (GmailGenService.gruposDeDatos pl estado index datos)
    (GmailGenService001.gruposDeDatos pl estado index datos).
Proof.
  revert index.
  induction datos as [| [nombre [detalles |]] r IH]; intros index;
    cbn [GmailGenService.gruposDeDatos GmailGenService001.gruposDeDatos];
    [constructor | | apply IH].
  constructor; [| apply IH]. repeat split.
Qed.

Lemma resumirRespuesta_exito (estado : GmailGroupEstado) (porDefecto : texto)
    (parsed : option Origen.Respuesta) :
  success (GmailGenService.resumirRespuesta pl estado parsed) = true ->
  success (GmailGenService001.resumirRespuesta pl estado porDefecto parsed)
  = true.
Proof.
  unfold GmailGenService.resumirRespuesta,
    GmailGenService001.resumirRespuesta.
  destruct parsed as [r |]; cbn [orb]; [| discriminate].
  destruct (coalescer (coalescer _ _) (VNum 500)) as [| | b | x | t | l | c];
    cbn [Number];
    try (intros _; reflexivity).
  destruct (ge400 x); [discriminate | reflexivity].
Qed.

Lemma resumenes_comparados (estado : GmailGroupEstado) (porDefecto : texto)
    (parsed : option Origen.Respuesta) :
  let r := GmailGenService.resumirRespuesta pl estado parsed in
  let r1 := GmailGenService001.resumirRespuesta pl estado porDefecto parsed in
  (success r = true -> success r1 = true)
  /\ (forall grupos grupos1,
        data r = Some grupos -> data r1 = Some grupos1 ->
        Forall2 mismoGrupo grupos grupos1
        /\ Forall (fun g => GmailEmailGroup.estado g = estado) grupos).
Proof.
  intros r r1. split; [apply resumirRespuesta_exito |].
  intros grupos grupos1 H H1.
  apply resumirRespuesta_datos in H.
  apply resumirRespuesta001_datos in H1. subst. split.
  - apply gruposDeDatos_mismos.
  - generalize 0%nat.
    induction (GmailGenService.datosDe parsed) as [| [n [d |]] r' IH];
      intros index; cbn [GmailGenService.gruposDeDatos]; auto.
Qed.

End Resumenes.

(** X15: the JSON summaries of the two revisions on the same answer of the
    store.  Neither touches the world.  Whenever the summary of
    GmailGenService.ts succeeds, that of the sibling revision does too (the
    sibling is the more lenient: it refuses a status only if it is a
    number), and the groups they return then agree one by one on provider
    id, name, address, colour, state and payments -- the totals apart --,
    with the state [enviado] in [getResumenEnviosFecha] and [pendiente] in
    [getCorreosPendientesGeneral]. *)
Theorem resumenes_de_las_revisiones :
  forall (pl : Plataforma) (ent : Entorno) (usuarioId : Z)
         (fecha : option texto) (w : Mundo),
    let e := GmailGenService.getResumenEnviosFecha pl ent usuarioId fecha w in
    let e1 :=
      GmailGenService001.getResumenEnviosFecha pl ent usuarioId fecha w in
    let p := GmailGenService.getCorreosPendientesGeneral pl ent usuarioId w in
    let p1 :=
      GmailGenService001.getCorreosPendientesGeneral pl ent usuarioId w in
    (fst e = w /\ fst e1 = w /\ fst p = w /\ fst p1 = w)
    /\ (success (snd e) = true -> success (snd e1) = true)
    /\ (success (snd p) = true -> success (snd p1) = true)
    /\ (forall grupos grupos1,
          data (snd e) = Some grupos -> data (snd e1) = Some grupos1 ->
          Forall2 mismoGrupo grupos grupos1
          /\ Forall (fun g => GmailEmailGroup.estado g = enviado) grupos)
    /\ (forall grupos grupos1,
          data (snd p) = Some grupos -> data (snd p1) = Some grupos1 ->
          Forall2 mismoGrupo grupos grupos1
          /\ Forall (fun g => GmailEmailGroup.estado g = pendiente) grupos).
Proof.
  intros pl ent usuarioId fecha w e e1 p p1. subst e e1 p p1.
  unfold GmailGenService.getResumenEnviosFecha,
    GmailGenService001.getResumenEnviosFecha,
    GmailGenService.getCorreosPendientesGeneral,
    GmailGenService001.getCorreosPendientesGeneral, intentar, bind.
  destruct (resumen_envios_fecha_get ent (base w) usuarioId _)
    as [ee | parsedE];
    destruct (correos_pendientes_general_get ent (base w) usuarioId)
      as [ep | parsedP];
    cbn [fst snd ret success data];
    (split; [now repeat split |]);
    repeat match goal with
           | |- _ /\ _ => split
           end;
    try discriminate;
    try (apply (resumenes_comparados pl enviado
                  GmailGenService001.textoEnvios parsedE));
    try (apply (resumenes_comparados pl pendiente
                  GmailGenService001.textoPendientes parsedP)).
Qed.

Lemma resumenes_de_las_revisiones_ejemplo :
  exists g g1,
    data (snd (GmailGenService.getResumenEnviosFecha Ejemplo.plataforma
                 Ejemplo.entornoEnvios 1 None Ejemplo.mundo)) = Some [g]
    /\ data (snd (GmailGenService001.getResumenEnviosFecha Ejemplo.plataforma
                    Ejemplo.entornoEnvios 1 None Ejemplo.mundo)) = Some [g1]
    /\ mismoGrupo g g1
    /\ GmailEmailGroup.estado g = enviado.
Proof.
  eexists. eexists. split; [reflexivity |]. split; [reflexivity |].
  destruct (proj1 (proj2 (proj2 (proj2
             (resumenes_de_las_revisiones Ejemplo.plataforma
                Ejemplo.entornoEnvios 1 None Ejemplo.mundo))))
             _ _ eq_refl eq_refl) as [H2 HF].
  inversion H2 as [| ? ? ? ? Hg _]; subst.
  inversion HF as [| ? ? He _]; subst.
  split; [exact Hg | exact He].
Defined.

(** * The summary after a dispatch *)




Section ResumenTrasEnvio.

Variables (pl : Plataforma) (ent : Entorno) (estadoInicial : texto).
Variables (usuarioId : Z) (fecha asunto mensaje : option texto) (w : Mundo).

Hypothesis colacion_total :
  forall a b, colacion pl a b = true \/ colacion pl b a = true.
Hypothesis colacion_trans :
  forall a b c, colacion pl a b = true -> colacion pl b c = true ->
                colacion pl a c = true.
Hypothesis ids_unicos : NoDup (map Tabla.id (proveedores (base w))).
Hypothesis nombres_unicos : NoDup (map Tabla.nombre (proveedores (base w))).
Hypothesis pagos_unicos : NoDup (map Tabla.id_pago (pagos (base w))).

Local Abbreviation rows :=
  (consultaPagosDirectos pl (base w) usuarioId
     (GmailGenService.fechaO ent fecha) None).



End ResumenTrasEnvio.

Lemma truthy_o_bien (a b : jsval) :
  truthy b = true -> truthy (o_bien a b) = true.
Proof.
  intros H. unfold o_bien. now destruct (truthy a) eqn:E.
Qed.

Section FinDelEscaneo.

Import DocumentUpload.

Variable minusculaUnicode : N -> texto.
Variable servicio : Llamada -> Notificacion.
Variable leer : File -> Lectura.

(** How an accepted or refused notification leaves the component. *)
Lemma observar_fin (mensajeExito textoError textoDesconocido : texto)
    (factura recargar : bool) (cantidadArchivos : nat) (st : Componente)
    (n : Notificacion) :
  mensajeExito <> [] -> textoError <> [] -> textoDesconocido <> [] ->
  let r := observar mensajeExito textoError textoDesconocido factura recargar
             cantidadArchivos st n in
  isScanning (fst r) = false
  /\ ((isScanSuccess (fst r) = true
       /\ scanError (fst r) = VNull
       /\ truthy (scanMessage (fst r)) = true
       /\ (exists response, n = next response /\ aceptado response = true)
       /\ snd r <> [])
      \/ (isScanSuccess (fst r) = false
          /\ truthy (scanError (fst r)) = true
          /\ scanMessage (fst r) = VNull
          /\ snd r = [])).
Proof.
  intros H1 H2 H3 r. subst r. unfold observar.
  assert (forall t : texto, t <> [] -> truthy (VStr t) = true) as Ht
    by (intros [| c t] H; [now elim H | reflexivity]).
  destruct n as [response | campos].
  - destruct (aceptado response) eqn:Ha; cbn [fst snd isScanning
      isScanSuccess scanError scanMessage]; (split; [reflexivity |]).
    + left. repeat split.
      * apply truthy_o_bien. now apply Ht.
      * now exists response.
      * discriminate.
    + right. repeat split. do 2 apply truthy_o_bien. now apply Ht.
  - cbn [fst snd isScanning isScanSuccess scanError scanMessage].
    split; [reflexivity |]. right. repeat split.
    do 3 apply truthy_o_bien. now apply Ht.
Qed.

(** X17: how [onScanCard] ends.  Either the scan is a success: a document
    request was issued and answered with code 200 and [estado] true, the
    error is cleared, a message is shown, the spinner is off and the audit
    event follows the request; or it is not: an error text is shown and no
    call follows the request, if one was made at all. *)
Theorem fin_del_escaneo :
  forall (cardId : texto) (st : Componente),
    let r := onScanCard minusculaUnicode servicio leer cardId st in
    (isScanSuccess (fst r) = true
     /\ isScanning (fst r) = false
     /\ scanError (fst r) = VNull
     /\ truthy (scanMessage (fst r)) = true
     /\ exists llamada evento posteriores response,
          snd r = llamada :: evento :: posteriores
          /\ servicio llamada = next response
          /\ aceptado response = true
          /\ exists tipo_entidad entidad_id descripcion,
               evento = registrarEvento tipo_entidad entidad_id descripcion)
    \/ (isScanSuccess (fst r) = false
        /\ truthy (scanError (fst r)) = true
        /\ (List.length (snd r) <= 1)%nat).
Proof.
  intros cardId st r. subst r. unfold onScanCard.
  cbn [documentCards pago].
  destruct (buscarTarjeta (documentCards st) cardId) as [card |] eqn:Hc;
    [| right; cbn; repeat split; lia].
  destruct (files card) as [| f0 fs] eqn:Hfs;
    [right; cbn; repeat split; lia |].
  rewrite <- Hfs.
  destruct (filter (DocumentUpload.esPdf minusculaUnicode) (files card))
    as [| p ps] eqn:Hp; [right; cbn; repeat split; lia |].
  rewrite <- Hp.
  set (limitados :=
         firstn (maxFilesDe cardId)
           (filter (DocumentUpload.esPdf minusculaUnicode) (files card))).
  assert (limitados <> []) as Hne.
  { subst limitados. rewrite Hp. unfold maxFilesDe.
    destruct (texto_eqb cardId (lit "bank-doc")); discriminate. }
  destruct (DocumentUpload.leerArchivos leer limitados [])
    as [texto | archivos] eqn:Hl.
  { right. cbn [fst snd isScanSuccess scanError truthy List.length].
    apply leerArchivos_inl in Hl. repeat split; [now destruct texto | lia]. }
  apply leerArchivos_inr in Hl. destruct Hl as [nuevos [-> HF]].
  cbn [app] in *.
  destruct nuevos as [| primer resto].
  { apply Forall2_length in HF.
    destruct limitados; [now elim Hne | discriminate HF]. }
  assert (forall llamada a b c d e n,
            a <> [] -> b <> [] -> c <> [] ->
            let r := suscribir servicio llamada (observar a b c d e n)
                       {| pago := pago st;
                          isScanning := true;
                          scanMessage := VStr (lit "Escaneando documento...");
                          scanError := VNull;
                          isScanSuccess := false;
                          activeScanCardId := Some cardId;
                          documentCards := documentCards st |} in
            (isScanSuccess (fst r) = true
             /\ isScanning (fst r) = false
             /\ scanError (fst r) = VNull
             /\ truthy (scanMessage (fst r)) = true
             /\ exists llamada' evento posteriores response,
                  snd r = llamada' :: evento :: posteriores
                  /\ servicio llamada' = next response
                  /\ aceptado response = true
                  /\ exists tipo_entidad entidad_id descripcion,
                       evento
                       = registrarEvento tipo_entidad entidad_id descripcion)
            \/ (isScanSuccess (fst r) = false
                /\ truthy (scanError (fst r)) = true
                /\ (List.length (snd r) <= 1)%nat)) as Hsus.
  { intros llamada a b c d e n Ha Hb Hcc r. subst r.
    unfold suscribir. cbn [fst snd].
    match goal with
    | |- context [observar a b c d e n ?s ?x] =>
        destruct (@observar_fin a b c d e n s x Ha Hb Hcc)
          as [Hi [[Hok [He [Hm [[response [Hn Hacc]] Hcalls]]]]
                 | [Hko [He [Hm Hcalls]]]]];
        destruct (observar_llamadas a b c d e n s x) as [Hnil | Hev]
    end.
    - congruence.
    - left. repeat split; try assumption.
      rewrite Hev. do 4 eexists. split; [reflexivity |].
      split; [exact Hn |]. split; [exact Hacc |].
      unfold registrarEventoSubidaPdf. do 3 eexists. reflexivity.
    - right. rewrite Hnil. cbn. repeat split; try assumption. lia.
    - right. rewrite Hcalls. cbn. repeat split; try assumption. lia. }
  destruct (texto_eqb cardId (lit "bank-doc")).
  - apply Hsus; discriminate.
  - destruct (pago st); apply Hsus; discriminate.
Qed.

End FinDelEscaneo.

(** * Two executions over the same rows *)




Section MismasFilas.

Variables (pl : Plataforma) (db db' : BaseDatos).

Hypothesis mismas : mismasFilas db db'.




End MismasFilas.




(** ** Every order the ORDER BY allows is the order of some scan *)

Lemma ordenar_de_ordenado (A K : Type) (clave : A -> K) (le : K -> K -> bool)
    (l : list A) :
  StronglySorted (fun a b => le (clave a) (clave b) = true) l ->
  ordenar clave le l = l.
Proof.
  intros H. induction H as [| x r _ IH Hx]; cbn [ordenar]; [reflexivity |].
  rewrite IH. now apply insertar_cabeza.
Qed.

Lemma filter_flat_map (A B : Type) (f : B -> bool) (g : A -> list B)
    (l : list A) :
  filter f (flat_map g l) = flat_map (fun x => filter f (g x)) l.
Proof.
  induction l as [| x r IH]; cbn [flat_map]; [reflexivity |].
  now rewrite filter_app, IH.
Qed.

Lemma un_proveedor_por_id (provs : list Tabla.Proveedor) (i : Z) :
  NoDup (map Tabla.id provs) ->
  (List.length (filter (fun pr => (i =? Tabla.id pr)%Z) provs) <= 1)%nat.
Proof.
  induction provs as [| pr r IH]; cbn [map filter]; intros Hn; [cbn; lia |].
  inversion Hn as [| ? ? Hx Hr]; subst.
  destruct (Z.eqb_spec i (Tabla.id pr)) as [-> | Hne]; [| now apply IH].
  assert (filter (fun pr' => (Tabla.id pr =? Tabla.id pr')%Z) r = []) as ->.
  { apply sin_elementos. intros pr' Hin. apply filter_In in Hin.
    destruct Hin as [Hin He]. apply Z.eqb_eq in He.
    apply Hx. rewrite He. now apply in_map. }
  cbn. lia.
Qed.

Section OrdenAdmitido.

Variables (pl : Plataforma) (db : BaseDatos).
Variables (usuarioId : Z) (fecha : texto) (proveedorId : option Z).

Hypothesis ids_unicos : NoDup (map Tabla.id (proveedores db)).

(** The rows of the join that one payment gives and the WHERE clause
    keeps: one at most. *)
Let par (p : Tabla.Pago) : list (Tabla.Pago * Tabla.Proveedor) :=
  filter (elegible db usuarioId fecha proveedorId)
    (map (pair p)
       (filter (fun pr => (Tabla.proveedor_id p =? Tabla.id pr)%Z)
          (proveedores db))).

Let tiene (p : Tabla.Pago) : bool :=
  match par p with
  | [] => false
  | _ :: _ => true
  end.

Lemma par_uno (p : Tabla.Pago) : (List.length (par p) <= 1)%nat.
Proof.
  unfold par.
  pose proof (un_proveedor_por_id (proveedores db) (Tabla.proveedor_id p)
                ids_unicos) as H.
  pose proof (filter_length_le (elegible db usuarioId fecha proveedorId)
                (map (pair p)
                   (filter (fun pr => (Tabla.proveedor_id p =? Tabla.id pr)%Z)
                      (proveedores db)))) as H'.
  rewrite length_map in H'. lia.
Qed.

Lemma par_fst (p : Tabla.Pago) (x : Tabla.Pago * Tabla.Proveedor) :
  In x (par p) -> fst x = p.
Proof.
  unfold par. intros H. apply filter_In in H. destruct H as [H _].
  apply in_map_iff in H. now destruct H as [pr [<- _]].
Qed.

Lemma par_de (x : Tabla.Pago * Tabla.Proveedor) (p : Tabla.Pago) :
  In x (par p) -> par (fst x) = [x].
Proof.
  intros H. rewrite (par_fst _ _ H).
  pose proof (par_uno p) as Hl.
  destruct (par p) as [| y [| z r]]; cbn in *; try lia; try tauto.
  destruct H as [-> | []]. reflexivity.
Qed.

Lemma elegibles_por_pago :
  filter (elegible db usuarioId fecha proveedorId) (pagos_con_proveedor db)
  = flat_map par (pagos db).
Proof.
  unfold pagos_con_proveedor. now rewrite filter_flat_map.
Qed.

Lemma pagos_elegibles (l : list Tabla.Pago) :
  map fst (flat_map par l) = filter tiene l.
Proof.
  induction l as [| p r IH]; cbn [flat_map filter]; [reflexivity |].
  rewrite map_app, IH. unfold tiene.
  pose proof (par_uno p) as Hl. pose proof (par_fst p) as Hf.
  destruct (par p) as [| x [| y t]]; cbn in *; try lia; [reflexivity |].
  now rewrite (Hf x (or_introl eq_refl)).
Qed.

(** An answer the statement may give -- the selected rows in an order that
    the collation of the names allows -- is the answer of the model over
    the same tables with the payments listed in another order. *)
Lemma orden_admitido (rows : list Fila.t) :
  Permutation rows
    (consultaPagosDirectos pl db usuarioId fecha proveedorId) ->
  StronglySorted
    (fun a b =>
       colacion pl (Fila.nombre_proveedor a) (Fila.nombre_proveedor b) = true)
    rows ->
  exists db',
    mismasFilas db db'
    /\ consultaPagosDirectos pl db' usuarioId fecha proveedorId = rows.
Proof.
  intros Hperm Hsort.
  unfold consultaPagosDirectos in Hperm. rewrite ordenar_permuta in Hperm.
  apply Permutation_map_inv in Hperm. destruct Hperm as [X [-> HX]].
  rewrite elegibles_por_pago in HX.
  exists {| pagos := map fst X
                     ++ filter (fun p => negb (tiene p)) (pagos db);
            proveedores := proveedores db;
            detalle_envio_correo := detalle_envio_correo db;
            envios := envios db |}.
  split.
  - split; [| repeat split; reflexivity]. cbn [pagos].
    rewrite <- (Permutation_map fst HX), pagos_elegibles.
    rewrite Permutation_app_comm. symmetry. apply particion_permutacion.
  - unfold consultaPagosDirectos, pagos_con_proveedor.
    cbn [pagos proveedores]. rewrite filter_flat_map.
    match goal with
    | |- ordenar _ _ (map _ (flat_map ?f _)) = _ =>
        change f with par
    end.
    rewrite flat_map_app.
    assert (forall l, flat_map par (filter (fun p => negb (tiene p)) l) = [])
      as Hv.
    { intros l. induction l as [| p r IH]; cbn [filter]; [reflexivity |].
      unfold tiene at 1. destruct (par p) eqn:E; cbn [negb flat_map];
        [rewrite E; exact IH | exact IH]. }
    rewrite Hv, app_nil_r.
    assert (flat_map par (map fst X) = X) as ->.
    { assert (Forall (fun x => exists p, In x (par p)) X) as HF.
      { apply Forall_forall. intros x Hx.
        apply (Permutation_in _ (Permutation_sym HX)) in Hx.
        apply in_flat_map in Hx. destruct Hx as [p [_ Hp]]. now exists p. }
      clear - HF ids_unicos.
      induction HF as [| x r [p Hp] _ IH]; cbn [map flat_map];
        [reflexivity |].
      now rewrite (par_de _ _ Hp), IH. }
    now apply ordenar_de_ordenado.
Qed.

End OrdenAdmitido.

(** ** Rows and their providers *)




(** ** The groups of any list of rows *)

Section GruposDeFilas.

Variable pl : Plataforma.

Local Abbreviation gruposDeFilas rows :=
  (GmailGenService.gruposDe 0
     (fold_left (GmailGenService.agruparFila pl) rows [])).




End GruposDeFilas.



(** * The summary and the dispatch, over the same rows *)

Section ResumenYEnvio.

Variables (pl : Plataforma) (ent : Entorno).
Variables (usuarioId : Z) (fecha asunto mensaje : option texto).
Variables (w : Mundo) (g : GmailEmailGroup.t).

Hypothesis colacion_total :
  forall a b, colacion pl a b = true \/ colacion pl b a = true.
Hypothesis colacion_trans :
  forall a b c, colacion pl a b = true -> colacion pl b c = true ->
                colacion pl a c = true.
Hypothesis ids_unicos : NoDup (map Tabla.id (proveedores (base w))).
Hypothesis nombres_unicos : NoDup (map Tabla.nombre (proveedores (base w))).

Local Abbreviation rowsW :=
  (consultaPagosDirectos pl (base w) usuarioId
     (GmailGenService.fechaO ent fecha) None).

Hypothesis del_resumen :
  In g (GmailGenService.gruposDe 0
          (fold_left (GmailGenService.agruparFila pl) rowsW [])).
Hypothesis id_no_cero : GmailEmailGroup.id g <> 0%Z.


End ResumenYEnvio.



(** ** A dispatch repeated after a failed audit write *)



(** ** The summary after a dispatch, over the same rows *)



Section TrasElEnvio.

Variables (pl : Plataforma) (ent : Entorno) (estadoInicial : texto).
Variables (usuarioId : Z) (fecha asunto mensaje : option texto).
Variables (w wD wS : Mundo) (g : GmailEmailGroup.t).

Hypothesis colacion_total :
  forall a b, colacion pl a b = true \/ colacion pl b a = true.
Hypothesis colacion_trans :
  forall a b c, colacion pl a b = true -> colacion pl b c = true ->
                colacion pl a c = true.
Hypothesis ids_unicos : NoDup (map Tabla.id (proveedores (base w))).
Hypothesis nombres_unicos : NoDup (map Tabla.nombre (proveedores (base w))).
Hypothesis pagos_unicos : NoDup (map Tabla.id_pago (pagos (base w))).
Hypothesis select_responde : fallo_select ent = None.
Hypothesis almacen_modelado :
  registrar_envio_correo_con_detalles ent = Almacen.registrar estadoInicial.

Local Abbreviation consulta db :=
  (consultaPagosDirectos pl db usuarioId (GmailGenService.fechaO ent fecha)
     None).
Local Abbreviation grupos rows :=
  (GmailGenService.gruposDe 0
     (fold_left (GmailGenService.agruparFila pl) rows [])).
Local Abbreviation k := (GmailEmailGroup.proveedorNombre g).
Local Abbreviation otros :=
  (filter (fun r => negb (texto_eqb (Fila.nombre_proveedor r) k))
     (consulta (base w))).

Hypothesis del_resumen : In g (grupos (consulta (base w))).
Hypothesis id_no_cero : GmailEmailGroup.id g <> 0%Z.
Hypothesis mismas_D : mismasFilas (base w) (base wD).
Hypothesis mismas_S :
  mismasFilas
    (base (fst (GmailGenService.enviarCorreoProveedor pl ent usuarioId
                  (GmailEmailGroup.id g) fecha asunto mensaje wD)))
    (base wS).




End TrasElEnvio.


